(** * Cross-venue arbitrage engine: detector, risk gate, execution coordinator

    A shallow embedding of [exchange_manager.py], [risk_manager.py],
    [config.py] and [arbitrage_engine.py], and the properties of the
    specification checked against it.

    - Numbers.  Python's [float] is kept abstract behind the interface
      [PyFloat]; every function of the program is written once against it.
      Two instances are given: binary64 ([PrimFloat], what CPython computes
      with) and exact rationals ([Q], the idealisation used where a
      property needs exact sums).  Properties that depend only on the
      control flow are proved for every instance; properties that depend
      only on the order are proved for every instance with lawful
      comparisons, which both instances have.
    - Exceptions.  [/] raises [ZeroDivisionError] on a zero divisor and
      [d[k]] raises [KeyError] on a missing key; a function that can raise
      returns a [Result].
    - State.  Methods take the object and return the object they leave
      behind.  What a method reads from outside (the clock, the venues) is
      an argument.
    - The outside world.  [_execute_arbitrage] runs against collaborators
      that answer from a world state; what it does is recorded in a trace,
      each entry with the risk manager's active trades at that moment.
      One execution is modelled from its first statement to its return;
      the interleaving of the engine's periodic tasks is not. *)

From Stdlib Require Import ZArith QArith Qabs Qround List String Ascii Bool Lia Lqa.
From Stdlib Require Import DecimalString.
From Stdlib Require Import Floats.PrimFloat Floats.SpecFloat Floats.FloatOps Floats.FloatAxioms.
From Stdlib Require Uint63.
Import ListNotations.

Set Implicit Arguments.
Local Open Scope string_scope.

(* ================================================================== *)
(** * The Python runtime the program relies on *)
(* ================================================================== *)

Module Py.

(** The exceptions the modelled code can raise. *)
Inductive PyError : Type :=
| ZeroDivisionError
| KeyError (key : string)
| OtherException (name : string).

(** A computation either returns a value or raises. *)
Inductive Result (A : Type) : Type :=
| Ok (a : A)
| Raise (e : PyError).
Arguments Ok {A} a.
Arguments Raise {A} e.

Definition bind {A B : Type} (m : Result A) (k : A -> Result B) : Result B :=
  match m with
  | Ok a => k a
  | Raise e => Raise e
  end.

(** ** dict: insertion-ordered, one entry per key *)

Definition dict (V : Type) : Type := list (string * V).

(** [d.get(k)] *)
Fixpoint dict_get {V : Type} (k : string) (d : dict V) : option V :=
  match d with
  | [] => None
  | (k', v) :: rest => if String.eqb k k' then Some v else dict_get k rest
  end.

(** [d.get(k, default)] *)
Definition dict_get_default {V : Type} (k : string) (default : V) (d : dict V) : V :=
  match dict_get k d with
  | Some v => v
  | None => default
  end.

(** [d[k]] *)
Definition dict_item {V : Type} (k : string) (d : dict V) : Result V :=
  match dict_get k d with
  | Some v => Ok v
  | None => Raise (KeyError k)
  end.

(** [d[k] = v]: an existing key keeps its position, a new key goes last. *)
Fixpoint dict_set {V : Type} (k : string) (v : V) (d : dict V) : dict V :=
  match d with
  | [] => [(k, v)]
  | (k', v') :: rest =>
      if String.eqb k k' then (k, v) :: rest else (k', v') :: dict_set k v rest
  end.

(** [list(d.keys())] *)
Definition dict_keys {V : Type} (d : dict V) : list string := map fst d.

(** [len(x)] *)
Definition len {A : Type} (l : list A) : Z := Z.of_nat (List.length l).

(** ** float *)

(** The operations on [float] the program uses.  [lit q] is the value of
    the decimal literal [q] of the source text; [quot] is [/] on a divisor
    that is not zero; [lt] and [le] are [<] and [<=] ([a > b] is [lt b a],
    [a >= b] is [le b a]); [round2 x] is [round(x, 2)]. *)
Class PyFloat (F : Type) : Type := {
  lit : Q -> F;
  add : F -> F -> F;
  sub : F -> F -> F;
  mul : F -> F -> F;
  quot : F -> F -> F;
  is_zero : F -> bool;
  lt : F -> F -> bool;
  le : F -> F -> bool;
  absf : F -> F;
  round2 : F -> F
}.

Section Builtins.
Context {F : Type} {PF : PyFloat F}.

(** [a / b]: raises [ZeroDivisionError] on a zero divisor. *)
Definition truediv (a b : F) : Result F :=
  if is_zero b then Raise ZeroDivisionError else Ok (quot a b).

(** [min(a, b)]: the first argument unless the second is smaller. *)
Definition pymin (a b : F) : F := if lt b a then b else a.

(** [max(a, b)]: the first argument unless the second is larger. *)
Definition pymax (a b : F) : F := if lt a b then b else a.

(** What the order-dependent properties need of the comparisons: [<]
    implies [<=], [<=] is transitive, a value that compares to another is
    comparable to itself (it is not a NaN), a value above zero is not
    zero, and [0.0] is comparable to itself. *)
Record OrderLaws : Prop := {
  lt_le : forall a b : F, lt a b = true -> le a b = true;
  le_trans : forall a b c : F, le a b = true -> le b c = true -> le a c = true;
  lt_comparable : forall a b : F, lt a b = true -> le b b = true;
  positive_nonzero : forall b : F, lt (lit 0) b = true -> is_zero b = false;
  zero_comparable : le (lit 0.0 : F) (lit 0.0) = true
}.
End Builtins.

(** ** Exact rationals *)

(** Round half to even to the nearest integer. *)
Definition round_half_even (y : Q) : Z :=
  let f := Qfloor y in
  match Qcompare (y - inject_Z f)%Q (1 # 2)%Q with
  | Lt => f
  | Gt => (f + 1)%Z
  | Eq => if Z.even f then f else (f + 1)%Z
  end.

Definition Qround2 (x : Q) : Q :=
  (inject_Z (round_half_even (x * 100)%Q) / 100)%Q.

#[export] Instance PyFloat_Q : PyFloat Q := {
  lit := fun q => q;
  add := Qplus;
  sub := Qminus;
  mul := Qmult;
  quot := Qdiv;
  is_zero := fun x => Qeq_bool x 0;
  lt := fun a b => negb (Qle_bool b a);
  le := Qle_bool;
  absf := Qabs;
  round2 := Qround2
}.

(** ** binary64 *)

Definition float_of_Z (z : Z) : float :=
  match z with
  | Z0 => PrimFloat.zero
  | Zpos _ => PrimFloat.of_uint63 (Uint63.of_Z z)
  | Zneg p => PrimFloat.opp (PrimFloat.of_uint63 (Uint63.of_Z (Zpos p)))
  end.

(** A decimal literal denotes the float nearest to it: the quotient of
    numerator and denominator, each exact below [2^53], correctly rounded. *)
Definition float_lit (q : Q) : float :=
  PrimFloat.div (float_of_Z (Qnum q)) (float_of_Z (Zpos (Qden q))).

(** The exact value of a finite float's magnitude. *)
Definition Q_of_mantissa (m : positive) (e : Z) : Q :=
  match e with
  | Z0 => inject_Z (Zpos m)
  | Zpos p => inject_Z (Zpos m * 2 ^ Zpos p)
  | Zneg p => Zpos m # (2 ^ p)
  end.

(** [round(x, 2)]: the exact binary value is rounded half to even to two
    decimals, and the float nearest to that decimal is returned; zeros,
    infinities, NaN and integral values are returned as they are.  The
    count of hundredths is exact as a float below [2^53], that is for
    sizes below about [9e13]. *)
Definition float_round2 (x : float) : float :=
  match Prim2SF x with
  | S754_finite s m e =>
      if (0 <=? e)%Z then x
      else
        let n := round_half_even (Q_of_mantissa m e * 100)%Q in
        let r := PrimFloat.div (float_of_Z n) (float_of_Z 100) in
        if s then PrimFloat.opp r else r
  | _ => x
  end.

#[export] Instance PyFloat_binary64 : PyFloat float := {
  lit := float_lit;
  add := PrimFloat.add;
  sub := PrimFloat.sub;
  mul := PrimFloat.mul;
  quot := PrimFloat.div;
  is_zero := fun x => PrimFloat.eqb x PrimFloat.zero;
  lt := PrimFloat.ltb;
  le := PrimFloat.leb;
  absf := PrimFloat.abs;
  round2 := float_round2
}.

End Py.
Import Py.

Notation "x <- m ;; k" := (bind m (fun x => k))
  (at level 61, m at next level, right associativity).

(* ================================================================== *)
(** * config.py *)
(* ================================================================== *)

Module Config.

Record ArbitrageConfig (F : Type) : Type := {
  min_profit_threshold : F;
  max_position_size : F;
  max_slippage : F;
  execution_delay : F;
  risk_per_trade : F
}.

Record Config (F : Type) : Type := {
  trading_pairs : list string;
  arbitrage : ArbitrageConfig F;
  price_update_interval : F;
  arbitrage_check_interval : F;
  max_daily_loss : F;
  max_concurrent_trades : Z;
  stop_loss_percentage : F
}.

Section Defaults.
Context {F : Type} {PF : PyFloat F}.

(** [ArbitrageConfig()] *)
Definition default_arbitrage : ArbitrageConfig F := {|
  min_profit_threshold := lit 0.001;
  max_position_size := lit 1000.0;
  max_slippage := lit 0.0005;
  execution_delay := lit 0.1;
  risk_per_trade := lit 0.02
|}.

(** [config = Config()] *)
Definition config : Config F := {|
  trading_pairs :=
    ["EUR/USD"; "GBP/USD"; "USD/JPY"; "USD/CHF";
     "AUD/USD"; "USD/CAD"; "NZD/USD"; "EUR/GBP";
     "EUR/JPY"; "GBP/JPY"; "CHF/JPY"; "EUR/CHF"];
  arbitrage := default_arbitrage;
  price_update_interval := lit 1.0;
  arbitrage_check_interval := lit 5.0;
  max_daily_loss := lit 100.0;
  max_concurrent_trades := 5;
  stop_loss_percentage := lit 0.02
|}.
End Defaults.

End Config.
Import Config.

(* ================================================================== *)
(** * exchange_manager.py *)
(* ================================================================== *)

Module ExchangeManager.

(** The dict [get_ticker] returns: the venue's quote for a symbol.  Bid
    and ask are taken to be numbers, as the arithmetic on them requires. *)
Record Ticker (F : Type) : Type := {
  exchange : string;
  symbol : string;
  bid : F;
  ask : F;
  last : F;
  volume : F;
  timestamp : Z
}.

(** The dict [find_arbitrage_opportunities] appends for a profitable
    direction. *)
Record Opportunity (F : Type) : Type := {
  opp_symbol : string;
  buy_exchange : string;
  sell_exchange : string;
  buy_price : F;
  sell_price : F;
  profit : F;
  profit_percentage : F;
  opp_volume : F
}.

Section Detector.
Context {F : Type} {PF : PyFloat F}.

(** The resolved configuration. *)
Variable cfg : Config F.

(** [self.exchanges.keys()], in insertion order. *)
Variable exchanges : list string.

(** [self.get_ticker]: the venue's answer, [None] when the venue is
    unknown or the fetch failed (the method catches every exception). *)
Variable get_ticker : string -> string -> option (Ticker F).

(** The entry [get_best_prices] stores for one venue. *)
Definition price_entry (t : Ticker F) (spread_percentage : F) : dict F :=
  [ ("bid", bid t);
    ("ask", ask t);
    ("spread", sub (ask t) (bid t));
    ("spread_percentage", spread_percentage) ].

(** The loop of [get_best_prices] over the remaining venues. *)
Fixpoint get_best_prices_from (sym : string) (names : list string)
         (best_prices : dict (dict F)) : Result (dict (dict F)) :=
  match names with
  | [] => Ok best_prices
  | exchange_name :: rest =>
      match get_ticker exchange_name sym with
      | Some ticker =>
          q <- truediv (sub (ask ticker) (bid ticker)) (bid ticker) ;;
          get_best_prices_from sym rest
            (dict_set exchange_name (price_entry ticker (mul q (lit 100)))
                      best_prices)
      | None => get_best_prices_from sym rest best_prices
      end
  end.

Definition get_best_prices (sym : string) : Result (dict (dict F)) :=
  get_best_prices_from sym exchanges [].

(** The body of the inner loop of [find_arbitrage_opportunities]: both
    directions of the pair [(exchange1, exchange2)]. *)
Definition check_pair (sym : string) (prices : dict (dict F))
           (exchange1 exchange2 : string)
           (opportunities : list (Opportunity F)) : Result (list (Opportunity F)) :=
  price1 <- dict_item exchange1 prices ;;
  price2 <- dict_item exchange2 prices ;;
  ask1 <- dict_item "ask" price1 ;;
  bid2 <- dict_item "bid" price2 ;;
  opportunities <-
    (if lt ask1 bid2 then
       let profit := sub bid2 ask1 in
       q <- truediv profit ask1 ;;
       let profit_percentage := mul q (lit 100) in
       if le (mul (min_profit_threshold (arbitrage cfg)) (lit 100)) profit_percentage
       then Ok (opportunities ++
                [ {| opp_symbol := sym;
                     buy_exchange := exchange1;
                     sell_exchange := exchange2;
                     buy_price := ask1;
                     sell_price := bid2;
                     profit := profit;
                     profit_percentage := profit_percentage;
                     opp_volume := pymin (dict_get_default "volume" (lit 0) price1)
                                         (dict_get_default "volume" (lit 0) price2) |} ])%list
       else Ok opportunities
     else Ok opportunities) ;;
  ask2 <- dict_item "ask" price2 ;;
  bid1 <- dict_item "bid" price1 ;;
  if lt ask2 bid1 then
    let profit := sub bid1 ask2 in
    q <- truediv profit ask2 ;;
    let profit_percentage := mul q (lit 100) in
    if le (mul (min_profit_threshold (arbitrage cfg)) (lit 100)) profit_percentage
    then Ok (opportunities ++
             [ {| opp_symbol := sym;
                  buy_exchange := exchange2;
                  sell_exchange := exchange1;
                  buy_price := ask2;
                  sell_price := bid1;
                  profit := profit;
                  profit_percentage := profit_percentage;
                  opp_volume := pymin (dict_get_default "volume" (lit 0) price1)
                                      (dict_get_default "volume" (lit 0) price2) |} ])%list
    else Ok opportunities
  else Ok opportunities.

(** [for j in range(i + 1, len(exchanges))] *)
Fixpoint scan_inner (sym : string) (prices : dict (dict F)) (exchange1 : string)
         (later : list string) (opportunities : list (Opportunity F))
  : Result (list (Opportunity F)) :=
  match later with
  | [] => Ok opportunities
  | exchange2 :: rest =>
      opportunities <- check_pair sym prices exchange1 exchange2 opportunities ;;
      scan_inner sym prices exchange1 rest opportunities
  end.

(** [for i in range(len(exchanges))] *)
Fixpoint scan_outer (sym : string) (prices : dict (dict F))
         (names : list string) (opportunities : list (Opportunity F))
  : Result (list (Opportunity F)) :=
  match names with
  | [] => Ok opportunities
  | exchange1 :: later =>
      opportunities <- scan_inner sym prices exchange1 later opportunities ;;
      scan_outer sym prices later opportunities
  end.

Definition find_arbitrage_opportunities (sym : string)
  : Result (list (Opportunity F)) :=
  prices <- get_best_prices sym ;;
  if (len prices <? 2)%Z then Ok []
  else scan_outer sym prices (dict_keys prices) [].

End Detector.

End ExchangeManager.
Import ExchangeManager.

(* ================================================================== *)
(** * risk_manager.py *)
(* ================================================================== *)

Module RiskManager.

(** A calendar date ([datetime.date]), as its day number; [<] on dates is
    [<] on day numbers. *)
Definition date : Type := Z.

(** An element of [self.active_trades], as [add_active_trade] builds it:
    every field but [start_time] is a [trade_info.get(...)]. *)
Record ActiveTrade (F : Type) : Type := {
  trade_id : option string;
  start_time : F;
  at_symbol : option string;
  at_buy_exchange : option string;
  at_sell_exchange : option string;
  position_size : option F;
  expected_profit : option F
}.

(** The keys [add_active_trade] reads from [trade_info], each optional. *)
Record NewTrade (F : Type) : Type := {
  nt_trade_id : option string;
  nt_symbol : option string;
  nt_buy_exchange : option string;
  nt_sell_exchange : option string;
  nt_position_size : option F;
  nt_expected_profit : option F
}.

(** The keys [record_trade] reads from [trade_info]: [trade_info['profit']]
    and [trade_info.get('trade_id')]. *)
Record CompletedTrade (F : Type) : Type := {
  ct_profit : F;
  ct_trade_id : option string
}.

Record RiskManager (F : Type) : Type := {
  daily_loss : F;
  daily_trades : Z;
  active_trades : list (ActiveTrade F);
  max_drawdown : F;
  peak_balance : F;
  current_balance : F;
  last_reset : date
}.

(** Truth value of an optional string: [None] and [''] are false. *)
Definition truthy (o : option string) : bool :=
  match o with
  | Some s => negb (String.eqb s "")
  | None => false
  end.

(** [a != b] on optional strings. *)
Definition ne_opt (a b : option string) : bool :=
  match a, b with
  | Some x, Some y => negb (String.eqb x y)
  | None, None => false
  | _, _ => true
  end.

Section Methods.
Context {F : Type} {PF : PyFloat F}.
Variable cfg : Config F.

(** [RiskManager()], where [today] is [datetime.now().date()]. *)
Definition __init__ (today : date) : RiskManager F := {|
  daily_loss := lit 0.0;
  daily_trades := 0;
  active_trades := [];
  max_drawdown := lit 0.0;
  peak_balance := lit 0.0;
  current_balance := lit 0.0;
  last_reset := today
|}.

Definition _reset_daily_counters (today : date) (self : RiskManager F)
  : RiskManager F :=
  if (last_reset self <? today)%Z then
    {| daily_loss := lit 0.0;
       daily_trades := 0;
       active_trades := active_trades self;
       max_drawdown := max_drawdown self;
       peak_balance := peak_balance self;
       current_balance := current_balance self;
       last_reset := today |}
  else self.

(** Returns the verdict and the state the call leaves behind. *)
Definition can_execute_trade (today : date) (opportunity : Opportunity F)
           (self : RiskManager F) : bool * RiskManager F :=
  let self := _reset_daily_counters today self in
  if le (max_daily_loss cfg) (daily_loss self) then (false, self)
  else if (max_concurrent_trades cfg <=? len (active_trades self))%Z then (false, self)
  else if le (lit 0.1) (max_drawdown self) then (false, self)
  else if lt (profit_percentage opportunity)
             (mul (min_profit_threshold (arbitrage cfg)) (lit 100))
       then (false, self)
  else
    let spread_percentage := profit_percentage opportunity in
    if lt (lit 5.0) spread_percentage then (false, self)
    else (true, self).

Definition _get_available_balance (self : RiskManager F) : F := lit 10000.0.

(** [calculate_position_size] from the line after the balance is read.
    The divisor is the literal [0.02], so [/] cannot raise. *)
Definition position_size_for (available_balance : F) : F :=
  let risk_amount := mul available_balance (risk_per_trade (arbitrage cfg)) in
  let potential_loss_percentage := lit 0.02 in
  let position_size := quot risk_amount potential_loss_percentage in
  let max_position := max_position_size (arbitrage cfg) in
  let position_size := pymin position_size max_position in
  let position_size := pymin position_size (mul available_balance (lit 0.8)) in
  let position_size := round2 position_size in
  position_size.

Definition calculate_position_size (opportunity : Opportunity F)
           (self : RiskManager F) : F :=
  let available_balance := _get_available_balance self in
  position_size_for available_balance.

Definition record_trade (trade_info : CompletedTrade F) (self : RiskManager F)
  : Result (RiskManager F) :=
  let daily_trades' := (daily_trades self + 1)%Z in
  self <-
    (if lt (lit 0) (ct_profit trade_info) then
       let current_balance' := add (current_balance self) (ct_profit trade_info) in
       Ok {| daily_loss := daily_loss self;
             daily_trades := daily_trades';
             active_trades := active_trades self;
             max_drawdown := max_drawdown self;
             peak_balance := pymax (peak_balance self) current_balance';
             current_balance := current_balance';
             last_reset := last_reset self |}
     else
       let loss := absf (ct_profit trade_info) in
       let daily_loss' := add (daily_loss self) loss in
       let current_balance' := sub (current_balance self) loss in
       max_drawdown' <-
         (if lt (lit 0) (peak_balance self) then
            current_drawdown <-
              truediv (sub (peak_balance self) current_balance') (peak_balance self) ;;
            Ok (pymax (max_drawdown self) current_drawdown)
          else Ok (max_drawdown self)) ;;
       Ok {| daily_loss := daily_loss';
             daily_trades := daily_trades';
             active_trades := active_trades self;
             max_drawdown := max_drawdown';
             peak_balance := peak_balance self;
             current_balance := current_balance';
             last_reset := last_reset self |}) ;;
  let tid := ct_trade_id trade_info in
  if truthy tid then
    Ok {| daily_loss := daily_loss self;
          daily_trades := daily_trades self;
          active_trades :=
            filter (fun t => ne_opt (trade_id t) tid) (active_trades self);
          max_drawdown := max_drawdown self;
          peak_balance := peak_balance self;
          current_balance := current_balance self;
          last_reset := last_reset self |}
  else Ok self.

(** [now] is [time.time()]. *)
Definition add_active_trade (now : F) (trade_info : NewTrade F)
           (self : RiskManager F) : RiskManager F :=
  {| daily_loss := daily_loss self;
     daily_trades := daily_trades self;
     active_trades :=
       active_trades self ++
       [ {| trade_id := nt_trade_id trade_info;
            start_time := now;
            at_symbol := nt_symbol trade_info;
            at_buy_exchange := nt_buy_exchange trade_info;
            at_sell_exchange := nt_sell_exchange trade_info;
            position_size := nt_position_size trade_info;
            expected_profit := nt_expected_profit trade_info |} ];
     max_drawdown := max_drawdown self;
     peak_balance := peak_balance self;
     current_balance := current_balance self;
     last_reset := last_reset self |}.

Definition update_balance (new_balance : F) (self : RiskManager F)
  : RiskManager F :=
  {| daily_loss := daily_loss self;
     daily_trades := daily_trades self;
     active_trades := active_trades self;
     max_drawdown := max_drawdown self;
     peak_balance := pymax (peak_balance self) new_balance;
     current_balance := new_balance;
     last_reset := last_reset self |}.

(** The methods that assign to [self]; the remaining ones
    ([calculate_position_size], [get_risk_metrics], [check_stop_loss],
    [calculate_risk_reward_ratio], [should_skip_opportunity],
    [get_position_sizing_recommendation]) only read. *)
Inductive Op : Type :=
| CanExecuteTrade (today : date) (opportunity : Opportunity F)
| ResetDailyCounters (today : date)
| RecordTrade (trade_info : CompletedTrade F)
| AddActiveTrade (now : F) (trade_info : NewTrade F)
| UpdateBalance (new_balance : F).

Definition step (op : Op) (self : RiskManager F) : Result (RiskManager F) :=
  match op with
  | CanExecuteTrade today opportunity =>
      Ok (snd (can_execute_trade today opportunity self))
  | ResetDailyCounters today => Ok (_reset_daily_counters today self)
  | RecordTrade trade_info => record_trade trade_info self
  | AddActiveTrade now trade_info => Ok (add_active_trade now trade_info self)
  | UpdateBalance new_balance => Ok (update_balance new_balance self)
  end.

Fixpoint run (ops : list Op) (self : RiskManager F) : Result (RiskManager F) :=
  match ops with
  | [] => Ok self
  | op :: rest => self <- step op self ;; run rest self
  end.

(** The date an operation reads from the clock, if it reads it. *)
Definition clock_of (op : Op) : option date :=
  match op with
  | CanExecuteTrade today _ => Some today
  | ResetDailyCounters today => Some today
  | _ => None
  end.

End Methods.

End RiskManager.
Import RiskManager.

(* ================================================================== *)
(** * arbitrage_engine.py *)
(* ================================================================== *)

Module ArbitrageEngine.

(** ['buy'] and ['sell']. *)
Inductive Side : Type := buy | sell.

(** What the engine reads of the order dict a venue returns. *)
Record Order : Type := { id : string }.

(** What the engine reads of the dict [get_order_status] returns. *)
Record OrderStatus (F : Type) : Type := {
  status : string;
  price : F
}.

(** [self.daily_stats] *)
Record DailyStats (F : Type) : Type := {
  total_trades : Z;
  successful_trades : Z;
  failed_trades : Z;
  total_profit : F;
  total_loss : F
}.

(** The arguments of [self.db.add_trade]. *)
Record TradeRow (F : Type) : Type := {
  row_pair : string;
  row_exchange_buy : string;
  row_exchange_sell : string;
  row_buy_price : F;
  row_sell_price : F;
  row_quantity : F;
  row_profit : F;
  row_profit_percentage : F;
  row_fees : F;
  row_notes : string
}.

(** The dict passed to [send_trade_notification]. *)
Record TradeNotice (F : Type) : Type := {
  notice_trade_id : string;
  notice_symbol : string;
  notice_buy_exchange : string;
  notice_sell_exchange : string;
  notice_profit : F;
  notice_profit_percentage : F
}.

Inductive Level : Type := INFO | ERROR.

(** What [_execute_arbitrage] does that is visible outside the engine
    object: calls to the exchange manager (each reaches a venue), the
    database, the notifier, the event loop and the logger. *)
Inductive Action (F : Type) : Type :=
| PlaceOrder (exchange_name sym : string) (side : Side) (amount : F)
| GetOrderStatus (exchange_name order_id : string)
| CancelOrder (exchange_name order_id : string)
| CalculateFees (exchange_name sym : string) (amount price : F)
| AddTrade (row : TradeRow F)
| SendTradeNotification (notice : TradeNotice F)
| Sleep (seconds : F)
| Log (level : Level) (trade : string).
Arguments GetOrderStatus {F} exchange_name order_id.
Arguments CancelOrder {F} exchange_name order_id.
Arguments Log {F} level trade.

(** The actions that reach a venue. *)
Definition is_venue_call {F : Type} (a : Action F) : bool :=
  match a with
  | PlaceOrder _ _ _ _ | GetOrderStatus _ _ | CancelOrder _ _
  | CalculateFees _ _ _ _ => true
  | _ => false
  end.

(** An action together with the trade ids held in
    [self.risk_manager.active_trades] at the moment it is issued. *)
Record Observed (F : Type) : Type := {
  action : Action F;
  registered : list (option string)
}.

(** The collaborators of the engine, answering from a state [W] of the
    outside world that every call may change. *)
Record Collaborators (F W : Type) : Type := {
  place_order : string -> string -> Side -> F -> W -> option Order * W;
  get_order_status : string -> string -> W -> option (OrderStatus F) * W;
  cancel_order : string -> string -> W -> bool * W;
  calculate_fees : string -> string -> F -> F -> W -> F * W;
  add_trade : TradeRow F -> W -> Result Z * W;
  send_trade_notification : TradeNotice F -> W -> W;
  sleep : F -> W -> W
}.

Record Engine (F : Type) : Type := {
  risk_manager : RiskManager F;
  running : bool;
  engine_active_trades : dict (ActiveTrade F);
  daily_stats : DailyStats F
}.

(** The engine, the world and what has been observed so far. *)
Record Run (F W : Type) : Type := {
  engine : Engine F;
  world : W;
  trace : list (Observed F)
}.

(** How a statement ends: control goes on with a value, the function
    returns, or an exception propagates. *)
Inductive Flow (A : Type) : Type :=
| Next (a : A)
| Returned
| Thrown (e : PyError).
Arguments Next {A} a.
Arguments Returned {A}.
Arguments Thrown {A} e.

Definition Exec (F W A : Type) : Type := Run F W -> Flow A * Run F W.

Definition exec_bind {F W A B : Type} (m : Exec F W A) (k : A -> Exec F W B)
  : Exec F W B :=
  fun r =>
    match m r with
    | (Next a, r') => k a r'
    | (Returned, r') => (Returned, r')
    | (Thrown e, r') => (Thrown e, r')
    end.

Notation "x <~ m ;; k" := (exec_bind m (fun x => k))
  (at level 61, m at next level, right associativity).
Notation "m ;;; k" := (exec_bind m (fun _ => k))
  (at level 61, right associativity).

Section Engine.
Context {F W : Type} {PF : PyFloat F}.
Variable cfg : Config F.
Variable ext : Collaborators F W.

(** [ArbitrageEngine()] *)
Definition __init__ (today : date) : Engine F := {|
  risk_manager := RiskManager.__init__ today;
  running := false;
  engine_active_trades := [];
  daily_stats := {| total_trades := 0;
                    successful_trades := 0;
                    failed_trades := 0;
                    total_profit := lit 0.0;
                    total_loss := lit 0.0 |}
|}.

Definition registered_now (e : Engine F) : list (option string) :=
  map (@trade_id F) (active_trades (risk_manager e)).

Definition observe (a : Action F) (r : Run F W) (w : W) : Run F W :=
  {| engine := engine r;
     world := w;
     trace := trace r ++ [ {| action := a; registered := registered_now (engine r) |} ] |}.

Definition ret {A : Type} (a : A) : Exec F W A := fun r => (Next a, r).

(** [return] *)
Definition return_ {A : Type} : Exec F W A := fun r => (Returned, r).

Definition lift {A : Type} (m : Result A) : Exec F W A :=
  fun r =>
    match m with
    | Ok a => (Next a, r)
    | Raise e => (Thrown e, r)
    end.

Definition log (level : Level) (trade : string) : Exec F W unit :=
  fun r => (Next tt, observe (Log level trade) r (world r)).

Definition do_place_order (exchange_name sym : string) (side : Side) (amount : F)
  : Exec F W (option Order) :=
  fun r =>
    let (answer, w) := place_order ext exchange_name sym side amount (world r) in
    (Next answer, observe (PlaceOrder exchange_name sym side amount) r w).

Definition do_get_order_status (exchange_name order_id : string)
  : Exec F W (option (OrderStatus F)) :=
  fun r =>
    let (answer, w) := get_order_status ext exchange_name order_id (world r) in
    (Next answer, observe (GetOrderStatus exchange_name order_id) r w).

Definition do_cancel_order (exchange_name order_id : string) : Exec F W bool :=
  fun r =>
    let (answer, w) := cancel_order ext exchange_name order_id (world r) in
    (Next answer, observe (CancelOrder exchange_name order_id) r w).

Definition do_calculate_fees (exchange_name sym : string) (amount price_ : F)
  : Exec F W F :=
  fun r =>
    let (answer, w) := calculate_fees ext exchange_name sym amount price_ (world r) in
    (Next answer, observe (CalculateFees exchange_name sym amount price_) r w).

Definition do_add_trade (row : TradeRow F) : Exec F W Z :=
  fun r =>
    let (answer, w) := add_trade ext row (world r) in
    let r' := observe (AddTrade row) r w in
    match answer with
    | Ok n => (Next n, r')
    | Raise e => (Thrown e, r')
    end.

Definition do_send_trade_notification (notice : TradeNotice F) : Exec F W unit :=
  fun r =>
    (Next tt, observe (SendTradeNotification notice) r
                      (send_trade_notification ext notice (world r))).

(** [await asyncio.sleep(seconds)] *)
Definition do_sleep (seconds : F) : Exec F W unit :=
  fun r => (Next tt, observe (Sleep seconds) r (sleep ext seconds (world r))).

Definition update_stats (f : DailyStats F -> DailyStats F) : Exec F W unit :=
  fun r =>
    (Next tt,
     {| engine := {| risk_manager := risk_manager (engine r);
                     running := running (engine r);
                     engine_active_trades := engine_active_trades (engine r);
                     daily_stats := f (daily_stats (engine r)) |};
        world := world r;
        trace := trace r |}).

(** [not s or s['status'] != 'closed'] is false exactly on a status
    dict whose status is ['closed']. *)
Definition closed (s : option (OrderStatus F)) : option (OrderStatus F) :=
  match s with
  | Some st => if String.eqb (status st) "closed" then Some st else None
  | None => None
  end.

(** [f"arb_{int(time.time() * 1000)}"], with [now_ms] the integer. *)
Definition make_trade_id (now_ms : Z) : string :=
  "arb_" ++ NilZero.string_of_int (Z.to_int now_ms).

Definition count_success (net_profit : F) (d : DailyStats F) : DailyStats F :=
  {| total_trades := total_trades d;
     successful_trades := (successful_trades d + 1)%Z;
     failed_trades := failed_trades d;
     total_profit := add (total_profit d) net_profit;
     total_loss := total_loss d |}.

Definition count_loss (net_profit : F) (d : DailyStats F) : DailyStats F :=
  {| total_trades := total_trades d;
     successful_trades := successful_trades d;
     failed_trades := (failed_trades d + 1)%Z;
     total_profit := total_profit d;
     total_loss := add (total_loss d) (absf net_profit) |}.

Definition count_failed (d : DailyStats F) : DailyStats F :=
  {| total_trades := total_trades d;
     successful_trades := successful_trades d;
     failed_trades := (failed_trades d + 1)%Z;
     total_profit := total_profit d;
     total_loss := total_loss d |}.

Definition count_total (d : DailyStats F) : DailyStats F :=
  {| total_trades := (total_trades d + 1)%Z;
     successful_trades := successful_trades d;
     failed_trades := failed_trades d;
     total_profit := total_profit d;
     total_loss := total_loss d |}.

(** The [try] block of [_execute_arbitrage]. *)
Definition try_block (tid : string) (opportunity : Opportunity F) : Exec F W unit :=
  log INFO tid ;;;
  position_size <~
    (fun r => (Next (calculate_position_size cfg opportunity
                       (risk_manager (engine r))), r)) ;;
  buy_order <~ do_place_order (buy_exchange opportunity) (opp_symbol opportunity)
                              buy position_size ;;
  match buy_order with
  | None => log ERROR tid ;;; return_
  | Some buy_order =>
      do_sleep (execution_delay (arbitrage cfg)) ;;;
      buy_status <~ do_get_order_status (buy_exchange opportunity) (id buy_order) ;;
      match closed buy_status with
      | None =>
          log ERROR tid ;;;
          do_cancel_order (buy_exchange opportunity) (id buy_order) ;;;
          return_
      | Some buy_status =>
          sell_order <~ do_place_order (sell_exchange opportunity)
                                       (opp_symbol opportunity) sell position_size ;;
          match sell_order with
          | None => log ERROR tid ;;; return_
          | Some sell_order =>
              do_sleep (execution_delay (arbitrage cfg)) ;;;
              sell_status <~ do_get_order_status (sell_exchange opportunity)
                                                 (id sell_order) ;;
              match closed sell_status with
              | None =>
                  log ERROR tid ;;;
                  do_cancel_order (sell_exchange opportunity) (id sell_order) ;;;
                  return_
              | Some sell_status =>
                  let actual_buy_price := price buy_status in
                  let actual_sell_price := price sell_status in
                  let actual_profit :=
                    mul (sub actual_sell_price actual_buy_price) position_size in
                  buy_fees <~ do_calculate_fees (buy_exchange opportunity)
                                (opp_symbol opportunity) position_size actual_buy_price ;;
                  sell_fees <~ do_calculate_fees (sell_exchange opportunity)
                                 (opp_symbol opportunity) position_size actual_sell_price ;;
                  let total_fees := add buy_fees sell_fees in
                  let net_profit := sub actual_profit total_fees in
                  q <~ lift (truediv actual_profit (mul actual_buy_price position_size)) ;;
                  do_add_trade
                    {| row_pair := opp_symbol opportunity;
                       row_exchange_buy := buy_exchange opportunity;
                       row_exchange_sell := sell_exchange opportunity;
                       row_buy_price := actual_buy_price;
                       row_sell_price := actual_sell_price;
                       row_quantity := position_size;
                       row_profit := actual_profit;
                       row_profit_percentage := mul q (lit 100);
                       row_fees := total_fees;
                       row_notes := "Arbitrage trade " ++ tid |} ;;;
                  update_stats (if lt (lit 0) net_profit
                                then count_success net_profit
                                else count_loss net_profit) ;;;
                  update_stats count_total ;;;
                  q' <~ lift (truediv net_profit (mul actual_buy_price position_size)) ;;
                  do_send_trade_notification
                    {| notice_trade_id := tid;
                       notice_symbol := opp_symbol opportunity;
                       notice_buy_exchange := buy_exchange opportunity;
                       notice_sell_exchange := sell_exchange opportunity;
                       notice_profit := net_profit;
                       notice_profit_percentage := mul q' (lit 100) |} ;;;
                  log INFO tid
              end
          end
      end
  end.

(** [_execute_arbitrage], with [now_ms = int(time.time() * 1000)]. *)
Definition _execute_arbitrage (now_ms : Z) (opportunity : Opportunity F)
           (r : Run F W) : Run F W :=
  let tid := make_trade_id now_ms in
  match try_block tid opportunity r with
  | (Thrown e, r') =>
      snd ((log ERROR tid ;;; update_stats count_failed) r')
  | (_, r') => r'
  end.

(** Executions one after the other, as [_check_arbitrage_opportunities]
    awaits them. *)
Fixpoint execute_all (todo : list (Z * Opportunity F)) (r : Run F W) : Run F W :=
  match todo with
  | [] => r
  | (now_ms, opportunity) :: rest =>
      execute_all rest (_execute_arbitrage now_ms opportunity r)
  end.

End Engine.

End ArbitrageEngine.
Import ArbitrageEngine.

(* ================================================================== *)
(** * Vocabulary of the specification *)
(* ================================================================== *)

Module DetectorSpec.
Section DetectorSpec.
Context {F : Type} {PF : PyFloat F}.
Variable cfg : Config F.
Variable exchanges : list string.
Variable get_ticker : string -> string -> option (Ticker F).
Variable sym : string.

(** [config.arbitrage.min_profit_threshold * 100], the threshold in
    percent. *)
Definition min_profit_pct : F :=
  mul (min_profit_threshold (arbitrage cfg)) (lit 100).

(** [(Y.bid - X.ask) / X.ask * 100] *)
Definition spread_pct (tX tY : Ticker F) : F :=
  mul (quot (sub (bid tY) (ask tX)) (ask tX)) (lit 100).

(** Buying on X and selling on Y is profitable and meets the
    threshold. *)
Definition qualifies (tX tY : Ticker F) : bool :=
  lt (ask tX) (bid tY) && le min_profit_pct (spread_pct tX tY).

(** No venue reports a zero bid or a zero ask. *)
Definition usable_quotes : Prop :=
  forall X t, In X exchanges -> get_ticker X sym = Some t ->
              is_zero (bid t) = false /\ is_zero (ask t) = false.

(** No zero ask among the venues of [names]. *)
Definition asks_nonzero (names : list string) : Prop :=
  forall X t, In X names -> get_ticker X sym = Some t -> is_zero (ask t) = false.

(** The detector returns a list holding an opportunity that buys on X
    and sells on Y. *)
Definition emits (r : Result (list (Opportunity F))) (X Y : string) : Prop :=
  exists opps o, r = Ok opps /\ In o opps /\
                 buy_exchange o = X /\ sell_exchange o = Y.

(** The opportunity the detector builds for the direction X to Y. *)
Definition opportunity_for (X Y : string) (tX tY : Ticker F) : Opportunity F :=
  {| opp_symbol := sym;
     buy_exchange := X;
     sell_exchange := Y;
     buy_price := ask tX;
     sell_price := bid tY;
     profit := sub (bid tY) (ask tX);
     profit_percentage := spread_pct tX tY;
     opp_volume := pymin (lit 0) (lit 0) |}.

Definition direction (X Y : string) : list (Opportunity F) :=
  match get_ticker X sym, get_ticker Y sym with
  | Some tX, Some tY =>
      if qualifies tX tY then [opportunity_for X Y tX tY] else []
  | _, _ => []
  end.

Definition pair_both (X1 X2 : string) : list (Opportunity F) :=
  (direction X1 X2 ++ direction X2 X1)%list.

Fixpoint all_pairs (names : list string) : list (Opportunity F) :=
  match names with
  | [] => []
  | X1 :: later => (flat_map (pair_both X1) later ++ all_pairs later)%list
  end.

(** The venues that answered. *)
Definition live (names : list string) : list string :=
  filter (fun X => match get_ticker X sym with Some _ => true | None => false end)
         names.

(** The entries [get_best_prices] stores for the venues that answered. *)
Definition entries (names : list string) : dict (dict F) :=
  flat_map (fun X => match get_ticker X sym with
                     | Some t =>
                         [(X, price_entry t
                                (mul (quot (sub (ask t) (bid t)) (bid t)) (lit 100)))]
                     | None => []
                     end) names.
End DetectorSpec.
End DetectorSpec.
Import DetectorSpec.

Module RiskSpec.
Section RiskSpec.
Context {F : Type} {PF : PyFloat F}.

(** The operation reads the clock and finds a date later than
    [last_reset]: the day rolls over. *)
Definition rolls_over (op : @Op F) (self : RiskManager F) : bool :=
  match clock_of op with
  | Some today => (last_reset self <? today)%Z
  | None => false
  end.

(** The position size before [round(position_size, 2)]. *)
Definition unrounded_size (cfg : Config F) (available_balance : F) : F :=
  pymin (pymin (quot (mul available_balance (risk_per_trade (arbitrage cfg)))
                     (lit 0.02))
               (max_position_size (arbitrage cfg)))
        (mul available_balance (lit 0.8)).
End RiskSpec.
End RiskSpec.
Import RiskSpec.

(** Concrete inputs used to run the program. *)
Module Scenarios.
Section Scenarios.
Context {F : Type} {PF : PyFloat F}.

Definition quote (venue sym : string) (b a vol : Q) : Ticker F :=
  {| exchange := venue; symbol := sym;
     bid := lit b; ask := lit a; last := lit a;
     volume := lit vol; timestamp := 0 |}.

(** The venues listed answer with the given (bid, ask, volume) for every
    symbol; every other venue fails. *)
Definition venue_quotes (quotes : dict (Q * Q * Q)) (venue sym : string)
  : option (Ticker F) :=
  match dict_get venue quotes with
  | Some (b, a, vol) => Some (quote venue sym b a vol)
  | None => None
  end.

(** Scenario A of the specification. *)
Definition scenario_A : string -> string -> option (Ticker F) :=
  venue_quotes [ ("A", (1.1998, 1.2000, 5)); ("B", (1.2008, 1.2010, 7)) ].

(** Venue A reports an empty ask side as an ask of zero; C and B are
    ordinary quotes, C's ask below B's bid. *)
Definition zero_ask_quotes : string -> string -> option (Ticker F) :=
  venue_quotes [ ("A", (1.1990, 0, 5));
                 ("B", (1.2050, 1.2060, 7));
                 ("C", (1.1980, 1.2000, 9)) ].

(** The configuration with another [min_profit_threshold]. *)
Definition with_min_profit_threshold (thr : Q) : Config F :=
  {| trading_pairs := trading_pairs (F:=F) config;
     arbitrage :=
       {| min_profit_threshold := lit thr;
          max_position_size := max_position_size (arbitrage config);
          max_slippage := max_slippage (arbitrage config);
          execution_delay := execution_delay (arbitrage config);
          risk_per_trade := risk_per_trade (arbitrage config) |};
     price_update_interval := price_update_interval config;
     arbitrage_check_interval := arbitrage_check_interval config;
     max_daily_loss := max_daily_loss config;
     max_concurrent_trades := max_concurrent_trades (F:=F) config;
     stop_loss_percentage := stop_loss_percentage config |}.


(** Venues that accept every order; an order's status is [answer]. The
    state of the world is the number of calls made so far. *)
Definition venues_answering (answer : string) (fill_price : F)
  : Collaborators F nat :=
  {| place_order := fun _ _ _ _ w => (Some {| id := "order-1" |}, S w);
     get_order_status := fun _ _ w =>
       (Some {| status := answer; price := fill_price |}, S w);
     cancel_order := fun _ _ w => (true, S w);
     calculate_fees := fun _ _ _ _ w => (lit 0, S w);
     add_trade := fun _ w => (Ok 1%Z, S w);
     send_trade_notification := fun _ w => S w;
     sleep := fun _ w => S w |}.

(** The buy order stays open. *)
Definition venues_never_filling : Collaborators F nat :=
  venues_answering "open" (lit 0).

(** Every order is filled at once. *)
Definition venues_filling : Collaborators F nat :=
  venues_answering "closed" (lit 1.2).

(** A newly constructed engine, nothing observed yet. *)
Definition fresh_run (today : date) : Run F nat :=
  {| engine := ArbitrageEngine.__init__ today; world := O; trace := [] |}.

(** Buy on A at 1.2000, sell on B at 1.2050. *)
Definition opportunity_A_B : Opportunity F :=
  {| opp_symbol := "EUR/USD";
     buy_exchange := "A";
     sell_exchange := "B";
     buy_price := lit 1.2000;
     sell_price := lit 1.2050;
     profit := sub (lit 1.2050) (lit 1.2000);
     profit_percentage :=
       mul (quot (sub (lit 1.2050) (lit 1.2000)) (lit 1.2000)) (lit 100);
     opp_volume := lit 0 |}.

(** A risk state in the middle of a day: some loss, [n] trades in
    flight. *)
Definition active_trade (n : nat) : ActiveTrade F :=
  {| trade_id := Some ("arb_" ++ NilZero.string_of_uint (Nat.to_uint n));
     start_time := lit 0;
     at_symbol := Some "EUR/USD";
     at_buy_exchange := Some "A";
     at_sell_exchange := Some "B";
     position_size := Some (lit 1000);
     expected_profit := None |}.

Definition mid_day (last : date) (loss : Q) (trades : Z) (in_flight : nat)
  : RiskManager F :=
  {| daily_loss := lit loss;
     daily_trades := trades;
     active_trades := map active_trade (seq 0 in_flight);
     max_drawdown := lit 0;
     peak_balance := lit 0;
     current_balance := lit 0;
     last_reset := last |}.

(** The risk state after a balance of 1000 and a loss of 150. *)
Definition after_drawdown (last : date) : RiskManager F :=
  {| daily_loss := add (lit 0.0) (absf (lit (-150)));
     daily_trades := 1;
     active_trades := [];
     max_drawdown :=
       pymax (lit 0.0)
             (quot (sub (pymax (lit 0.0) (lit 1000))
                        (sub (lit 1000) (absf (lit (-150)))))
                   (pymax (lit 0.0) (lit 1000)));
     peak_balance := pymax (lit 0.0) (lit 1000);
     current_balance := sub (lit 1000) (absf (lit (-150)));
     last_reset := last |}.
End Scenarios.
End Scenarios.
Import Scenarios.

(* ================================================================== *)
(** * risk_manager.py: the advisory methods *)
(* ================================================================== *)

Module RiskAdvisory.
Section RiskAdvisory.
Context {F : Type} {PF : PyFloat F}.
Variable cfg : Config F.

Definition calculate_risk_reward_ratio (opportunity : Opportunity F) : Result F :=
  let potential_profit := profit_percentage opportunity in
  let potential_loss := lit 2.0 in
  if is_zero potential_loss then Ok (lit 0.0)
  else truediv potential_profit potential_loss.

Definition _get_recent_trades (count : Z) (self : RiskManager F)
  : list (CompletedTrade F) := [].

(** [recent_trades[-3:]] *)
Definition last_three {A : Type} (l : list A) : list A :=
  skipn (List.length l - 3) l.

(** [sum(1 for trade in trades if trade['profit'] < 0)] *)
Definition count_losses (trades : list (CompletedTrade F)) : Z :=
  len (filter (fun trade => lt (ct_profit trade) (lit 0)) trades).

Definition should_skip_opportunity (opportunity : Opportunity F)
           (self : RiskManager F) : Result bool :=
  risk_reward_ratio <- calculate_risk_reward_ratio opportunity ;;
  if lt risk_reward_ratio (lit 1.5) then Ok true
  else
    let recent_trades := _get_recent_trades 10 self in
    if (3 <=? len recent_trades)%Z then
      let recent_losses := count_losses (last_three recent_trades) in
      if (3 <=? recent_losses)%Z then Ok true else Ok false
    else Ok false.

(** The dict [get_position_sizing_recommendation] returns. *)
Record SizingRecommendation : Type := {
  recommended_position_size : F;
  risk_amount : F;
  rec_max_position_size : F;
  rec_available_balance : F;
  risk_percentage : F
}.

Definition get_position_sizing_recommendation (opportunity : Opportunity F)
           (self : RiskManager F) : SizingRecommendation :=
  let position_size := calculate_position_size cfg opportunity self in
  let risk_amount := mul position_size (lit 0.02) in
  {| recommended_position_size := position_size;
     risk_amount := risk_amount;
     rec_max_position_size := max_position_size (arbitrage cfg);
     rec_available_balance := _get_available_balance self;
     risk_percentage := mul (risk_per_trade (arbitrage cfg)) (lit 100) |}.

(** The operation cannot raise [peak_balance]: it is neither
    [update_balance] nor the recording of a profit. *)
Definition leaves_peak (op : @Op F) : bool :=
  match op with
  | UpdateBalance _ => false
  | RecordTrade trade_info => negb (lt (lit 0) (ct_profit trade_info))
  | _ => true
  end.

(** The number of [record_trade] calls among the operations. *)
Definition recorded (ops : list (@Op F)) : Z :=
  len (filter (fun op => match op with RecordTrade _ => true | _ => false end) ops).

(** [<=] excludes the converse [<]. *)
Definition le_excludes_gt : Prop :=
  forall a b : F, le a b = true -> lt b a = false.

End RiskAdvisory.
End RiskAdvisory.

(* ================================================================== *)
(** * exchange_manager.py: balances and the price monitor *)
(* ================================================================== *)

Module ExchangeAccess.

(** The arguments of [self.db.add_exchange_price]. *)
Record PriceRow (F : Type) : Type := {
  pr_exchange : string;
  pr_pair : string;
  pr_bid : F;
  pr_ask : F;
  pr_last : F;
  pr_volume : F
}.

Section ExchangeAccess.
Context {F W : Type} {PF : PyFloat F}.

(** [exchange.fetch_balance()] of the named venue: [None] when the venue
    is not configured or the call fails; otherwise the balances by
    currency, each a dict with the key ['free']. *)
Variable fetch_balance : string -> option (dict (dict F)).

(** [self.exchanges.keys()] and [self.get_ticker], as for the detector. *)
Variable exchanges : list string.
Variable get_ticker : string -> string -> option (Ticker F).

(** [self.db.add_exchange_price]: it re-raises what the session raises. *)
Variable add_exchange_price : PriceRow F -> W -> Result unit * W.

Definition get_balance (exchange_name currency : string) : option F :=
  match fetch_balance exchange_name with
  | None => None
  | Some balance =>
      Some (dict_get_default "free" (lit 0.0) (dict_get_default currency [] balance))
  end.

(** The loop of [get_all_tickers] over the gathered results. *)
Fixpoint get_all_tickers_from (sym : string) (names : list string)
         (tickers : dict (Ticker F)) (w : W) : Result (dict (Ticker F)) * W :=
  match names with
  | [] => (Ok tickers, w)
  | exchange_name :: rest =>
      match get_ticker exchange_name sym with
      | Some result =>
          let tickers := dict_set exchange_name result tickers in
          match add_exchange_price
                  {| pr_exchange := exchange_name;
                     pr_pair := sym;
                     pr_bid := bid result;
                     pr_ask := ask result;
                     pr_last := last result;
                     pr_volume := volume result |} w with
          | (Ok _, w) => get_all_tickers_from sym rest tickers w
          | (Raise e, w) => (Raise e, w)
          end
      | None => get_all_tickers_from sym rest tickers w
      end
  end.

Definition get_all_tickers (sym : string) (w : W) : Result (dict (Ticker F)) * W :=
  get_all_tickers_from sym exchanges [] w.

(** The rows [get_all_tickers] is to store: one per venue that answered. *)
Definition rows_for (sym : string) (names : list string) : list (PriceRow F) :=
  flat_map (fun X => match get_ticker X sym with
                     | Some t => [ {| pr_exchange := X;
                                      pr_pair := sym;
                                      pr_bid := bid t;
                                      pr_ask := ask t;
                                      pr_last := last t;
                                      pr_volume := volume t |} ]
                     | None => []
                     end) names.

(** The tickers of the venues that answered, in venue order. *)
Definition answers_for (sym : string) (names : list string) : dict (Ticker F) :=
  flat_map (fun X => match get_ticker X sym with
                     | Some t => [(X, t)]
                     | None => []
                     end) names.

(** The database stores every row: the world is the list of rows. *)
Definition storing (row : PriceRow F) (stored : list (PriceRow F))
  : Result unit * list (PriceRow F) :=
  (Ok tt, (stored ++ [row])%list).

End ExchangeAccess.
End ExchangeAccess.

(* ================================================================== *)
(** * arbitrage_engine.py: the admission test and the statistics roll-up *)
(* ================================================================== *)

Module Coordinator.

(** The keys [_update_daily_stats] adds to [self.daily_stats]; the first
    two are absent until a pass finds a trade to divide by. *)
Record DerivedStats (F : Type) : Type := {
  win_rate : option F;
  average_profit : option F;
  net_profit : option F
}.

Section Coordinator.
Context {F : Type} {PF : PyFloat F}.
Variable cfg : Config F.
Variable exchanges : list string.
Variable get_ticker : string -> string -> option (Ticker F).
Variable fetch_balance : string -> option (dict (dict F)).

(** [not x] on what [get_balance] returns: [None] and zero are false. *)
Definition falsy (x : option F) : bool :=
  match x with
  | None => true
  | Some v => is_zero v
  end.

(** Returns the verdict, or the exception [get_best_prices] raised, and
    the risk manager the call leaves behind. *)
Definition _should_execute_opportunity (today : date) (opportunity : Opportunity F)
           (risk : RiskManager F) : Result bool * RiskManager F :=
  if lt (profit_percentage opportunity)
        (mul (min_profit_threshold (arbitrage cfg)) (lit 100))
  then (Ok false, risk)
  else
    let (admitted, risk) := can_execute_trade cfg today opportunity risk in
    if negb admitted then (Ok false, risk)
    else
      let buy_balance :=
        ExchangeAccess.get_balance fetch_balance (buy_exchange opportunity) "USD" in
      let sell_balance :=
        ExchangeAccess.get_balance fetch_balance (sell_exchange opportunity) "USD" in
      if falsy buy_balance || falsy sell_balance then (Ok false, risk)
      else
        (current_prices <- get_best_prices exchanges get_ticker (opp_symbol opportunity) ;;
         match dict_get (buy_exchange opportunity) current_prices,
               dict_get (sell_exchange opportunity) current_prices with
         | Some ((_ :: _) as buy_entry), Some ((_ :: _) as sell_entry) =>
             current_buy_price <- dict_item "ask" buy_entry ;;
             current_sell_price <- dict_item "bid" sell_entry ;;
             if lt (mul (buy_price opportunity)
                        (add (lit 1) (max_slippage (arbitrage cfg))))
                   current_buy_price
             then Ok false
             else if lt current_sell_price
                        (mul (sell_price opportunity)
                             (sub (lit 1) (max_slippage (arbitrage cfg))))
             then Ok false
             else Ok true
         | _, _ => Ok false
         end,
         risk).

(** An [int] as a [float]. *)
Definition of_int (n : Z) : F := lit (inject_Z n).

(** One pass of the loop of [_update_daily_stats] over the counters
    [stats], [derived] being the keys earlier passes have set. *)
Definition _update_daily_stats (stats : DailyStats F) (derived : DerivedStats F)
  : DerivedStats F :=
  let total := total_trades stats in
  let win_rate' :=
    if (0 <? total)%Z
    then Some (mul (quot (of_int (successful_trades stats)) (of_int total)) (lit 100))
    else win_rate derived in
  let successful := successful_trades stats in
  let average_profit' :=
    if (0 <? successful)%Z
    then Some (quot (total_profit stats) (of_int successful))
    else average_profit derived in
  {| win_rate := win_rate';
     average_profit := average_profit';
     net_profit := Some (sub (total_profit stats) (total_loss stats)) |}.

(** The counters are consistent: every counted trade is a success or a
    failure, and no success is uncounted. *)
Definition counters_consistent (d : DailyStats F) : Prop :=
  (0 <= successful_trades d)%Z /\
  (successful_trades d <= total_trades d)%Z /\
  (total_trades d <= successful_trades d + failed_trades d)%Z.

End Coordinator.
End Coordinator.

(** More concrete inputs. *)
Module MoreScenarios.
Section MoreScenarios.
Context {F : Type} {PF : PyFloat F}.

(** Both accounts hold 5000 USD free. *)
Definition funded (venue : string) : option (dict (dict F)) :=
  Some [ ("USD", [ ("free", lit 5000); ("used", lit 0); ("total", lit 5000) ]) ].

(** Venue A holds euros only. *)
Definition euros_only_on_A (venue : string) : option (dict (dict F)) :=
  if String.eqb venue "A"
  then Some [ ("EUR", [ ("free", lit 5000) ]) ]
  else funded venue.

(** Quotes among which buying on A and selling on B qualifies at the
    configured threshold: a spread of 0.4167 percent. *)
Definition wide_quotes : string -> string -> option (Ticker F) :=
  venue_quotes [ ("A", (1.1998, 1.2000, 5)); ("B", (1.2050, 1.2060, 7)) ].

(** The opportunity the detector emits on [wide_quotes]. *)
Definition wide_opportunity : Opportunity F :=
  opportunity_for "EUR/USD" "A" "B"
                  (quote "A" "EUR/USD" 1.1998 1.2000 5)
                  (quote "B" "EUR/USD" 1.2050 1.2060 7).

(** Scenario B of the specification: three venues whose bid/ask ranges
    overlap, no ask below any bid. *)
Definition overlapping_quotes : string -> string -> option (Ticker F) :=
  venue_quotes [ ("A", (1.1998, 1.2002, 5));
                 ("B", (1.1999, 1.2003, 7));
                 ("C", (1.2000, 1.2004, 9)) ].

(** Venues that fill the buy order and refuse the sell order. *)
Definition venues_refusing_sell : Collaborators F nat :=
  {| place_order := fun _ _ side _ w =>
       (match side with buy => Some {| id := "order-1" |} | sell => None end, S w);
     get_order_status := fun _ _ w =>
       (Some {| status := "closed"; price := lit 1.2 |}, S w);
     cancel_order := fun _ _ w => (true, S w);
     ArbitrageEngine.calculate_fees := fun _ _ _ _ w => (lit 0, S w);
     add_trade := fun _ w => (Ok 1%Z, S w);
     send_trade_notification := fun _ w => S w;
     sleep := fun _ w => S w |}.

(** Venues that refuse every order. *)
Definition venues_refusing : Collaborators F nat :=
  {| place_order := fun _ _ _ _ w => (None, S w);
     get_order_status := fun _ _ w => (None, S w);
     cancel_order := fun _ _ w => (false, S w);
     ArbitrageEngine.calculate_fees := fun _ _ _ _ w => (lit 0, S w);
     add_trade := fun _ w => (Ok 1%Z, S w);
     send_trade_notification := fun _ w => S w;
     sleep := fun _ w => S w |}.

(** Venues that fill every order; the order placed first is reported at
    [buy_fill], later ones at [sell_fill] (the world counts the calls). *)
Definition venues_filling_at (buy_fill sell_fill fee : Q) : Collaborators F nat :=
  {| place_order := fun _ _ _ _ w => (Some {| id := "order-1" |}, S w);
     get_order_status := fun _ _ w =>
       (Some {| status := "closed";
                price := if Nat.ltb w 4 then lit buy_fill else lit sell_fill |}, S w);
     cancel_order := fun _ _ w => (true, S w);
     ArbitrageEngine.calculate_fees := fun _ _ _ _ w => (lit fee, S w);
     add_trade := fun _ w => (Ok 1%Z, S w);
     send_trade_notification := fun _ w => S w;
     sleep := fun _ w => S w |}.

(** Venues that fill the order placed first and leave every later one
    open (the world counts the calls). *)
Definition venues_filling_first_only : Collaborators F nat :=
  {| place_order := fun _ _ _ _ w => (Some {| id := "order-1" |}, S w);
     get_order_status := fun _ _ w =>
       (Some {| status := if Nat.ltb w 4 then "closed" else "open";
                price := lit 1.2 |}, S w);
     cancel_order := fun _ _ w => (true, S w);
     ArbitrageEngine.calculate_fees := fun _ _ _ _ w => (lit 0, S w);
     add_trade := fun _ w => (Ok 1%Z, S w);
     send_trade_notification := fun _ w => S w;
     sleep := fun _ w => S w |}.

(** Venue C quotes a zero bid; A and B quote as in [wide_quotes]. *)
Definition zero_bid_quotes : string -> string -> option (Ticker F) :=
  venue_quotes [ ("A", (1.1998, 1.2000, 5));
                 ("B", (1.2050, 1.2060, 7));
                 ("C", (0, 1.2000, 9)) ].

(** A database whose session fails on every row; the world counts the
    attempts. *)
Definition failing_store (row : ExchangeAccess.PriceRow F) (w : nat)
  : Result unit * nat :=
  (Raise (OtherException "OperationalError"), S w).

(** The [trade_info] of a registration under the id [tid]. *)
Definition registration (tid : option string) : NewTrade F :=
  {| nt_trade_id := tid;
     nt_symbol := Some "EUR/USD";
     nt_buy_exchange := Some "A";
     nt_sell_exchange := Some "B";
     nt_position_size := Some (lit 1000);
     nt_expected_profit := None |}.

(** The [trade_info] of a completed trade. *)
Definition completed (tid : option string) (p : Q) : CompletedTrade F :=
  {| ct_profit := lit p; ct_trade_id := tid |}.

(** A risk manager holding one trade registered without an id. *)
Definition holding_unidentified (today : date) : RiskManager F :=
  add_active_trade (lit 0) (registration None) (RiskManager.__init__ today).

End MoreScenarios.
End MoreScenarios.
Import MoreScenarios.

(* ================================================================== *)
(** * The detector *)
(* ================================================================== *)

Section DetectorFacts.
Context {F : Type} {PF : PyFloat F}.
Variable cfg : Config F.
Variable exchanges : list string.
Variable get_ticker : string -> string -> option (Ticker F).
Variable sym : string.

Lemma dict_set_fresh (V : Type) (k : string) (v : V) (d : dict V) :
  ~ In k (dict_keys d) -> dict_set k v d = (d ++ [(k, v)])%list.
Proof.
  induction d as [|[k' v'] d IH]; simpl; intros Hk.
  - reflexivity.
  - destruct (String.eqb_spec k k') as [->|Hne].
    + exfalso. apply Hk. now left.
    + f_equal. apply IH. intros Hin. apply Hk. now right.
Qed.

Lemma entries_keys names :
  dict_keys (entries get_ticker sym names) = live get_ticker sym names.
Proof.
  induction names as [|X names IH]; simpl.
  - reflexivity.
  - destruct (get_ticker X sym); simpl.
    + unfold dict_keys in *. simpl. now rewrite IH.
    + exact IH.
Qed.

Lemma live_In X names :
  In X (live get_ticker sym names) <->
  In X names /\ exists t, get_ticker X sym = Some t.
Proof.
  unfold live. rewrite filter_In. split.
  - intros [Hin Ht]. split; [assumption|].
    destruct (get_ticker X sym) as [t|]; [now exists t | discriminate].
  - intros [Hin [t Ht]]. split; [assumption|]. now rewrite Ht.
Qed.

Lemma live_NoDup names : NoDup names -> NoDup (live get_ticker sym names).
Proof. intros H. unfold live. now apply NoDup_filter. Qed.

Lemma get_best_prices_from_ok names acc :
  NoDup names ->
  (forall X, In X names -> ~ In X (dict_keys acc)) ->
  (forall X t, In X names -> get_ticker X sym = Some t -> is_zero (bid t) = false) ->
  get_best_prices_from get_ticker sym names acc
  = Ok (acc ++ entries get_ticker sym names)%list.
Proof.
  revert acc. induction names as [|X names IH]; intros acc Hnd Hfresh Hz; simpl.
  - now rewrite app_nil_r.
  - inversion Hnd as [|? ? HX Hnd']; subst.
    destruct (get_ticker X sym) as [t|] eqn:Ht.
    + unfold truediv. rewrite (Hz X t (or_introl eq_refl) Ht). simpl.
      rewrite dict_set_fresh by (apply Hfresh; now left).
      rewrite IH.
      * now rewrite <- app_assoc.
      * assumption.
      * intros Y HY. unfold dict_keys. rewrite map_app, in_app_iff. simpl.
        intros [Hin|[->|[]]].
        -- apply (Hfresh Y); [now right | exact Hin].
        -- contradiction.
      * intros Y t' HY. apply Hz. now right.
    + apply IH; [assumption | | ].
      * intros Y HY. apply Hfresh. now right.
      * intros Y t' HY. apply Hz. now right.
Qed.

Lemma entries_get X names t :
  In X names -> get_ticker X sym = Some t ->
  dict_get X (entries get_ticker sym names)
  = Some (price_entry t (mul (quot (sub (ask t) (bid t)) (bid t)) (lit 100))).
Proof.
  induction names as [|Y names IH]; simpl; intros Hin Ht.
  - contradiction.
  - destruct (get_ticker Y sym) as [tY|] eqn:HY; simpl.
    + destruct (String.eqb_spec X Y) as [->|Hne].
      * congruence.
      * apply IH; [|assumption]. destruct Hin as [->|Hin]; [contradiction|assumption].
    + apply IH; [|assumption]. destruct Hin as [->|Hin]; [congruence|assumption].
Qed.

Lemma check_pair_ok X1 X2 t1 t2 names opps :
  In X1 names -> In X2 names ->
  get_ticker X1 sym = Some t1 -> get_ticker X2 sym = Some t2 ->
  is_zero (ask t1) = false -> is_zero (ask t2) = false ->
  check_pair cfg sym (entries get_ticker sym names) X1 X2 opps
  = Ok (opps ++ pair_both cfg get_ticker sym X1 X2)%list.
Proof.
  intros H1 H2 Ht1 Ht2 Hz1 Hz2.
  unfold check_pair, dict_item.
  rewrite (@entries_get X1 names t1 H1 Ht1), (@entries_get X2 names t2 H2 Ht2).
  cbn [bind price_entry dict_get String.eqb Ascii.eqb Bool.eqb dict_get_default].
  unfold pair_both, direction. rewrite Ht1, Ht2.
  unfold qualifies, truediv, min_profit_pct, opportunity_for, spread_pct.
  rewrite Hz1, Hz2.
  destruct (lt (ask t1) (bid t2)); cbn [bind andb];
    [destruct (le _ (mul (quot (sub (bid t2) (ask t1)) (ask t1)) (lit 100)))|];
    cbn [bind];
    (destruct (lt (ask t2) (bid t1)); cbn [bind andb];
     [destruct (le _ (mul (quot (sub (bid t1) (ask t2)) (ask t2)) (lit 100)))|]);
    cbn [app]; rewrite ?app_nil_r, <- ?app_assoc; reflexivity.
Qed.


Lemma scan_inner_ok names X1 t1 later opps :
  In X1 names -> get_ticker X1 sym = Some t1 ->
  incl later (live get_ticker sym names) ->
  asks_nonzero get_ticker sym names ->
  scan_inner cfg sym (entries get_ticker sym names) X1 later opps
  = Ok (opps ++ flat_map (pair_both cfg get_ticker sym X1) later)%list.
Proof.
  intros H1 Ht1 Hincl Hz. revert opps.
  induction later as [|X2 later IH]; intros opps; simpl.
  - now rewrite app_nil_r.
  - assert (HX2 : In X2 (live get_ticker sym names)) by (apply Hincl; now left).
    apply live_In in HX2. destruct HX2 as [H2 [t2 Ht2]].
    rewrite (@check_pair_ok X1 X2 t1 t2 names opps H1 H2 Ht1 Ht2
               (Hz X1 t1 H1 Ht1) (Hz X2 t2 H2 Ht2)).
    simpl. rewrite IH.
    + now rewrite <- app_assoc.
    + intros Y HY. apply Hincl. now right.
Qed.

Lemma scan_outer_ok names todo opps :
  incl todo (live get_ticker sym names) ->
  asks_nonzero get_ticker sym names ->
  scan_outer cfg sym (entries get_ticker sym names) todo opps
  = Ok (opps ++ all_pairs cfg get_ticker sym todo)%list.
Proof.
  intros Hincl Hz. revert opps.
  induction todo as [|X1 later IH]; intros opps; simpl.
  - now rewrite app_nil_r.
  - assert (HX1 : In X1 (live get_ticker sym names)) by (apply Hincl; now left).
    apply live_In in HX1. destruct HX1 as [H1 [t1 Ht1]].
    rewrite (@scan_inner_ok names X1 t1 later opps H1 Ht1).
    + simpl. rewrite IH.
      * now rewrite <- app_assoc.
      * intros Y HY. apply Hincl. now right.
    + intros Y HY. apply Hincl. now right.
    + assumption.
Qed.

Lemma all_pairs_short names :
  (len names <? 2)%Z = true -> all_pairs cfg get_ticker sym names = [].
Proof.
  unfold len. destruct names as [|X [|Y rest]]; simpl; intros H.
  - reflexivity.
  - reflexivity.
  - apply Z.ltb_lt in H. lia.
Qed.

(** On usable quotes the detector returns, and what it returns is the
    list of the qualifying directions of all pairs of venues that
    answered. *)
Lemma find_arbitrage_opportunities_ok :
  NoDup exchanges ->
  usable_quotes exchanges get_ticker sym ->
  find_arbitrage_opportunities cfg exchanges get_ticker sym
  = Ok (all_pairs cfg get_ticker sym (live get_ticker sym exchanges)).
Proof.
  intros Hnd Hu. unfold find_arbitrage_opportunities, get_best_prices.
  rewrite get_best_prices_from_ok.
  - simpl.
    destruct (len (entries get_ticker sym exchanges) <? 2)%Z eqn:Hlen.
    + rewrite all_pairs_short; [reflexivity|].
      rewrite <- entries_keys. unfold len, dict_keys in *.
      now rewrite length_map.
    + rewrite entries_keys.
      rewrite scan_outer_ok; [reflexivity | apply incl_refl |].
      intros X t HX Ht. now apply (Hu X t HX Ht).
  - assumption.
  - intros X _ [].
  - intros X t HX Ht. now apply (Hu X t HX Ht).
Qed.

Lemma direction_In o X Y :
  In o (direction cfg get_ticker sym X Y) <->
  exists tX tY, get_ticker X sym = Some tX /\ get_ticker Y sym = Some tY /\
                qualifies cfg tX tY = true /\
                o = opportunity_for sym X Y tX tY.
Proof.
  unfold direction. split.
  - destruct (get_ticker X sym) as [tX|]; [|intros []].
    destruct (get_ticker Y sym) as [tY|]; [|intros []].
    destruct (qualifies cfg tX tY) eqn:Hq; [|intros []].
    intros [<-|[]]. now exists tX, tY.
  - intros [tX [tY [HX [HY [Hq ->]]]]]. rewrite HX, HY, Hq. now left.
Qed.

Lemma all_pairs_In o names :
  In o (all_pairs cfg get_ticker sym names) <->
  exists l1 X1 l2 X2 l3,
    names = (l1 ++ X1 :: l2 ++ X2 :: l3)%list /\
    (In o (direction cfg get_ticker sym X1 X2) \/
     In o (direction cfg get_ticker sym X2 X1)).
Proof.
  induction names as [|X names IH]; simpl.
  - split; [intros [] | intros [l1 [X1 [l2 [X2 [l3 [H _]]]]]]].
    destruct l1; discriminate.
  - rewrite in_app_iff, in_flat_map, IH. split.
    + intros [[X2 [Hin Hp]] | [l1 [X1 [l2 [X2 [l3 [Hn Hd]]]]]]].
      * apply in_split in Hin. destruct Hin as [l2 [l3 ->]].
        exists [], X, l2, X2, l3. split; [reflexivity|].
        unfold pair_both in Hp. now apply in_app_iff in Hp.
      * exists (X :: l1), X1, l2, X2, l3. split; [now rewrite Hn | exact Hd].
    + intros [l1 [X1 [l2 [X2 [l3 [Hn Hd]]]]]].
      destruct l1 as [|Z l1]; simpl in Hn; injection Hn as -> ->.
      * left. exists X2. split; [apply in_elt|].
        unfold pair_both. now apply in_app_iff.
      * right. now exists l1, X1, l2, X2, l3.
Qed.

Lemma NoDup_split_two (X Y : string) (names : list string) :
  NoDup names -> In X names -> In Y names -> X <> Y ->
  exists l1 l2 l3,
    names = (l1 ++ X :: l2 ++ Y :: l3)%list \/
    names = (l1 ++ Y :: l2 ++ X :: l3)%list.
Proof.
  intros _ HX HY Hne.
  apply in_split in HX. destruct HX as [a [b ->]].
  apply in_app_or in HY. destruct HY as [HY|[HY|HY]].
  - apply in_split in HY. destruct HY as [l1 [l2 ->]].
    exists l1, l2, b. right. now rewrite <- app_assoc.
  - contradiction.
  - apply in_split in HY. destruct HY as [l2 [l3 ->]].
    exists a, l2, l3. now left.
Qed.

Lemma NoDup_two_distinct (l1 l2 l3 : list string) (X Y : string) :
  NoDup (l1 ++ X :: l2 ++ Y :: l3)%list -> X <> Y.
Proof.
  intros Hnd ->. apply NoDup_remove_2 in Hnd. apply Hnd.
  apply in_or_app. right. apply in_or_app. right. now left.
Qed.

End DetectorFacts.

Section DetectorClaims.
Context {F : Type} {PF : PyFloat F}.
Variable cfg : Config F.
Variable exchanges : list string.
Variable get_ticker : string -> string -> option (Ticker F).
Variable sym : string.

(** C1 (as amended): on a snapshot in which no venue reports a zero bid
    or a zero ask, the detector returns a list; for two distinct venues X
    and Y that answered, the list holds an opportunity buying on X and
    selling on Y if and only if [X.ask < Y.bid] and
    [(Y.bid - X.ask) / X.ask * 100] is at least the threshold; every
    opportunity in the list carries X's ask, Y's bid and exactly that
    percentage, and its buy price is strictly below its sell price.  The
    equivalence is per direction, so the two directions of a pair qualify
    independently. *)
Theorem detector_emits_iff_profitable :
  NoDup exchanges ->
  usable_quotes exchanges get_ticker sym ->
  exists opps,
    find_arbitrage_opportunities cfg exchanges get_ticker sym = Ok opps /\
    (forall X Y tX tY,
        In X exchanges -> In Y exchanges -> X <> Y ->
        get_ticker X sym = Some tX -> get_ticker Y sym = Some tY ->
        ((exists o, In o opps /\ buy_exchange o = X /\ sell_exchange o = Y) <->
         (lt (ask tX) (bid tY) = true /\
          le (min_profit_pct cfg) (spread_pct tX tY) = true))) /\
    (forall o, In o opps ->
        exists tX tY,
          In (buy_exchange o) exchanges /\ In (sell_exchange o) exchanges /\
          buy_exchange o <> sell_exchange o /\
          get_ticker (buy_exchange o) sym = Some tX /\
          get_ticker (sell_exchange o) sym = Some tY /\
          buy_price o = ask tX /\ sell_price o = bid tY /\
          profit_percentage o = spread_pct tX tY /\
          lt (buy_price o) (sell_price o) = true /\
          le (min_profit_pct cfg) (profit_percentage o) = true).
Proof.
  intros Hnd Hu.
  exists (all_pairs cfg get_ticker sym (live get_ticker sym exchanges)).
  split; [now apply find_arbitrage_opportunities_ok|].
  pose proof (live_NoDup get_ticker sym Hnd) as Hlnd.
  split.
  - intros X Y tX tY HX HY Hne HtX HtY. split.
    + intros [o [Hin [Hb Hs]]].
      apply all_pairs_In in Hin.
      destruct Hin as [l1 [X1 [l2 [X2 [l3 [_ [Hd|Hd]]]]]]];
        apply direction_In in Hd;
        destruct Hd as [t1 [t2 [H1 [H2 [Hq ->]]]]];
        simpl in Hb, Hs; subst;
        rewrite HtX in H1; rewrite HtY in H2;
        injection H1 as <-; injection H2 as <-;
        unfold qualifies in Hq; now apply andb_true_iff in Hq.
    + intros [Hlt Hle].
      exists (opportunity_for sym X Y tX tY). split; [|split; reflexivity].
      assert (HXl : In X (live get_ticker sym exchanges))
        by (apply live_In; split; [assumption | now exists tX]).
      assert (HYl : In Y (live get_ticker sym exchanges))
        by (apply live_In; split; [assumption | now exists tY]).
      destruct (NoDup_split_two Hlnd HXl HYl Hne) as [l1 [l2 [l3 [Hs|Hs]]]];
        apply all_pairs_In;
        [exists l1, X, l2, Y, l3 | exists l1, Y, l2, X, l3];
        (split; [exact Hs|]); [left | right];
        apply direction_In; exists tX, tY;
        (repeat split; try assumption);
        unfold qualifies; now rewrite Hlt, Hle.
  - intros o Hin.
    apply all_pairs_In in Hin.
    destruct Hin as [l1 [X1 [l2 [X2 [l3 [Hs Hd]]]]]].
    assert (Hne : X1 <> X2)
      by (rewrite Hs in Hlnd; now apply NoDup_two_distinct in Hlnd).
    assert (H1 : In X1 exchanges).
    { apply (live_In get_ticker sym X1 exchanges). rewrite Hs.
      apply in_elt. }
    assert (H2 : In X2 exchanges).
    { apply (live_In get_ticker sym X2 exchanges). rewrite Hs.
      apply in_or_app. right. right. apply in_elt. }
    destruct Hd as [Hd|Hd];
      apply direction_In in Hd;
      destruct Hd as [t1 [t2 [Ht1 [Ht2 [Hq ->]]]]];
      unfold qualifies in Hq; apply andb_true_iff in Hq; destruct Hq as [Hlt Hle];
      exists t1, t2; simpl;
      repeat split; try assumption; try reflexivity; try congruence.
Qed.

(** Every opportunity the detector emits on usable quotes has volume
    [0]: the entries of [get_best_prices] have no ['volume'] key, so each
    [get('volume', 0)] yields the default. *)
Lemma emitted_volume_is_zero opps :
  NoDup exchanges ->
  usable_quotes exchanges get_ticker sym ->
  find_arbitrage_opportunities cfg exchanges get_ticker sym = Ok opps ->
  forall o, In o opps -> opp_volume o = lit 0.
Proof.
  intros Hnd Hu Hfind o Hin.
  rewrite find_arbitrage_opportunities_ok in Hfind by assumption.
  injection Hfind as <-.
  apply all_pairs_In in Hin.
  destruct Hin as [l1 [X1 [l2 [X2 [l3 [_ [Hd|Hd]]]]]]];
    apply direction_In in Hd;
    destruct Hd as [t1 [t2 [_ [_ [_ ->]]]]];
    simpl; unfold pymin; now destruct (lt (lit 0) (lit 0)).
Qed.

End DetectorClaims.

(* ================================================================== *)
(** * The risk gate *)
(* ================================================================== *)

Section RiskGateClaims.
Context {F : Type} {PF : PyFloat F}.
Variable cfg : Config F.

Lemma reset_keeps_active_trades today (self : RiskManager F) :
  active_trades (_reset_daily_counters today self) = active_trades self.
Proof. unfold _reset_daily_counters. now destruct (last_reset self <? today)%Z. Qed.

Lemma reset_keeps_max_drawdown today (self : RiskManager F) :
  max_drawdown (_reset_daily_counters today self) = max_drawdown self.
Proof. unfold _reset_daily_counters. now destruct (last_reset self <? today)%Z. Qed.

(** The state a risk check leaves behind is the state after the daily
    reset: no branch of the check assigns to [self]. *)
Lemma can_execute_trade_state today opportunity (self : RiskManager F) :
  snd (can_execute_trade cfg today opportunity self)
  = _reset_daily_counters today self.
Proof.
  unfold can_execute_trade.
  repeat match goal with
         | |- context [if ?b then _ else _] => destruct b
         end; reflexivity.
Qed.

(** C2: when the number of active trades has reached
    [max_concurrent_trades], [can_execute_trade] returns [False] whatever
    the opportunity, the date and the rest of the risk state are. *)
Theorem can_execute_rejects_at_concurrency_limit
        today opportunity (self : RiskManager F) :
  (max_concurrent_trades cfg <= len (active_trades self))%Z ->
  fst (can_execute_trade cfg today opportunity self) = false.
Proof.
  intros Hfull. unfold can_execute_trade.
  rewrite reset_keeps_active_trades.
  apply Z.leb_le in Hfull. rewrite Hfull.
  now destruct (le (max_daily_loss cfg) _).
Qed.

(** C6 (as amended): a risk check zeroes the daily counters exactly when
    the current date is strictly later than [last_reset], and then
    [last_reset] becomes the current date; on the same date, or an
    earlier one, the check leaves both counters and [last_reset] as they
    were.  No other field is touched in either case. *)
Theorem daily_reset_iff_later_date today opportunity (self : RiskManager F) :
  let self' := snd (can_execute_trade cfg today opportunity self) in
  ((last_reset self < today)%Z ->
     daily_loss self' = lit 0.0 /\ daily_trades self' = 0%Z /\
     last_reset self' = today) /\
  ((today <= last_reset self)%Z -> self' = self) /\
  (last_reset self' <> last_reset self <-> (last_reset self < today)%Z) /\
  active_trades self' = active_trades self /\
  max_drawdown self' = max_drawdown self /\
  peak_balance self' = peak_balance self /\
  current_balance self' = current_balance self.
Proof.
  cbv zeta. rewrite can_execute_trade_state. unfold _reset_daily_counters.
  destruct (Z.ltb_spec (last_reset self) today) as [Hlt|Hge]; simpl.
  - repeat split; try reflexivity; lia.
  - repeat split; try reflexivity; lia.
Qed.

(** ** Drawdown *)

Hypothesis laws : OrderLaws (F := F).

Lemma pymax_le_l (a b : F) : le a a = true -> le a (pymax a b) = true.
Proof.
  intros Ha. unfold pymax. destruct (lt a b) eqn:H; [|assumption].
  now apply (lt_le laws).
Qed.

Lemma pymax_comparable (a b : F) :
  le a a = true -> le (pymax a b) (pymax a b) = true.
Proof.
  intros Ha. unfold pymax. destruct (lt a b) eqn:H; [|assumption].
  now apply (lt_comparable laws) in H.
Qed.

(** [record_trade] returns, and leaves [max_drawdown] at least as large. *)
Lemma record_trade_max_drawdown (t : CompletedTrade F) (s : RiskManager F) :
  le (max_drawdown s) (max_drawdown s) = true ->
  exists s',
    record_trade t s = Ok s' /\
    le (max_drawdown s) (max_drawdown s') = true /\
    le (max_drawdown s') (max_drawdown s') = true.
Proof.
  intros Hs. unfold record_trade.
  destruct (lt (lit 0) (ct_profit t)).
  - cbn [bind]. destruct (truthy (ct_trade_id t)); eexists;
      (split; [reflexivity|]); simpl; now split.
  - destruct (lt (lit 0) (peak_balance s)) eqn:Hpk.
    + unfold truediv. rewrite (positive_nonzero laws _ Hpk). cbn [bind].
      destruct (truthy (ct_trade_id t)); eexists;
        (split; [reflexivity|]); simpl;
        (split; [now apply pymax_le_l | now apply pymax_comparable]).
    + cbn [bind]. destruct (truthy (ct_trade_id t)); eexists;
        (split; [reflexivity|]); simpl; now split.
Qed.

Lemma step_max_drawdown (op : Op) (s : RiskManager F) :
  le (max_drawdown s) (max_drawdown s) = true ->
  exists s',
    step cfg op s = Ok s' /\
    le (max_drawdown s) (max_drawdown s') = true /\
    le (max_drawdown s') (max_drawdown s') = true.
Proof.
  intros Hs. destruct op as [today o|today|t|now t|b]; simpl.
  - rewrite can_execute_trade_state. eexists. split; [reflexivity|].
    rewrite reset_keeps_max_drawdown. now split.
  - eexists. split; [reflexivity|]. rewrite reset_keeps_max_drawdown. now split.
  - now apply record_trade_max_drawdown.
  - eexists. split; [reflexivity|]. simpl. now split.
  - eexists. split; [reflexivity|]. simpl. now split.
Qed.

(** From a state whose [max_drawdown] is a number, every sequence of
    operations returns and leaves it at least as large; once it has
    reached [0.1] the gate rejects. *)
Lemma run_max_drawdown (ops : list Op) (s : RiskManager F) :
  le (max_drawdown s) (max_drawdown s) = true ->
  exists s',
    run cfg ops s = Ok s' /\
    le (max_drawdown s) (max_drawdown s') = true /\
    le (max_drawdown s') (max_drawdown s') = true /\
    (le (lit 0.1) (max_drawdown s) = true ->
     forall today opportunity,
       fst (can_execute_trade cfg today opportunity s') = false).
Proof.
  revert s. induction ops as [|op ops IH]; intros s Hs; simpl.
  - exists s. split; [reflexivity|]. split; [assumption|]. split; [assumption|].
    intros Hlimit today opportunity. unfold can_execute_trade.
    rewrite reset_keeps_max_drawdown, Hlimit.
    destruct (le (max_daily_loss cfg) _); [reflexivity|].
    now destruct (max_concurrent_trades cfg <=? _)%Z.
  - destruct (@step_max_drawdown op s Hs) as [s1 [Hs1 [Hle1 Hc1]]].
    rewrite Hs1. simpl.
    destruct (IH s1 Hc1) as [s2 [Hs2 [Hle2 [Hc2 Hlatch]]]].
    exists s2. split; [assumption|]. split; [|split; [assumption|]].
    + now apply (le_trans laws) with (max_drawdown s1).
    + intros Hlimit. apply Hlatch.
      now apply (le_trans laws) with (max_drawdown s).
Qed.

(** C10: in every state the risk manager can reach (any history of
    operations after construction), every further sequence of operations
    returns and leaves [max_drawdown] at least as large, the daily reset
    included; and if [max_drawdown] has reached [0.1],
    [can_execute_trade] returns [False] in every later state, for every
    opportunity on every date.  This holds for any float semantics with
    lawful comparisons, binary64 included. *)
Theorem max_drawdown_never_decreases (d0 : date) (history : list Op) :
  exists s,
    run cfg history (RiskManager.__init__ d0) = Ok s /\
    forall ops, exists s',
      run cfg ops s = Ok s' /\
      le (max_drawdown s) (max_drawdown s') = true /\
      (le (lit 0.1) (max_drawdown s) = true ->
       forall today opportunity,
         fst (can_execute_trade cfg today opportunity s') = false).
Proof.
  destruct (@run_max_drawdown history (RiskManager.__init__ d0))
    as [s [Hrun [_ [Hs _]]]].
  { simpl. apply (zero_comparable laws). }
  exists s. split; [assumption|]. intros ops.
  destruct (@run_max_drawdown ops s Hs) as [s' [Hrun' [Hle [_ Hlatch]]]].
  exists s'. now repeat split.
Qed.

End RiskGateClaims.

(* ================================================================== *)
(** * The comparisons of both instances are lawful *)
(* ================================================================== *)

Lemma order_laws_Q : OrderLaws (F := Q).
Proof.
  constructor; simpl.
  - intros a b H. apply negb_true_iff in H. apply Qle_bool_iff.
    apply Qlt_le_weak, Qnot_le_lt. intros Hle. apply Qle_bool_iff in Hle. congruence.
  - intros a b c Hab Hbc. apply Qle_bool_iff in Hab, Hbc. apply Qle_bool_iff.
    now apply Qle_trans with b.
  - intros a b _. apply Qle_bool_iff, Qle_refl.
  - intros b H. apply negb_true_iff in H.
    destruct (Qeq_bool b 0) eqn:Hz; [|reflexivity].
    apply Qeq_bool_iff in Hz.
    assert (Hle : Qle_bool b 0 = true) by (apply Qle_bool_iff; rewrite Hz; apply Qle_refl).
    congruence.
  - reflexivity.
Qed.

Ltac split_compare :=
  repeat match goal with
         | |- context [Z.compare ?x ?y] => destruct (Z.compare_spec x y)
         | |- context [Pos.compare_cont Eq ?x ?y] =>
             change (Pos.compare_cont Eq x y) with (Pos.compare x y);
             destruct (Pos.compare_spec x y)
         end.

Lemma SFleb_trans (a b c : spec_float) :
  SFleb a b = true -> SFleb b c = true -> SFleb a c = true.
Proof.
  unfold SFleb, SFcompare.
  destruct a as [[|]|[|]| |[|] ma ea], b as [[|]|[|]| |[|] mb eb],
           c as [[|]|[|]| |[|] mc ec];
    try reflexivity; try discriminate;
    split_compare; simpl; intros; subst; try reflexivity; try discriminate; lia.
Qed.

Lemma SFltb_SFleb (a b : spec_float) : SFltb a b = true -> SFleb a b = true.
Proof.
  unfold SFltb, SFleb. now destruct (SFcompare a b) as [[| |]|].
Qed.

Lemma SFltb_comparable (a b : spec_float) : SFltb a b = true -> SFleb b b = true.
Proof.
  unfold SFltb, SFleb, SFcompare.
  destruct a as [[|]|[|]| |[|] ma ea], b as [[|]|[|]| |[|] mb eb];
    try reflexivity; try discriminate; intros _;
    rewrite Z.compare_refl;
    change (Pos.compare_cont Eq mb mb) with (Pos.compare mb mb);
    now rewrite Pos.compare_refl.
Qed.

Lemma SFltb_zero_nonzero (b : spec_float) :
  SFltb (S754_zero false) b = true -> SFeqb b (S754_zero false) = false.
Proof.
  unfold SFltb, SFeqb, SFcompare.
  destruct b as [[|]|[|]| |[|] mb eb]; try reflexivity; discriminate.
Qed.

Lemma order_laws_binary64 : OrderLaws (F := float).
Proof.
  constructor; simpl.
  - intros a b. rewrite ltb_spec, leb_spec. apply SFltb_SFleb.
  - intros a b c. rewrite !leb_spec. apply SFleb_trans.
  - intros a b. rewrite ltb_spec, leb_spec. apply SFltb_comparable.
  - intros b. change (float_lit 0) with PrimFloat.zero.
    rewrite ltb_spec, FloatAxioms.eqb_spec.
    change (Prim2SF PrimFloat.zero) with (S754_zero false).
    apply SFltb_zero_nonzero.
  - reflexivity.
Qed.

(* ================================================================== *)
(** * The risk gate under exact arithmetic *)
(* ================================================================== *)

Section ExactArithmetic.
Local Open Scope Q_scope.

Lemma lt_Q_true (a b : Q) : lt a b = true <-> a < b.
Proof.
  simpl. rewrite negb_true_iff, <- not_true_iff_false, Qle_bool_iff.
  split; [apply Qnot_le_lt | apply Qlt_not_le].
Qed.

Lemma lt_Q_false (a b : Q) : lt a b = false <-> b <= a.
Proof. simpl. now rewrite negb_false_iff, Qle_bool_iff. Qed.

Lemma le_Q_true (a b : Q) : le a b = true <-> a <= b.
Proof. simpl. apply Qle_bool_iff. Qed.

Lemma pymin_Q_l (a b : Q) : pymin a b <= a.
Proof.
  unfold pymin. destruct (lt b a) eqn:H.
  - apply lt_Q_true in H. now apply Qlt_le_weak.
  - apply Qle_refl.
Qed.

Lemma pymin_Q_r (a b : Q) : pymin a b <= b.
Proof.
  unfold pymin. destruct (lt b a) eqn:H.
  - apply Qle_refl.
  - now apply lt_Q_false in H.
Qed.

(** Under the guard [peak_balance > 0] the division cannot raise. *)
Lemma truediv_Q_guarded (a b : Q) : lt 0 b = true -> truediv a b = Ok (a / b).
Proof.
  intros H. apply lt_Q_true in H. unfold truediv. simpl.
  destruct (Qeq_bool b 0) eqn:Hz; [|reflexivity].
  apply Qeq_bool_iff in Hz. rewrite Hz in H. now apply Qlt_irrefl in H.
Qed.

(** ** Rounding to two decimals *)

Lemma round_half_even_near (y : Q) :
  inject_Z (round_half_even y) - y <= 1 # 2 /\
  y - inject_Z (round_half_even y) <= 1 # 2.
Proof.
  unfold round_half_even.
  pose proof (Qfloor_le y) as Hlo. pose proof (Qlt_floor y) as Hhi.
  rewrite inject_Z_plus in Hhi. change (inject_Z 1) with 1 in Hhi.
  destruct (Qcompare_spec (y - inject_Z (Qfloor y)) (1 # 2)) as [He|Hl|Hg].
  - destruct (Z.even (Qfloor y)).
    + split; lra.
    + rewrite inject_Z_plus. change (inject_Z 1) with 1. split; lra.
  - split; lra.
  - rewrite inject_Z_plus. change (inject_Z 1) with 1. split; lra.
Qed.

Lemma Qround2_near (x : Q) :
  Qround2 x - x <= 1 # 200 /\ x - Qround2 x <= 1 # 200.
Proof.
  unfold Qround2. destruct (round_half_even_near (x * 100)) as [H1 H2].
  set (n := inject_Z (round_half_even (x * 100))) in *.
  unfold Qdiv. change (/ 100) with (1 # 100).
  split; lra.
Qed.




(** ** Position sizing *)


(** ** Daily loss and drawdown across the operations *)

Variable cfg : Config Q.






End ExactArithmetic.

(* ================================================================== *)
(** * The execution coordinator *)
(* ================================================================== *)

Section CoordinatorFacts.
Context {F W : Type} {PF : PyFloat F}.
Variable cfg : Config F.
Variable ext : Collaborators F W.

Ltac run_exec :=
  unfold _execute_arbitrage, try_block, exec_bind, log, do_place_order,
    do_get_order_status, do_cancel_order, do_calculate_fees, do_add_trade,
    do_send_trade_notification, do_sleep, update_stats, return_, lift,
    truediv, observe; cbn [fst snd engine world trace].

Ltac split_answers :=
  repeat (cbv beta iota zeta; cbn [fst snd engine world trace];
          match goal with
          | |- context [place_order ext ?a ?b ?c ?d ?w] =>
              destruct (place_order ext a b c d w) as [[?|] ?]
          | |- context [get_order_status ext ?a ?b ?w] =>
              destruct (get_order_status ext a b w) as [? ?]
          | |- context [closed ?s] => destruct (closed s)
          | |- context [cancel_order ext ?a ?b ?w] =>
              destruct (cancel_order ext a b w) as [? ?]
          | |- context [calculate_fees ext ?a ?b ?c ?d ?w] =>
              destruct (calculate_fees ext a b c d w) as [? ?]
          | |- context [add_trade ext ?a ?w] =>
              destruct (add_trade ext a w) as [[?|?] ?]
          | |- context [is_zero ?x] => destruct (is_zero x)
          | |- context [if lt ?x ?y then _ else _] => destruct (lt x y)
          end).

(** An execution never assigns to the risk manager. *)
Lemma execute_keeps_risk_manager now_ms opportunity (r : Run F W) :
  risk_manager (engine (_execute_arbitrage cfg ext now_ms opportunity r))
  = risk_manager (engine r).
Proof. run_exec. split_answers; reflexivity. Qed.

(** What an execution adds to the trace was observed with the risk
    manager's list of active trades as it was at the start. *)
Lemma execute_observes_initial_registry now_ms opportunity (r : Run F W) :
  exists new,
    trace (_execute_arbitrage cfg ext now_ms opportunity r)
    = (trace r ++ new)%list /\
    Forall (fun o => registered o = registered_now (engine r)) new.
Proof.
  run_exec. split_answers; cbn [fst snd engine world trace];
    rewrite <- ?app_assoc; eexists; (split; [reflexivity|]);
    cbn [app]; repeat constructor.
Qed.


Lemma execute_all_keeps_risk_manager todo (r : Run F W) :
  risk_manager (engine (execute_all cfg ext todo r)) = risk_manager (engine r).
Proof.
  revert r. induction todo as [|[now_ms opportunity] todo IH]; intros r; simpl.
  - reflexivity.
  - now rewrite IH, execute_keeps_risk_manager.
Qed.

(** C8 (as amended): when the buy order is placed and the status read
    after the execution delay is missing or not ['closed'], the
    execution issues, in this order, the buy order, the wait, the status
    poll and the cancellation of the buy order, and nothing else: no sell
    order is placed and no trade is stored.  The engine is left as it
    was (the statistics are not touched), and after any history of
    executions since construction the risk manager's list of active
    trades is empty, so it does not hold the trade id. *)
Theorem buy_timeout_cancels_without_selling
        now_ms opportunity (r : Run F W) buy_order w1 answer w2 :
  place_order ext (buy_exchange opportunity) (opp_symbol opportunity) buy
              (calculate_position_size cfg opportunity (risk_manager (engine r)))
              (world r) = (Some buy_order, w1) ->
  get_order_status ext (buy_exchange opportunity) (id buy_order)
                   (sleep ext (execution_delay (arbitrage cfg)) w1) = (answer, w2) ->
  closed answer = None ->
  let r' := _execute_arbitrage cfg ext now_ms opportunity r in
  let tid := make_trade_id now_ms in
  map (@action F) (trace r')
  = (map (@action F) (trace r) ++
     [ Log INFO tid;
       PlaceOrder (buy_exchange opportunity) (opp_symbol opportunity) buy
                  (calculate_position_size cfg opportunity (risk_manager (engine r)));
       Sleep (execution_delay (arbitrage cfg));
       GetOrderStatus (buy_exchange opportunity) (id buy_order);
       Log ERROR tid;
       CancelOrder (buy_exchange opportunity) (id buy_order) ])%list /\
  engine r' = engine r /\
  world r' = snd (cancel_order ext (buy_exchange opportunity) (id buy_order) w2) /\
  (forall today w0 todo,
      r = execute_all cfg ext todo
            {| engine := ArbitrageEngine.__init__ today; world := w0; trace := [] |} ->
      active_trades (risk_manager (engine r')) = []).
Proof.
  intros Hplace Hstatus Hopen. cbv zeta.
  assert (Hrun : _execute_arbitrage cfg ext now_ms opportunity r
                 = {| engine := engine r;
                      world := snd (cancel_order ext (buy_exchange opportunity)
                                                 (id buy_order) w2);
                      trace :=
                        (trace r ++
                         map (fun a => {| action := a;
                                          registered := registered_now (engine r) |})
                           [ Log INFO (make_trade_id now_ms);
                             PlaceOrder (buy_exchange opportunity)
                                        (opp_symbol opportunity) buy
                                        (calculate_position_size cfg opportunity
                                           (risk_manager (engine r)));
                             Sleep (execution_delay (arbitrage cfg));
                             GetOrderStatus (buy_exchange opportunity) (id buy_order);
                             Log ERROR (make_trade_id now_ms);
                             CancelOrder (buy_exchange opportunity) (id buy_order) ])%list
                   |}).
  { run_exec. rewrite Hplace. cbn [fst snd engine world trace].
    rewrite Hstatus. cbn [fst snd engine world trace]. rewrite Hopen.
    cbn [fst snd engine world trace].
    destruct (cancel_order ext (buy_exchange opportunity) (id buy_order) w2).
    cbn [fst snd engine world trace map]. rewrite <- !app_assoc. reflexivity. }
  rewrite Hrun. cbn [engine world trace].
  split; [|split; [reflexivity|split; [reflexivity|]]].
  - rewrite map_app, map_map. reflexivity.
  - intros today w0 todo ->. now rewrite execute_all_keeps_risk_manager.
Qed.

End CoordinatorFacts.

(* ================================================================== *)
(** * The program run on concrete inputs *)
(* ================================================================== *)

Section ConcreteRuns.
Local Open Scope Z_scope.

Lemma two_venues_distinct : NoDup ["A"; "B"].
Proof.
  constructor; [intros [H|[]]; discriminate|].
  constructor; [intros []|constructor].
Qed.

Lemma scenario_A_usable :
  usable_quotes ["A"; "B"] (scenario_A (F:=float)) "EUR/USD".
Proof.
  intros X t [<-|[<-|[]]] Ht; vm_compute in Ht; injection Ht as <-;
    split; vm_compute; reflexivity.
Qed.

(** The amended C1 applies to Scenario A in binary64, with a threshold
    of 0.05 percent: the quotes are usable, and the direction buy A / sell
    B qualifies, so it is emitted. *)
Lemma detector_emits_iff_profitable_witness :
  NoDup ["A"; "B"] /\
  usable_quotes ["A"; "B"] (scenario_A (F:=float)) "EUR/USD" /\
  exists opps,
    find_arbitrage_opportunities (with_min_profit_threshold 0.0005) ["A"; "B"]
                                 (scenario_A (F:=float)) "EUR/USD" = Ok opps /\
    exists o, In o opps /\ buy_exchange o = "A" /\ sell_exchange o = "B".
Proof.
  split; [exact two_venues_distinct|]. split; [exact scenario_A_usable|].
  destruct (detector_emits_iff_profitable
              (with_min_profit_threshold 0.0005) (sym := "EUR/USD")
              two_venues_distinct scenario_A_usable) as [opps [H [Hiff _]]].
  exists opps. split; [exact H|].
  apply (Hiff "A" "B" (quote "A" "EUR/USD" 1.1998 1.2000 5)
              (quote "B" "EUR/USD" 1.2008 1.2010 7)).
  - now left.
  - right. now left.
  - discriminate.
  - reflexivity.
  - reflexivity.
  - split; vm_compute; reflexivity.
Defined.

(** C1 as stated fails: venue A reports an ask of zero.  Buying on C at
    1.2000 and selling on B at 1.2050 is profitable (0.4167 percent, the
    threshold being 0.1) and neither quote involves a zero, yet the
    detector emits nothing: the pair (A, B) comes first, A's ask is below
    B's bid, and the spread percentage divides by A's ask. *)
Lemma detector_raises_on_zero_ask :
  let r := find_arbitrage_opportunities (F:=float) config ["A"; "B"; "C"]
                                        zero_ask_quotes "EUR/USD" in
  r = Raise ZeroDivisionError /\
  ~ emits r "C" "B" /\
  exists tC tB,
    zero_ask_quotes "C" "EUR/USD" = Some tC /\
    zero_ask_quotes "B" "EUR/USD" = Some tB /\
    is_zero (ask tC) = false /\
    lt (ask tC) (bid tB) = true /\
    le (min_profit_pct config) (spread_pct tC tB) = true.
Proof.
  cbv zeta.
  assert (Hr : find_arbitrage_opportunities (F:=float) config ["A"; "B"; "C"]
                 zero_ask_quotes "EUR/USD" = Raise ZeroDivisionError)
    by (vm_compute; reflexivity).
  split; [exact Hr|]. split.
  - rewrite Hr. intros [opps [o [H _]]]. discriminate.
  - eexists. eexists. split; [reflexivity|]. split; [reflexivity|].
    repeat split; vm_compute; reflexivity.
Qed.

(** C4 as stated fails: with the configured threshold the detector does
    not return a one-element list on Scenario A. *)
Lemma scenario_A_not_one_opportunity :
  ~ exists o, find_arbitrage_opportunities (F:=float) config ["A"; "B"]
                                           scenario_A "EUR/USD" = Ok [o].
Proof. intros [o H]. vm_compute in H. discriminate. Qed.

(** C4 (as amended): on Scenario A the configured threshold is
    [0.001 * 100 = 0.1] percent, the only profitable direction (buy A,
    sell B) has a spread of about 0.0667 percent, and the detector
    returns the empty list; with [min_profit_threshold = 0.0005] (0.05
    percent) it returns exactly one opportunity, buy A and sell B, with
    that spread.  Computed in binary64, and the same in exact
    arithmetic. *)
Theorem scenario_A_detection :
  find_arbitrage_opportunities (F:=float) config ["A"; "B"] scenario_A "EUR/USD"
  = Ok [] /\
  find_arbitrage_opportunities (F:=Q) config ["A"; "B"] scenario_A "EUR/USD"
  = Ok [] /\
  (exists o,
      find_arbitrage_opportunities (F:=float) (with_min_profit_threshold 0.0005)
                                   ["A"; "B"] scenario_A "EUR/USD" = Ok [o] /\
      buy_exchange o = "A" /\ sell_exchange o = "B" /\
      lt (lit 0.0666) (profit_percentage o) = true /\
      lt (profit_percentage o) (lit 0.0667) = true /\
      lt (profit_percentage o) (min_profit_pct config) = true) /\
  (exists o,
      find_arbitrage_opportunities (F:=Q) (with_min_profit_threshold 0.0005)
                                   ["A"; "B"] scenario_A "EUR/USD" = Ok [o] /\
      buy_exchange o = "A" /\ sell_exchange o = "B" /\
      (profit_percentage o == 1 # 15)%Q).
Proof.
  split; [vm_compute; reflexivity|]. split; [vm_compute; reflexivity|]. split.
  - eexists. split; [vm_compute; reflexivity|].
    repeat split; vm_compute; reflexivity.
  - eexists. split; [vm_compute; reflexivity|].
    repeat split; vm_compute; reflexivity.
Qed.

(** C5 on a failing input: the quotes of A and B report volumes 5 and 7,
    the detector emits the opportunity buy A / sell B, and its volume is
    0, not [min(5, 7) = 5]. *)
Theorem emitted_volume_ignores_quote_volumes :
  exists o tA tB,
    find_arbitrage_opportunities (F:=float) (with_min_profit_threshold 0.0005)
                                 ["A"; "B"] scenario_A "EUR/USD" = Ok [o] /\
    scenario_A "A" "EUR/USD" = Some tA /\
    scenario_A "B" "EUR/USD" = Some tB /\
    pymin (volume tA) (volume tB) = lit 5 /\
    opp_volume o = lit 0 /\
    lt (opp_volume o) (pymin (volume tA) (volume tB)) = true.
Proof.
  eexists. eexists. eexists.
  split; [vm_compute; reflexivity|].
  split; [reflexivity|]. split; [reflexivity|].
  repeat split; vm_compute; reflexivity.
Qed.

(** C2 applies: five trades in flight, the configured limit being 5. *)
Lemma can_execute_rejects_at_concurrency_limit_witness :
  (max_concurrent_trades (F:=float) config
   <= len (active_trades (mid_day (F:=float) 10 0 0 5))) /\
  fst (can_execute_trade config 10 opportunity_A_B (mid_day (F:=float) 10 0 0 5))
  = false.
Proof.
  split; [vm_compute; discriminate|].
  apply (can_execute_rejects_at_concurrency_limit
           (F:=float) config 10 opportunity_A_B (mid_day 10 0 0 5)).
  vm_compute. discriminate.
Defined.


(** C6 as stated fails: the current date (day 9) differs from
    [last_reset] (day 10), and the risk check leaves the counters at 5.0
    and 3. *)
Lemma no_reset_when_date_is_earlier :
  let s := mid_day (F:=float) 10 5 3 0 in
  let s' := snd (can_execute_trade config 9 opportunity_A_B s) in
  9 <> last_reset s /\
  daily_loss s' = lit 5 /\ is_zero (daily_loss s') = false /\
  daily_trades s' = 3 /\ last_reset s' = 10.
Proof. cbv zeta. repeat split; try (vm_compute; reflexivity). discriminate. Qed.

(** The amended C8 applies: the venues accept the buy order and report
    it open. *)
Lemma buy_timeout_cancels_without_selling_witness :
  let r := fresh_run (F:=float) 0 in
  let r' := _execute_arbitrage config venues_never_filling 1700000000000
                               opportunity_A_B r in
  engine r' = engine r /\ world r' = 4%nat.
Proof.
  cbv zeta.
  destruct (@buy_timeout_cancels_without_selling
              float nat _ config venues_never_filling 1700000000000
              opportunity_A_B (fresh_run 0) {| id := "order-1" |} 1%nat
              (Some {| status := "open"; price := lit 0 |}) 3%nat
              eq_refl eq_refl eq_refl) as [_ [He [Hw _]]].
  split; [exact He | exact Hw].
Defined.

(** C8 as stated fails: after a buy order that stays open, nothing
    marks the trade as failed: the failed-trades counter is still 0, no
    trade is stored, and the engine is as it was constructed. *)
Lemma buy_timeout_marks_no_failure :
  let r' := _execute_arbitrage (F:=float) config venues_never_filling 1700000000000
                               opportunity_A_B (fresh_run 0) in
  map (@action float) (trace r')
  = [ Log INFO "arb_1700000000000";
      PlaceOrder "A" "EUR/USD" buy (lit 1000);
      Sleep (lit 0.1);
      GetOrderStatus "A" "order-1";
      Log ERROR "arb_1700000000000";
      CancelOrder "A" "order-1" ] /\
  failed_trades (daily_stats (engine r')) = 0 /\
  total_trades (daily_stats (engine r')) = 0 /\
  engine r' = ArbitrageEngine.__init__ 0.
Proof. cbv zeta. repeat split; vm_compute; reflexivity. Qed.

(** C9 on a failing input: a newly constructed engine executes one
    opportunity against venues that fill every order.  Venue calls are
    issued, every one of them while the risk manager's list of active
    trades is empty, and the list is empty afterwards: the trade id is
    registered at no point. *)
Theorem execution_never_registers_trade :
  let r' := _execute_arbitrage (F:=float) config venues_filling 1700000000000
                               opportunity_A_B (fresh_run 0) in
  map (fun o => (action o, registered o)) (filter (fun o => is_venue_call (action o)) (trace r'))
  = [ (PlaceOrder "A" "EUR/USD" buy (lit 1000), []);
      (GetOrderStatus "A" "order-1", []);
      (PlaceOrder "B" "EUR/USD" sell (lit 1000), []);
      (GetOrderStatus "B" "order-1", []);
      (CalculateFees "A" "EUR/USD" (lit 1000) (lit 1.2), []);
      (CalculateFees "B" "EUR/USD" (lit 1000) (lit 1.2), []) ] /\
  active_trades (risk_manager (engine r')) = [].
Proof. cbv zeta. split; vm_compute; reflexivity. Qed.

(** The drawdown limit is reached by a balance of 1000 followed by a loss
    of 150: a drawdown of 0.15. *)
Example drawdown_limit_reached :
  run (F:=float) config
      [UpdateBalance (lit 1000);
       RecordTrade {| ct_profit := lit (-150); ct_trade_id := None |}]
      (RiskManager.__init__ 0) = Ok (after_drawdown 0).
Proof. vm_compute. reflexivity. Qed.

(** C10 applies in binary64: after the history that reaches a drawdown
    of 0.15, a profitable trade and a daily reset on the next day leave
    [max_drawdown] no smaller, and the gate rejects. *)
Lemma max_drawdown_never_decreases_witness :
  OrderLaws (F := float) /\
  exists s s',
    run (F:=float) config
        [UpdateBalance (lit 1000);
         RecordTrade {| ct_profit := lit (-150); ct_trade_id := None |}]
        (RiskManager.__init__ 0) = Ok s /\
    run (F:=float) config
        [RecordTrade {| ct_profit := lit 500; ct_trade_id := None |};
         ResetDailyCounters 1] s = Ok s' /\
    le (max_drawdown s) (max_drawdown s') = true /\
    fst (can_execute_trade config 1 opportunity_A_B s') = false.
Proof.
  split; [exact order_laws_binary64|].
  destruct (@max_drawdown_never_decreases
              float _ config order_laws_binary64 0
              [UpdateBalance (lit 1000);
               RecordTrade {| ct_profit := lit (-150); ct_trade_id := None |}])
    as [s [Hrun Hafter]].
  destruct (Hafter [RecordTrade {| ct_profit := lit 500; ct_trade_id := None |};
                    ResetDailyCounters 1]) as [s' [Hrun' [Hle Hlatch]]].
  exists s, s'. split; [exact Hrun|]. split; [exact Hrun'|]. split; [exact Hle|].
  apply Hlatch.
  rewrite drawdown_limit_reached in Hrun. injection Hrun as <-.
  vm_compute. reflexivity.
Defined.

End ConcreteRuns.

(* ================================================================== *)
(** * More on the detector *)
(* ================================================================== *)

Section DetectorMore.
Context {F : Type} {PF : PyFloat F}.
Variable cfg : Config F.
Variable exchanges : list string.
Variable get_ticker : string -> string -> option (Ticker F).
Variable sym : string.

(** Building the snapshot either raises [ZeroDivisionError] or returns the
    entries of the venues that answered, whose bids are then all
    non-zero. *)
Lemma get_best_prices_from_cases names acc :
  NoDup names ->
  (forall X, In X names -> ~ In X (dict_keys acc)) ->
  get_best_prices_from get_ticker sym names acc = Raise ZeroDivisionError \/
  (get_best_prices_from get_ticker sym names acc
   = Ok (acc ++ entries get_ticker sym names)%list /\
   forall X t, In X names -> get_ticker X sym = Some t -> is_zero (bid t) = false).
Proof.
  revert acc. induction names as [|X names IH]; intros acc Hnd Hfresh; simpl.
  - right. split; [now rewrite app_nil_r | intros X t []].
  - inversion Hnd as [|? ? HX Hnd']; subst.
    destruct (get_ticker X sym) as [t|] eqn:Ht.
    + unfold truediv. destruct (is_zero (bid t)) eqn:Hz; simpl; [now left|].
      rewrite dict_set_fresh by (apply Hfresh; now left).
      destruct (IH (acc ++ [(X, price_entry t
                                   (mul (quot (sub (ask t) (bid t)) (bid t)) (lit 100)))])%list
                   Hnd') as [Hraise|[Hok Hbids]].
      * intros Y HY. unfold dict_keys. rewrite map_app, in_app_iff. simpl.
        intros [Hin|[->|[]]]; [apply (Hfresh Y); [now right | exact Hin] | contradiction].
      * now left.
      * right. split; [now rewrite Hok, <- app_assoc|].
        intros Y t' [->|HY] Ht'; [congruence | now apply (Hbids Y)].
    + destruct (IH acc Hnd') as [Hraise|[Hok Hbids]].
      * intros Y HY. apply Hfresh. now right.
      * now left.
      * right. split; [assumption|].
        intros Y t' [->|HY] Ht'; [congruence | now apply (Hbids Y)].
Qed.

Lemma get_best_prices_from_zero_bid names acc X t :
  In X names -> get_ticker X sym = Some t -> is_zero (bid t) = true ->
  get_best_prices_from get_ticker sym names acc = Raise ZeroDivisionError.
Proof.
  revert acc. induction names as [|Y names IH]; intros acc Hin Ht Hz; simpl.
  - contradiction.
  - destruct (get_ticker Y sym) as [tY|] eqn:HtY.
    + unfold truediv. destruct (is_zero (bid tY)) eqn:HzY; simpl; [reflexivity|].
      destruct Hin as [->|Hin]; [congruence | now apply IH].
    + destruct Hin as [->|Hin]; [congruence | now apply IH].
Qed.


(** A pair with no profitable direction contributes nothing, and no
    division is made. *)
Lemma check_pair_quiet X1 X2 t1 t2 names opps :
  In X1 names -> In X2 names ->
  get_ticker X1 sym = Some t1 -> get_ticker X2 sym = Some t2 ->
  lt (ask t1) (bid t2) = false -> lt (ask t2) (bid t1) = false ->
  check_pair cfg sym (entries get_ticker sym names) X1 X2 opps = Ok opps.
Proof.
  intros H1 H2 Ht1 Ht2 Ha Hb.
  unfold check_pair, dict_item.
  rewrite (@entries_get F PF get_ticker sym X1 names t1 H1 Ht1),
          (@entries_get F PF get_ticker sym X2 names t2 H2 Ht2).
  cbn [bind price_entry dict_get String.eqb Ascii.eqb Bool.eqb dict_get_default].
  rewrite Ha. cbn [bind]. now rewrite Hb.
Qed.



Lemma scan_outer_quiet todo opps :
  (forall X Y tX tY, In X exchanges -> In Y exchanges -> X <> Y ->
     get_ticker X sym = Some tX -> get_ticker Y sym = Some tY ->
     lt (ask tX) (bid tY) = false) ->
  incl todo (live get_ticker sym exchanges) -> NoDup todo ->
  scan_outer cfg sym (entries get_ticker sym exchanges) todo opps = Ok opps.
Proof.
  intros Hquiet. revert opps.
  induction todo as [|X1 later IHt]; intros opps Hincl Hnd1; simpl; [reflexivity|].
  inversion Hnd1 as [|? ? HX1 Hnd1']; subst.
  assert (HX1l : In X1 (live get_ticker sym exchanges)) by (apply Hincl; now left).
  apply live_In in HX1l. destruct HX1l as [H1 [t1 Ht1]].
  assert (Hin : forall later' opps',
             incl later' later ->
             scan_inner cfg sym (entries get_ticker sym exchanges) X1 later' opps'
             = Ok opps').
  { induction later' as [|X2 later' IHl]; intros opps' Hsub; simpl; [reflexivity|].
    assert (HX2 : In X2 later) by (apply Hsub; now left).
    assert (HX2l : In X2 (live get_ticker sym exchanges))
      by (apply Hincl; now right).
    apply live_In in HX2l. destruct HX2l as [H2 [t2 Ht2]].
    assert (Hne : X1 <> X2) by (intros ->; contradiction).
    rewrite (@check_pair_quiet X1 X2 t1 t2 exchanges opps' H1 H2 Ht1 Ht2
               (Hquiet X1 X2 t1 t2 H1 H2 Hne Ht1 Ht2)
               (Hquiet X2 X1 t2 t1 H2 H1 (not_eq_sym Hne) Ht2 Ht1)).
    simpl. apply IHl. intros Y HY. apply Hsub. now right. }
  rewrite (Hin later opps (@incl_refl _ _)). simpl.
  apply IHt; [intros Y HY; apply Hincl; now right | assumption].
Qed.


(** X2: when every venue that answered reports a non-zero bid and no
    venue's ask is below another venue's bid, the detector returns the
    empty list; it does so without dividing by any ask, so zero asks do
    not disturb it. *)
Theorem detector_empty_without_crossing :
  NoDup exchanges ->
  (forall X t, In X exchanges -> get_ticker X sym = Some t -> is_zero (bid t) = false) ->
  (forall X Y tX tY, In X exchanges -> In Y exchanges -> X <> Y ->
     get_ticker X sym = Some tX -> get_ticker Y sym = Some tY ->
     lt (ask tX) (bid tY) = false) ->
  find_arbitrage_opportunities cfg exchanges get_ticker sym = Ok [].
Proof.
  intros Hnd Hbids Hquiet.
  unfold find_arbitrage_opportunities, get_best_prices.
  rewrite get_best_prices_from_ok; [|assumption | intros X _ [] | assumption].
  simpl. destruct (len (entries get_ticker sym exchanges) <? 2)%Z; [reflexivity|].
  rewrite entries_keys.
  apply scan_outer_quiet;
    [assumption | apply incl_refl | now apply live_NoDup].
Qed.

(** Where an emitted opportunity comes from. *)
Lemma emitted_origin o names :
  In o (all_pairs cfg get_ticker sym names) ->
  exists tX tY,
    In (buy_exchange o) names /\ In (sell_exchange o) names /\
    get_ticker (buy_exchange o) sym = Some tX /\
    get_ticker (sell_exchange o) sym = Some tY /\
    qualifies cfg tX tY = true /\
    o = opportunity_for sym (buy_exchange o) (sell_exchange o) tX tY.
Proof.
  intros Hin. apply all_pairs_In in Hin.
  destruct Hin as [l1 [X1 [l2 [X2 [l3 [Hs Hd]]]]]].
  assert (H1 : In X1 names) by (rewrite Hs; apply in_elt).
  assert (H2 : In X2 names)
    by (rewrite Hs; apply in_or_app; right; right; apply in_elt).
  destruct Hd as [Hd|Hd]; apply direction_In in Hd;
    destruct Hd as [t1 [t2 [Ht1 [Ht2 [Hq ->]]]]];
    exists t1, t2; simpl; now repeat split.
Qed.

(** X3: every opportunity the detector emits meets the profit floor that
    [can_execute_trade] and [_should_execute_opportunity] test again, so
    the risk gate's verdict on a detector output is decided by the other
    four checks alone. *)
Theorem emitted_opportunities_meet_the_floor opps :
  RiskAdvisory.le_excludes_gt (F := F) ->
  NoDup exchanges ->
  usable_quotes exchanges get_ticker sym ->
  find_arbitrage_opportunities cfg exchanges get_ticker sym = Ok opps ->
  forall o, In o opps ->
    lt (profit_percentage o) (mul (min_profit_threshold (arbitrage cfg)) (lit 100))
    = false /\
    forall today (s : RiskManager F),
      fst (can_execute_trade cfg today o s)
      = negb (le (max_daily_loss cfg) (daily_loss (_reset_daily_counters today s))
              || (max_concurrent_trades cfg <=? len (active_trades s))%Z
              || le (lit 0.1) (max_drawdown s)
              || lt (lit 5.0) (profit_percentage o)).
Proof.
  intros Hdual Hnd Hu Hfind o Hin.
  rewrite find_arbitrage_opportunities_ok in Hfind by assumption.
  injection Hfind as <-.
  apply emitted_origin in Hin.
  destruct Hin as [tX [tY [_ [_ [_ [_ [Hq Ho]]]]]]].
  unfold qualifies in Hq. apply andb_true_iff in Hq. destruct Hq as [_ Hle].
  assert (Hfloor : lt (profit_percentage o)
                      (mul (min_profit_threshold (arbitrage cfg)) (lit 100)) = false).
  { rewrite Ho. simpl. now apply Hdual. }
  split; [exact Hfloor|].
  intros today s. unfold can_execute_trade.
  rewrite reset_keeps_active_trades, reset_keeps_max_drawdown, Hfloor.
  destruct (le (max_daily_loss cfg) _); [reflexivity|].
  destruct (max_concurrent_trades cfg <=? _)%Z; [reflexivity|].
  destruct (le (lit 0.1) _); [reflexivity|].
  now destruct (lt (lit 5.0) _).
Qed.

End DetectorMore.

Lemma le_excludes_gt_Q : RiskAdvisory.le_excludes_gt (F := Q).
Proof.
  intros a b H. simpl in *. now rewrite H.
Qed.

Lemma SFleb_excludes_SFltb (a b : spec_float) :
  SFleb a b = true -> SFltb b a = false.
Proof.
  unfold SFleb, SFltb, SFcompare.
  destruct a as [[|]|[|]| |[|] ma ea], b as [[|]|[|]| |[|] mb eb];
    try reflexivity; try discriminate;
    split_compare; simpl; intros; subst; try reflexivity; try discriminate; lia.
Qed.

Lemma le_excludes_gt_binary64 : RiskAdvisory.le_excludes_gt (F := float).
Proof.
  intros a b. simpl. rewrite leb_spec, ltb_spec. apply SFleb_excludes_SFltb.
Qed.

(** X4 (in exact arithmetic): on usable quotes where no venue's own book
    is crossed (bid <= ask at every venue), the detector never emits both
    directions of a pair. *)
Theorem at_most_one_direction_per_pair
        (cfg : Config Q) (exchanges : list string)
        (get_ticker : string -> string -> option (Ticker Q)) (sym : string) opps :
  NoDup exchanges ->
  usable_quotes exchanges get_ticker sym ->
  (forall X t, In X exchanges -> get_ticker X sym = Some t -> (bid t <= ask t)%Q) ->
  find_arbitrage_opportunities cfg exchanges get_ticker sym = Ok opps ->
  forall o1 o2, In o1 opps -> In o2 opps ->
    ~ (buy_exchange o1 = sell_exchange o2 /\ sell_exchange o1 = buy_exchange o2).
Proof.
  intros Hnd Hu Hbook Hfind o1 o2 H1 H2 [Hb Hs].
  rewrite find_arbitrage_opportunities_ok in Hfind by assumption.
  injection Hfind as <-.
  apply emitted_origin in H1. apply emitted_origin in H2.
  destruct H1 as [tX [tY [HX [HY [HtX [HtY [Hq1 _]]]]]]].
  destruct H2 as [uX [uY [_ [_ [HuX [HuY [Hq2 _]]]]]]].
  rewrite <- Hs in HuX. rewrite <- Hb in HuY.
  rewrite HtY in HuX. rewrite HtX in HuY.
  injection HuX as <-. injection HuY as <-.
  apply live_In in HX, HY. destruct HX as [HX _], HY as [HY _].
  pose proof (Hbook _ _ HX HtX) as HbX. pose proof (Hbook _ _ HY HtY) as HbY.
  unfold qualifies in Hq1, Hq2.
  apply andb_true_iff in Hq1, Hq2. destruct Hq1 as [Hl1 _], Hq2 as [Hl2 _].
  apply lt_Q_true in Hl1, Hl2. lra.
Qed.

(* ================================================================== *)
(** * The price monitor *)
(* ================================================================== *)

Section PriceMonitor.
Context {F : Type} {PF : PyFloat F}.
Variable exchanges : list string.
Variable get_ticker : string -> string -> option (Ticker F).
Variable sym : string.

Lemma get_all_tickers_from_storing names tickers stored :
  NoDup names ->
  (forall X, In X names -> ~ In X (dict_keys tickers)) ->
  ExchangeAccess.get_all_tickers_from get_ticker (@ExchangeAccess.storing F)
                                      sym names tickers stored
  = (Ok (tickers ++ ExchangeAccess.answers_for get_ticker sym names)%list,
     (stored ++ ExchangeAccess.rows_for get_ticker sym names)%list).
Proof.
  revert tickers stored.
  induction names as [|X names IH]; intros tickers stored Hnd Hfresh; simpl.
  - now rewrite !app_nil_r.
  - inversion Hnd as [|? ? HX Hnd']; subst.
    destruct (get_ticker X sym) as [t|] eqn:Ht; simpl.
    + rewrite dict_set_fresh by (apply Hfresh; now left).
      rewrite IH.
      * now rewrite <- !app_assoc.
      * assumption.
      * intros Y HY. unfold dict_keys. rewrite map_app, in_app_iff. simpl.
        intros [Hin|[->|[]]]; [apply (Hfresh Y); [now right | exact Hin] | contradiction].
    + apply IH; [assumption|]. intros Y HY. apply Hfresh. now right.
Qed.

(** X5: against a database that stores every row, [get_all_tickers]
    returns one entry per venue that answered, in venue order and keyed by
    venue, and stores exactly one price row per such venue, in the same
    order; venues that failed leave no trace in either. *)
Theorem get_all_tickers_one_row_per_answer stored :
  NoDup exchanges ->
  ExchangeAccess.get_all_tickers exchanges get_ticker (@ExchangeAccess.storing F)
                                 sym stored
  = (Ok (ExchangeAccess.answers_for get_ticker sym exchanges),
     (stored ++ ExchangeAccess.rows_for get_ticker sym exchanges)%list) /\
  dict_keys (ExchangeAccess.answers_for get_ticker sym exchanges)
  = live get_ticker sym exchanges /\
  map (@ExchangeAccess.pr_exchange F) (ExchangeAccess.rows_for get_ticker sym exchanges)
  = live get_ticker sym exchanges.
Proof.
  intros Hnd. split; [|split].
  - unfold ExchangeAccess.get_all_tickers.
    now rewrite get_all_tickers_from_storing by (assumption || intros X _ []).
  - unfold ExchangeAccess.answers_for, live, dict_keys.
    induction exchanges as [|X names IH]; simpl; [reflexivity|].
    inversion Hnd; subst.
    destruct (get_ticker X sym); simpl; now rewrite IH.
  - unfold ExchangeAccess.rows_for, live.
    induction exchanges as [|X names IH]; simpl; [reflexivity|].
    inversion Hnd; subst.
    destruct (get_ticker X sym); simpl; now rewrite IH.
Qed.

(** X6: a database error is not contained: if storing a price row raises,
    [get_all_tickers] raises the same exception as soon as one venue has
    answered, and returns no tickers at all. *)
Theorem get_all_tickers_propagates_database_error
        (W : Type) (add_exchange_price : ExchangeAccess.PriceRow F -> W -> Result unit * W)
        (e : PyError) (w : W) X t :
  (forall row w', fst (add_exchange_price row w') = Raise e) ->
  In X exchanges -> get_ticker X sym = Some t ->
  fst (ExchangeAccess.get_all_tickers exchanges get_ticker add_exchange_price sym w)
  = Raise e.
Proof.
  intros Hdb HX Ht. unfold ExchangeAccess.get_all_tickers.
  generalize (@nil (string * Ticker F)) as tickers.
  revert HX. generalize exchanges as names.
  induction names as [|Y names IH]; intros HX tickers; simpl.
  - contradiction.
  - destruct (get_ticker Y sym) as [tY|] eqn:HtY.
    + match goal with
      | |- context [add_exchange_price ?row w] =>
          pose proof (Hdb row w) as Hfail;
          destruct (add_exchange_price row w) as [[u|e'] w'] eqn:Hcall
      end; simpl in Hfail; [discriminate|].
      simpl. congruence.
    + destruct HX as [->|HX]; [congruence | now apply IH].
Qed.

End PriceMonitor.

(* ================================================================== *)
(** * More on the risk manager *)
(* ================================================================== *)

Section RiskManagerMore.
Context {F : Type} {PF : PyFloat F}.
Variable cfg : Config F.
Hypothesis laws : OrderLaws (F := F).

(** [record_trade] returns; what it does to the list of active trades,
    the trade counter and the reset date. *)
Lemma record_trade_effect (t : CompletedTrade F) (s : RiskManager F) :
  exists s',
    record_trade t s = Ok s' /\
    active_trades s'
    = (if truthy (ct_trade_id t)
       then filter (fun a => ne_opt (trade_id a) (ct_trade_id t)) (active_trades s)
       else active_trades s) /\
    daily_trades s' = (daily_trades s + 1)%Z /\
    last_reset s' = last_reset s /\
    peak_balance s'
    = (if lt (lit 0) (ct_profit t)
       then pymax (peak_balance s) (add (current_balance s) (ct_profit t))
       else peak_balance s) /\
    (lt (lit 0) (peak_balance s) = false -> lt (lit 0) (ct_profit t) = false ->
     max_drawdown s' = max_drawdown s).
Proof.
  unfold record_trade.
  destruct (lt (lit 0) (ct_profit t)).
  - cbn [bind]. destruct (truthy (ct_trade_id t)); eexists;
      (split; [reflexivity|]); simpl; repeat split; discriminate.
  - destruct (lt (lit 0) (peak_balance s)) eqn:Hpk.
    + unfold truediv. rewrite (positive_nonzero laws _ Hpk). cbn [bind].
      destruct (truthy (ct_trade_id t)); eexists;
        (split; [reflexivity|]); simpl; repeat split; discriminate.
    + cbn [bind]. destruct (truthy (ct_trade_id t)); eexists;
        (split; [reflexivity|]); simpl; now repeat split.
Qed.

Lemma falsy_id_differs (x y : option string) :
  truthy x = false -> truthy y = true -> ne_opt x y = true.
Proof.
  destruct x as [a|], y as [b|]; simpl; try discriminate; try reflexivity.
  intros Ha Hb. apply negb_false_iff in Ha. apply String.eqb_eq in Ha. subst a.
  destruct b; [discriminate | reflexivity].
Qed.

Lemma filter_all_kept (A : Type) (f : A -> bool) (l : list A) :
  Forall (fun a => f a = true) l -> filter f l = l.
Proof.
  induction 1 as [|a l Ha _ IH]; simpl; [reflexivity|]. now rewrite Ha, IH.
Qed.

(** X7: recording a trade under a non-empty id removes every active
    trade registered under that id and keeps all others, in order; so a
    trade registered under an id no active trade carries, and then
    recorded under that id, leaves the list of active trades as it was
    before the registration. *)
Theorem register_then_record_releases
        (now : F) (nt : NewTrade F) (ct : CompletedTrade F) (s : RiskManager F) :
  truthy (ct_trade_id ct) = true ->
  nt_trade_id nt = ct_trade_id ct ->
  exists s',
    record_trade ct (add_active_trade now nt s) = Ok s' /\
    active_trades s'
    = filter (fun a => ne_opt (trade_id a) (ct_trade_id ct)) (active_trades s) /\
    (Forall (fun a => ne_opt (trade_id a) (ct_trade_id ct) = true) (active_trades s) ->
     active_trades s' = active_trades s).
Proof.
  intros Hid Hsame.
  destruct (record_trade_effect ct (add_active_trade now nt s))
    as [s' [Hrun [Hact _]]].
  exists s'. split; [assumption|].
  rewrite Hid in Hact. simpl in Hact. rewrite filter_app in Hact. simpl in Hact.
  rewrite Hsame in Hact.
  assert (Hself : ne_opt (ct_trade_id ct) (ct_trade_id ct) = false).
  { destruct (ct_trade_id ct) as [x|]; [|discriminate]. simpl.
    now rewrite String.eqb_refl. }
  rewrite Hself, app_nil_r in Hact.
  split; [assumption|]. intros Hfresh. rewrite Hact. now apply filter_all_kept.
Qed.

(** The part of one operation that concerns active trades and counters. *)
Lemma step_effect (op : Op) (s : RiskManager F) :
  exists s',
    step cfg op s = Ok s' /\
    (forall a, In a (active_trades s) -> truthy (trade_id a) = false ->
               In a (active_trades s')) /\
    (rolls_over op s = false ->
     last_reset s' = last_reset s /\
     daily_trades s'
     = (daily_trades s + match op with RecordTrade _ => 1 | _ => 0 end)%Z).
Proof.
  destruct op as [today o|today|t|now t|b]; simpl.
  - rewrite can_execute_trade_state. eexists. split; [reflexivity|].
    rewrite reset_keeps_active_trades. split; [auto|].
    unfold rolls_over, _reset_daily_counters. simpl.
    intros ->. split; [reflexivity | lia].
  - eexists. split; [reflexivity|].
    rewrite reset_keeps_active_trades. split; [auto|].
    unfold rolls_over, _reset_daily_counters. simpl.
    intros ->. split; [reflexivity | lia].
  - destruct (record_trade_effect t s) as [s' [Hrun [Hact [Hcount [Hreset _]]]]].
    exists s'. split; [assumption|]. split; [|now split].
    intros a Ha Hfalsy. rewrite Hact.
    destruct (truthy (ct_trade_id t)) eqn:Hid; [|assumption].
    apply filter_In. split; [assumption | now apply falsy_id_differs].
  - eexists. split; [reflexivity|]. simpl. split.
    + intros a Ha _. apply in_or_app. now left.
    + intros _. split; [reflexivity | lia].
  - eexists. split; [reflexivity|]. simpl. split; [auto|].
    intros _. split; [reflexivity | lia].
Qed.

(** X8: an active trade registered without an id ([None] or the empty
    string) is never released: whatever operations follow, every one
    returns and the trade is still in the list, holding its place against
    [max_concurrent_trades]. *)
Theorem unidentified_trade_never_released
        (ops : list Op) (s : RiskManager F) (a : ActiveTrade F) :
  In a (active_trades s) ->
  truthy (trade_id a) = false ->
  exists s', run cfg ops s = Ok s' /\ In a (active_trades s').
Proof.
  revert s. induction ops as [|op ops IH]; intros s Ha Hfalsy; simpl.
  - now exists s.
  - destruct (step_effect op s) as [s1 [Hs1 [Hkeep _]]]. rewrite Hs1. simpl.
    apply IH; [now apply Hkeep | assumption].
Qed.

(** X9: over operations none of which rolls the day over, [daily_trades]
    grows by exactly the number of [record_trade] calls, profitable or
    not. *)
Theorem daily_trades_counts_recorded (ops : list Op) (s : RiskManager F) :
  (forall op, In op ops -> rolls_over op s = false) ->
  exists s',
    run cfg ops s = Ok s' /\
    daily_trades s' = (daily_trades s + RiskAdvisory.recorded ops)%Z.
Proof.
  revert s. induction ops as [|op ops IH]; intros s Hday; simpl.
  - exists s. split; [reflexivity|]. unfold RiskAdvisory.recorded, len. simpl. lia.
  - destruct (step_effect op s) as [s1 [Hs1 [_ Hsame]]]. rewrite Hs1. simpl.
    destruct (Hsame (Hday op (or_introl eq_refl))) as [Hreset Hcount].
    destruct (IH s1) as [s2 [Hs2 Hc2]].
    + intros op' Hin. specialize (Hday op' (or_intror Hin)).
      unfold rolls_over in *. now rewrite Hreset.
    + exists s2. split; [assumption|]. rewrite Hc2, Hcount.
      unfold RiskAdvisory.recorded, len. simpl.
      destruct op; simpl; lia.
Qed.

(** Without a peak, losses are not counted as drawdown. *)
Lemma run_without_peak (ops : list Op) (s : RiskManager F) :
  lt (lit 0) (lit 0.0 : F) = false ->
  forallb RiskAdvisory.leaves_peak ops = true ->
  peak_balance s = lit 0.0 ->
  exists s',
    run cfg ops s = Ok s' /\
    peak_balance s' = lit 0.0 /\ max_drawdown s' = max_drawdown s.
Proof.
  intros Hzero. revert s.
  induction ops as [|op ops IH]; intros s Hops Hpeak; simpl.
  - now exists s.
  - simpl in Hops. apply andb_true_iff in Hops. destruct Hops as [Hop Hops].
    assert (Hstep : exists s1, step cfg op s = Ok s1 /\
                               peak_balance s1 = lit 0.0 /\
                               max_drawdown s1 = max_drawdown s).
    { destruct op as [today o|today|t|now t|b]; simpl in *.
      - rewrite can_execute_trade_state. eexists. split; [reflexivity|].
        rewrite reset_keeps_max_drawdown. split; [|reflexivity].
        unfold _reset_daily_counters. now destruct (last_reset s <? today)%Z.
      - eexists. split; [reflexivity|].
        rewrite reset_keeps_max_drawdown. split; [|reflexivity].
        unfold _reset_daily_counters. now destruct (last_reset s <? today)%Z.
      - apply negb_true_iff in Hop.
        destruct (record_trade_effect t s) as [s1 [Hs1 [_ [_ [_ [Hpk Hmd]]]]]].
        exists s1. split; [assumption|]. rewrite Hop in Hpk.
        split; [congruence|]. apply Hmd; [now rewrite Hpeak | assumption].
      - eexists. split; [reflexivity|]. now split.
      - discriminate. }
    destruct Hstep as [s1 [Hs1 [Hpk1 Hmd1]]]. rewrite Hs1. simpl.
    destruct (IH s1 Hops Hpk1) as [s2 [Hs2 [Hpk2 Hmd2]]].
    exists s2. split; [assumption|]. split; [assumption | congruence].
Qed.

End RiskManagerMore.

(** X10: until a profit is recorded or [update_balance] is called, losses
    are not counted as drawdown: after any history of losing trades, risk
    checks, daily resets and registrations since construction,
    [peak_balance] and [max_drawdown] are still [0.0], and the drawdown
    check of the gate does not fire (binary64 and exact arithmetic
    alike). *)
Theorem losses_before_any_peak_are_no_drawdown
        (d0 : date) (cfgf : Config float) (opsf : list (@Op float))
        (cfgq : Config Q) (opsq : list (@Op Q)) :
  forallb RiskAdvisory.leaves_peak opsf = true ->
  forallb RiskAdvisory.leaves_peak opsq = true ->
  (exists s, run cfgf opsf (RiskManager.__init__ d0) = Ok s /\
             max_drawdown s = lit 0.0 /\ peak_balance s = lit 0.0 /\
             le (lit 0.1) (max_drawdown s) = false) /\
  (exists s, run cfgq opsq (RiskManager.__init__ d0) = Ok s /\
             max_drawdown s = lit 0.0 /\ peak_balance s = lit 0.0 /\
             le (lit 0.1) (max_drawdown s) = false).
Proof.
  intros Hf Hq. split.
  - assert (Hzero : lt (lit 0) (lit 0.0 : float) = false) by (vm_compute; reflexivity).
    assert (Hinit : peak_balance (RiskManager.__init__ (F:=float) d0) = lit 0.0)
      by reflexivity.
    destruct (@run_without_peak float _ cfgf order_laws_binary64 opsf
                (RiskManager.__init__ d0) Hzero Hf Hinit) as [s [Hrun [Hpk Hmd]]].
    exists s. split; [assumption|]. simpl in Hmd.
    split; [assumption|]. split; [assumption|]. now rewrite Hmd.
  - assert (Hzero : lt (lit 0) (lit 0.0 : Q) = false) by reflexivity.
    assert (Hinit : peak_balance (RiskManager.__init__ (F:=Q) d0) = lit 0.0)
      by reflexivity.
    destruct (@run_without_peak Q _ cfgq order_laws_Q opsq
                (RiskManager.__init__ d0) Hzero Hq Hinit) as [s [Hrun [Hpk Hmd]]].
    exists s. split; [assumption|]. simpl in Hmd.
    split; [assumption|]. split; [assumption|]. now rewrite Hmd.
Qed.

(* ================================================================== *)
(** * More on the risk manager, in exact arithmetic *)
(* ================================================================== *)

Section ExactArithmeticMore.
Local Open Scope Q_scope.
Variable cfg : Config Q.

Lemma pymax_Q_ge_l (a b : Q) : a <= pymax a b.
Proof.
  unfold pymax. destruct (lt a b) eqn:H.
  - apply lt_Q_true in H. now apply Qlt_le_weak.
  - apply Qle_refl.
Qed.

Lemma pymax_Q_ge_r (a b : Q) : b <= pymax a b.
Proof.
  unfold pymax. destruct (lt a b) eqn:H.
  - apply Qle_refl.
  - now apply lt_Q_false in H.
Qed.

Lemma le_Q_false (a b : Q) : le a b = false <-> b < a.
Proof.
  simpl. rewrite <- not_true_iff_false, Qle_bool_iff.
  split; [apply Qnot_le_lt | apply Qlt_not_le].
Qed.

(** What the balance fields satisfy, one operation at a time. *)
Lemma step_Q_balances (op : Op) (s : RiskManager Q) :
  current_balance s <= peak_balance s ->
  0 <= max_drawdown s ->
  exists s',
    step cfg op s = Ok s' /\
    current_balance s' <= peak_balance s' /\
    peak_balance s <= peak_balance s' /\
    0 <= max_drawdown s'.
Proof.
  intros Hbal Hmd.
  destruct op as [today o|today|t|now t|b]; simpl.
  - rewrite can_execute_trade_state. eexists. split; [reflexivity|].
    unfold _reset_daily_counters. destruct (last_reset s <? today)%Z; simpl;
      repeat split; try assumption; apply Qle_refl.
  - eexists. split; [reflexivity|].
    unfold _reset_daily_counters. destruct (last_reset s <? today)%Z; simpl;
      repeat split; try assumption; apply Qle_refl.
  - unfold record_trade.
    destruct (lt (lit 0) (ct_profit t)) eqn:Hp.
    + cbn [bind]. destruct (truthy (ct_trade_id t)); eexists;
        (split; [reflexivity|]); simpl;
        (split; [apply pymax_Q_ge_r | split; [apply pymax_Q_ge_l | assumption]]).
    + pose proof (Qabs_nonneg (ct_profit t)) as Habs.
      destruct (lt (lit 0) (peak_balance s)) eqn:Hpk.
      * rewrite (@truediv_Q_guarded _ _ Hpk). cbn [bind].
        destruct (truthy (ct_trade_id t)); eexists;
          (split; [reflexivity|]); simpl;
          (split; [lra | split; [apply Qle_refl|]]);
          (eapply Qle_trans; [exact Hmd | apply pymax_Q_ge_l]).
      * cbn [bind]. destruct (truthy (ct_trade_id t)); eexists;
          (split; [reflexivity|]); simpl;
          (split; [lra | split; [apply Qle_refl | assumption]]).
  - eexists. split; [reflexivity|]. simpl.
    repeat split; try assumption; apply Qle_refl.
  - eexists. split; [reflexivity|]. simpl.
    split; [apply pymax_Q_ge_r | split; [apply pymax_Q_ge_l | assumption]].
Qed.

(** X11 (in exact arithmetic): in every state the risk manager can reach,
    the current balance is at most the peak balance and [max_drawdown] is
    not negative; and from there every further sequence of operations
    returns, keeps both facts and never lowers the peak. *)
Theorem balance_never_exceeds_peak (d0 : date) (history : list Op) :
  exists s,
    run cfg history (RiskManager.__init__ d0) = Ok s /\
    current_balance s <= peak_balance s /\
    0 <= peak_balance s /\
    0 <= max_drawdown s /\
    forall ops, exists s',
      run cfg ops s = Ok s' /\
      current_balance s' <= peak_balance s' /\
      peak_balance s <= peak_balance s' /\
      0 <= max_drawdown s'.
Proof.
  assert (Hrun : forall ops (s : RiskManager Q),
             current_balance s <= peak_balance s -> 0 <= max_drawdown s ->
             exists s', run cfg ops s = Ok s' /\
                        current_balance s' <= peak_balance s' /\
                        peak_balance s <= peak_balance s' /\
                        0 <= max_drawdown s').
  { induction ops as [|op ops IH]; intros s Hbal Hmd; simpl.
    - exists s. repeat split; try assumption; apply Qle_refl.
    - destruct (@step_Q_balances op s Hbal Hmd) as [s1 [Hs1 [Hb1 [Hp1 Hm1]]]].
      rewrite Hs1. simpl.
      destruct (IH s1 Hb1 Hm1) as [s2 [Hs2 [Hb2 [Hp2 Hm2]]]].
      exists s2. repeat split; try assumption. now apply Qle_trans with (peak_balance s1). }
  destruct (Hrun history (RiskManager.__init__ d0)) as [s [Hs [Hb [Hp Hm]]]];
    [simpl; lra | simpl; lra |].
  exists s. split; [assumption|]. split; [assumption|].
  split; [simpl in Hp; lra|]. split; [assumption|].
  intros ops. now apply Hrun.
Qed.

(** The five checks of [can_execute_trade], read in exact arithmetic. *)
Lemma can_execute_trade_verdict (today : date) (o : Opportunity Q) (s : RiskManager Q) :
  fst (can_execute_trade cfg today o s) = true <->
  (if (last_reset s <? today)%Z then 0 else daily_loss s) < max_daily_loss cfg /\
  (len (active_trades s) < max_concurrent_trades cfg)%Z /\
  max_drawdown s < 0.1 /\
  min_profit_threshold (arbitrage cfg) * 100 <= profit_percentage o /\
  profit_percentage o <= 5.
Proof.
  unfold can_execute_trade.
  rewrite reset_keeps_active_trades, reset_keeps_max_drawdown.
  assert (Hdl : daily_loss (_reset_daily_counters today s)
                == (if (last_reset s <? today)%Z then 0 else daily_loss s)).
  { unfold _reset_daily_counters. destruct (last_reset s <? today)%Z; simpl.
    - reflexivity.
    - apply Qeq_refl. }
  destruct (le (max_daily_loss cfg) (daily_loss (_reset_daily_counters today s)))
    eqn:H1.
  { apply le_Q_true in H1. simpl. split; [discriminate|]. intros [H _]. lra. }
  apply le_Q_false in H1.
  destruct (Z.leb_spec (max_concurrent_trades cfg) (len (active_trades s))) as [H2|H2].
  { simpl. split; [discriminate|]. intros [_ [H _]]. lia. }
  destruct (le (lit 0.1) (max_drawdown s)) eqn:H3.
  { apply le_Q_true in H3. simpl in *. split; [discriminate|]. intros [_ [_ [H _]]]. lra. }
  apply le_Q_false in H3.
  destruct (lt (profit_percentage o) (mul (min_profit_threshold (arbitrage cfg)) (lit 100)))
    eqn:H4.
  { apply lt_Q_true in H4. simpl in *. split; [discriminate|].
    intros [_ [_ [_ [H _]]]]. lra. }
  apply lt_Q_false in H4.
  destruct (lt (lit 5.0) (profit_percentage o)) eqn:H5.
  { apply lt_Q_true in H5. simpl in *. split; [discriminate|].
    intros [_ [_ [_ [_ H]]]]. lra. }
  apply lt_Q_false in H5. simpl in *.
  split; [|reflexivity]. intros _. repeat split; try assumption; lra.
Qed.

(** X12 (in exact arithmetic): [can_execute_trade] returns [True] exactly
    when, after the daily reset, the daily loss is below the limit, fewer
    than [max_concurrent_trades] trades are active, [max_drawdown] is
    below [0.1], and the profit percentage lies between
    [min_profit_threshold * 100] and [5], both included. *)
Theorem gate_admits_iff (today : date) (o : Opportunity Q) (s : RiskManager Q) :
  fst (can_execute_trade cfg today o s) = true <->
  (if (last_reset s <? today)%Z then 0 else daily_loss s) < max_daily_loss cfg /\
  (len (active_trades s) < max_concurrent_trades cfg)%Z /\
  max_drawdown s < 0.1 /\
  min_profit_threshold (arbitrage cfg) * 100 <= profit_percentage o /\
  profit_percentage o <= 5.
Proof.
  exact (can_execute_trade_verdict today o s).
Qed.

(** X13 (in exact arithmetic): once [daily_loss] has reached
    [max_daily_loss], every opportunity is rejected for as long as the
    date read is not later than [last_reset]; on the first check on a
    later date the loss no longer counts, provided the limit is
    positive: the verdict is then that of the other four checks. *)
Theorem daily_loss_limit_holds_until_rollover
        (today : date) (o : Opportunity Q) (s : RiskManager Q) :
  max_daily_loss cfg <= daily_loss s ->
  0 < max_daily_loss cfg ->
  ((today <= last_reset s)%Z -> fst (can_execute_trade cfg today o s) = false) /\
  ((last_reset s < today)%Z ->
   (fst (can_execute_trade cfg today o s) = true <->
    (len (active_trades s) < max_concurrent_trades cfg)%Z /\
    max_drawdown s < 0.1 /\
    min_profit_threshold (arbitrage cfg) * 100 <= profit_percentage o /\
    profit_percentage o <= 5)).
Proof.
  intros Hloss Hlimit. split.
  - intros Hday. apply not_true_iff_false. intros Hyes.
    apply can_execute_trade_verdict in Hyes. destruct Hyes as [H _].
    assert (Hb : (last_reset s <? today)%Z = false) by (apply Z.ltb_ge; lia).
    rewrite Hb in H. lra.
  - intros Hday. rewrite can_execute_trade_verdict.
    assert (Hb : (last_reset s <? today)%Z = true) by (apply Z.ltb_lt; lia).
    rewrite Hb. split; [now intros [_ H] | now split].
Qed.

(** X14 (in exact arithmetic): [should_skip_opportunity] always returns,
    and it returns [True] exactly when the profit percentage is below 3
    (a ratio to the assumed 2 percent loss below 1.5); the risk state plays
    no part, the check on recent losses reading an empty history. *)
Theorem should_skip_iff_below_three (o : Opportunity Q) (s : RiskManager Q) :
  exists verdict,
    RiskAdvisory.should_skip_opportunity o s = Ok verdict /\
    (verdict = true <-> profit_percentage o < 3).
Proof.
  unfold RiskAdvisory.should_skip_opportunity, RiskAdvisory.calculate_risk_reward_ratio.
  change (is_zero (lit 2.0 : Q)) with false. cbv iota.
  unfold truediv. change (is_zero (lit 2.0 : Q)) with false. cbn [bind].
  destruct (lt (quot (profit_percentage o) (lit 2.0)) (lit 1.5)) eqn:H.
  - exists true. split; [reflexivity|]. split; [|reflexivity]. intros _.
    apply lt_Q_true in H. simpl in H. unfold Qdiv in H.
    change (/ 2.0) with (10 # 20) in H. lra.
  - exists false. split; [reflexivity|]. split; [discriminate|]. intros Hp.
    apply lt_Q_false in H. simpl in H. unfold Qdiv in H.
    change (/ 2.0) with (10 # 20) in H. lra.
Qed.

(** X15 (in exact arithmetic): the risk amount recommended with a
    position size, 2 percent of the size, exceeds neither the configured
    risk budget [available_balance * risk_per_trade] nor 2 percent of
    [max_position_size] by more than [0.0001]. *)
Theorem recommended_risk_within_budget (o : Opportunity Q) (s : RiskManager Q) :
  let r := RiskAdvisory.get_position_sizing_recommendation cfg o s in
  RiskAdvisory.risk_amount r
  <= RiskAdvisory.rec_available_balance r * risk_per_trade (arbitrage cfg) + (1 # 10000) /\
  RiskAdvisory.risk_amount r
  <= RiskAdvisory.rec_max_position_size r * 0.02 + (1 # 10000) /\
  RiskAdvisory.recommended_position_size r = calculate_position_size cfg o s.
Proof.
  cbv zeta. unfold RiskAdvisory.get_position_sizing_recommendation.
  cbn [RiskAdvisory.risk_amount RiskAdvisory.rec_available_balance
       RiskAdvisory.rec_max_position_size RiskAdvisory.recommended_position_size].
  unfold calculate_position_size, _get_available_balance.
  change (position_size_for cfg (lit 10000.0))
    with (Qround2 (unrounded_size cfg 10000.0)).
  destruct (Qround2_near (unrounded_size cfg 10000.0)) as [Hup _].
  assert (Hmax : unrounded_size cfg 10000.0 <= max_position_size (arbitrage cfg)).
  { unfold unrounded_size. eapply Qle_trans; [apply pymin_Q_l | apply pymin_Q_r]. }
  assert (Hrisk : unrounded_size cfg 10000.0
                  <= 10000.0 * risk_per_trade (arbitrage cfg) / 0.02).
  { unfold unrounded_size. eapply Qle_trans; [apply pymin_Q_l | apply pymin_Q_l]. }
  unfold Qdiv in Hrisk. change (/ 0.02) with (100 # 2) in Hrisk.
  set (size := Qround2 (unrounded_size cfg 10000.0)) in *.
  set (raw := unrounded_size cfg 10000.0) in *.
  cbn [mul lit PyFloat_Q] in *.
  split; [lra|]. split; [lra | reflexivity].
Qed.

End ExactArithmeticMore.

(* ================================================================== *)
(** * More on the execution coordinator *)
(* ================================================================== *)

Section CoordinatorMore.
Context {F W : Type} {PF : PyFloat F}.
Variable cfg : Config F.
Variable ext : Collaborators F W.

Ltac unfold_exec :=
  unfold _execute_arbitrage, try_block, exec_bind, log, do_place_order,
    do_get_order_status, do_cancel_order, do_calculate_fees, do_add_trade,
    do_send_trade_notification, do_sleep, update_stats, return_, lift,
    truediv, observe; cbn [fst snd engine world trace].

Ltac case_answers :=
  repeat (cbv beta iota zeta; cbn [fst snd engine world trace daily_stats];
          match goal with
          | |- context [place_order ext ?a ?b ?c ?d ?w] =>
              destruct (place_order ext a b c d w) as [[?|] ?]
          | |- context [get_order_status ext ?a ?b ?w] =>
              destruct (get_order_status ext a b w) as [? ?]
          | |- context [closed ?s] => destruct (closed s)
          | |- context [cancel_order ext ?a ?b ?w] =>
              destruct (cancel_order ext a b w) as [? ?]
          | |- context [ArbitrageEngine.calculate_fees ext ?a ?b ?c ?d ?w] =>
              destruct (ArbitrageEngine.calculate_fees ext a b c d w) as [? ?]
          | |- context [add_trade ext ?a ?w] =>
              destruct (add_trade ext a w) as [[?|?] ?]
          | |- context [is_zero ?x] => destruct (is_zero x)
          | |- context [if lt ?x ?y then _ else _] => destruct (lt x y) eqn:?
          end).

(** The record of what was observed, every entry with the registry of the
    start. *)
Definition seen (r : Run F W) (actions : list (Action F)) : list (Observed F) :=
  map (fun a => {| action := a; registered := registered_now (engine r) |}) actions.

(** X16: when the venue refuses the buy order, the execution ends there:
    the only venue call is that order; no status is polled, nothing is
    cancelled, no trade is stored and the engine is left as it was. *)
Theorem refused_buy_order_ends_execution
        now_ms opportunity (r : Run F W) w1 :
  place_order ext (buy_exchange opportunity) (opp_symbol opportunity) buy
              (calculate_position_size cfg opportunity (risk_manager (engine r)))
              (world r) = (None, w1) ->
  _execute_arbitrage cfg ext now_ms opportunity r
  = {| engine := engine r;
       world := w1;
       trace :=
         (trace r ++
          seen r [ Log INFO (make_trade_id now_ms);
                   PlaceOrder (buy_exchange opportunity) (opp_symbol opportunity) buy
                              (calculate_position_size cfg opportunity
                                 (risk_manager (engine r)));
                   Log ERROR (make_trade_id now_ms) ])%list |}.
Proof.
  intros Hplace. unfold_exec. rewrite Hplace. cbn [fst snd engine world trace].
  unfold seen. cbn [map]. now rewrite <- !app_assoc.
Qed.

(** X17: when the buy order is filled and the venue refuses the sell
    order, the execution logs an error and returns: the bought position is
    left open.  No order is cancelled, no compensating order is placed,
    no trade is stored, no notification is sent and the engine, its
    statistics and the risk manager included, is left as it was. *)
Theorem refused_sell_order_leaves_position_open
        now_ms opportunity (r : Run F W) buy_order w1 answer filled w2 w3 :
  let size := calculate_position_size cfg opportunity (risk_manager (engine r)) in
  place_order ext (buy_exchange opportunity) (opp_symbol opportunity) buy size
              (world r) = (Some buy_order, w1) ->
  get_order_status ext (buy_exchange opportunity) (id buy_order)
                   (sleep ext (execution_delay (arbitrage cfg)) w1) = (answer, w2) ->
  closed answer = Some filled ->
  place_order ext (sell_exchange opportunity) (opp_symbol opportunity) sell size w2
  = (None, w3) ->
  _execute_arbitrage cfg ext now_ms opportunity r
  = {| engine := engine r;
       world := w3;
       trace :=
         (trace r ++
          seen r [ Log INFO (make_trade_id now_ms);
                   PlaceOrder (buy_exchange opportunity) (opp_symbol opportunity) buy size;
                   Sleep (execution_delay (arbitrage cfg));
                   GetOrderStatus (buy_exchange opportunity) (id buy_order);
                   PlaceOrder (sell_exchange opportunity) (opp_symbol opportunity) sell size;
                   Log ERROR (make_trade_id now_ms) ])%list |}.
Proof.
  cbv zeta. intros Hbuy Hstatus Hfilled Hsell. unfold_exec.
  rewrite Hbuy. cbn [fst snd engine world trace].
  rewrite Hstatus. cbn [fst snd engine world trace]. rewrite Hfilled.
  cbn [fst snd engine world trace]. rewrite Hsell.
  cbn [fst snd engine world trace].
  unfold seen. cbn [map]. now rewrite <- !app_assoc.
Qed.

(** X18: when both orders are placed, the buy order is filled and the
    status of the sell order read after the wait is missing or not
    ['closed'], the execution cancels the sell order and returns: the
    bought position is left open, whether or not the cancellation
    succeeds; nothing is stored and the engine is left as it was. *)
Theorem unfilled_sell_order_leaves_position_open
        now_ms opportunity (r : Run F W)
        buy_order w1 answer filled w2 sell_order w3 answer' w4 :
  let size := calculate_position_size cfg opportunity (risk_manager (engine r)) in
  place_order ext (buy_exchange opportunity) (opp_symbol opportunity) buy size
              (world r) = (Some buy_order, w1) ->
  get_order_status ext (buy_exchange opportunity) (id buy_order)
                   (sleep ext (execution_delay (arbitrage cfg)) w1) = (answer, w2) ->
  closed answer = Some filled ->
  place_order ext (sell_exchange opportunity) (opp_symbol opportunity) sell size w2
  = (Some sell_order, w3) ->
  get_order_status ext (sell_exchange opportunity) (id sell_order)
                   (sleep ext (execution_delay (arbitrage cfg)) w3) = (answer', w4) ->
  closed answer' = None ->
  _execute_arbitrage cfg ext now_ms opportunity r
  = {| engine := engine r;
       world := snd (cancel_order ext (sell_exchange opportunity) (id sell_order) w4);
       trace :=
         (trace r ++
          seen r [ Log INFO (make_trade_id now_ms);
                   PlaceOrder (buy_exchange opportunity) (opp_symbol opportunity) buy size;
                   Sleep (execution_delay (arbitrage cfg));
                   GetOrderStatus (buy_exchange opportunity) (id buy_order);
                   PlaceOrder (sell_exchange opportunity) (opp_symbol opportunity) sell size;
                   Sleep (execution_delay (arbitrage cfg));
                   GetOrderStatus (sell_exchange opportunity) (id sell_order);
                   Log ERROR (make_trade_id now_ms);
                   CancelOrder (sell_exchange opportunity) (id sell_order) ])%list |}.
Proof.
  cbv zeta. intros Hbuy Hstatus Hfilled Hsell Hstatus' Hopen. unfold_exec.
  rewrite Hbuy. cbn [fst snd engine world trace].
  rewrite Hstatus. cbn [fst snd engine world trace]. rewrite Hfilled.
  cbn [fst snd engine world trace]. rewrite Hsell.
  cbn [fst snd engine world trace]. rewrite Hstatus'.
  cbn [fst snd engine world trace]. rewrite Hopen.
  cbn [fst snd engine world trace].
  destruct (cancel_order ext (sell_exchange opportunity) (id sell_order) w4).
  cbn [fst snd engine world trace].
  unfold seen. cbn [map]. now rewrite <- !app_assoc.
Qed.

(** What one execution can do to the statistics. *)
Lemma execute_stats_cases now_ms opportunity (r : Run F W) :
  let d := daily_stats (engine r) in
  let d' := daily_stats (engine (_execute_arbitrage cfg ext now_ms opportunity r)) in
  d' = d \/ d' = count_failed d \/
  exists net_profit,
    (lt (lit 0) net_profit = true /\ d' = count_total (count_success net_profit d)) \/
    (lt (lit 0) net_profit = false /\ d' = count_total (count_loss net_profit d)).
Proof.
  cbv zeta. unfold_exec. case_answers;
    first [ left; reflexivity
          | right; left; reflexivity
          | right; right; eexists; left; split; [eassumption | reflexivity]
          | right; right; eexists; right; split; [eassumption | reflexivity] ].
Qed.

(** X19: the counters of [daily_stats] stay consistent over any sequence
    of executions from construction, whatever the venues and the database
    do: successes are never negative, never exceed the trades counted,
    and every trade counted is a success or a failure.  The converse
    fails by design of the exception handler: it counts a failure without
    counting a trade. *)
Theorem statistics_counters_consistent
        (todo : list (Z * Opportunity F)) (today : date) (w0 : W) :
  Coordinator.counters_consistent
    (daily_stats
       (engine (execute_all cfg ext todo
                  {| engine := ArbitrageEngine.__init__ today;
                     world := w0; trace := [] |}))).
Proof.
  assert (Hkeep : forall todo' (r : Run F W),
             Coordinator.counters_consistent (daily_stats (engine r)) /\
             (0 <= failed_trades (daily_stats (engine r)))%Z ->
             Coordinator.counters_consistent
               (daily_stats (engine (execute_all cfg ext todo' r))) /\
             (0 <= failed_trades (daily_stats (engine (execute_all cfg ext todo' r))))%Z).
  { induction todo' as [|[now_ms opportunity] todo' IH]; intros r Hr; simpl.
    - assumption.
    - apply IH. destruct Hr as [[H0 [H1 H2]] H3].
      unfold Coordinator.counters_consistent.
      destruct (execute_stats_cases now_ms opportunity r)
        as [->|[->|[np [[_ ->]|[_ ->]]]]]; simpl; lia. }
  apply Hkeep. unfold Coordinator.counters_consistent. simpl. lia.
Qed.

(** X20: when both orders are filled, the fill value of the buy leg is
    not zero and the database accepts the row, the execution stores
    exactly one trade, with profit [(sell - buy) * size] at the reported
    fill prices and fees the sum of the two legs' fees; counts it once,
    as a success if the profit net of fees is positive and as a failure
    otherwise; notifies that net profit; and does not report the outcome
    to the risk manager, whose daily loss is thus unchanged even by a
    loss. *)
Theorem filled_trade_is_recorded_once
        now_ms opportunity (r : Run F W)
        buy_order w1 answer buy_status w2 sell_order w3 answer' sell_status w4
        buy_fees w5 sell_fees w6 row_id w7 :
  let size := calculate_position_size cfg opportunity (risk_manager (engine r)) in
  let actual_profit := mul (sub (price sell_status) (price buy_status)) size in
  let total_fees := add buy_fees sell_fees in
  let net_profit := sub actual_profit total_fees in
  let row :=
    {| row_pair := opp_symbol opportunity;
       row_exchange_buy := buy_exchange opportunity;
       row_exchange_sell := sell_exchange opportunity;
       row_buy_price := price buy_status;
       row_sell_price := price sell_status;
       row_quantity := size;
       row_profit := actual_profit;
       row_profit_percentage :=
         mul (quot actual_profit (mul (price buy_status) size)) (lit 100);
       row_fees := total_fees;
       row_notes := "Arbitrage trade " ++ make_trade_id now_ms |} in
  place_order ext (buy_exchange opportunity) (opp_symbol opportunity) buy size
              (world r) = (Some buy_order, w1) ->
  get_order_status ext (buy_exchange opportunity) (id buy_order)
                   (sleep ext (execution_delay (arbitrage cfg)) w1) = (answer, w2) ->
  closed answer = Some buy_status ->
  place_order ext (sell_exchange opportunity) (opp_symbol opportunity) sell size w2
  = (Some sell_order, w3) ->
  get_order_status ext (sell_exchange opportunity) (id sell_order)
                   (sleep ext (execution_delay (arbitrage cfg)) w3) = (answer', w4) ->
  closed answer' = Some sell_status ->
  ArbitrageEngine.calculate_fees ext (buy_exchange opportunity) (opp_symbol opportunity)
                                 size (price buy_status) w4 = (buy_fees, w5) ->
  ArbitrageEngine.calculate_fees ext (sell_exchange opportunity) (opp_symbol opportunity)
                                 size (price sell_status) w5 = (sell_fees, w6) ->
  is_zero (mul (price buy_status) size) = false ->
  add_trade ext row w6 = (Ok row_id, w7) ->
  let r' := _execute_arbitrage cfg ext now_ms opportunity r in
  filter (fun a => match a with AddTrade _ => true | _ => false end)
         (map (@action F) (trace r'))
  = (filter (fun a => match a with AddTrade _ => true | _ => false end)
            (map (@action F) (trace r)) ++ [AddTrade row])%list /\
  daily_stats (engine r')
  = count_total ((if lt (lit 0) net_profit
                  then count_success net_profit
                  else count_loss net_profit) (daily_stats (engine r))) /\
  (exists notice,
      In (SendTradeNotification notice) (map (@action F) (trace r')) /\
      notice_profit notice = sub (row_profit row) (row_fees row) /\
      notice_trade_id notice = make_trade_id now_ms) /\
  risk_manager (engine r') = risk_manager (engine r).
Proof.
  cbv zeta.
  intros Hbuy Hstatus Hfilled Hsell Hstatus' Hfilled' Hfee Hfee' Hvalue Hrow.
  unfold_exec.
  rewrite Hbuy. cbn [fst snd engine world trace].
  rewrite Hstatus. cbn [fst snd engine world trace]. rewrite Hfilled.
  cbn [fst snd engine world trace]. rewrite Hsell.
  cbn [fst snd engine world trace]. rewrite Hstatus'.
  cbn [fst snd engine world trace]. rewrite Hfilled'.
  cbn [fst snd engine world trace]. rewrite Hfee.
  cbn [fst snd engine world trace]. rewrite Hfee'.
  cbn [fst snd engine world trace]. rewrite Hvalue.
  cbn [fst snd engine world trace]. rewrite Hrow.
  cbn [fst snd engine world trace daily_stats risk_manager].
  split; [|split; [|split]].
  - rewrite !map_app, !filter_app. cbn [map filter action app].
    now rewrite !app_nil_r.
  - now destruct (lt (lit 0) _).
  - eexists. split.
    + rewrite !map_app. cbn [map action]. rewrite !in_app_iff. cbn [In].
      left. right. left. reflexivity.
    + split; reflexivity.
  - reflexivity.
Qed.

(** X21: when both orders are filled but the fill value of the buy leg,
    fill price times size, is zero, the profit percentage divides by
    zero: no trade is stored and nobody is notified, although both legs
    were executed; the handler counts a failed trade without counting a
    trade. *)
Theorem zero_fill_value_loses_the_trade
        now_ms opportunity (r : Run F W)
        buy_order w1 answer buy_status w2 sell_order w3 answer' sell_status w4 :
  let size := calculate_position_size cfg opportunity (risk_manager (engine r)) in
  place_order ext (buy_exchange opportunity) (opp_symbol opportunity) buy size
              (world r) = (Some buy_order, w1) ->
  get_order_status ext (buy_exchange opportunity) (id buy_order)
                   (sleep ext (execution_delay (arbitrage cfg)) w1) = (answer, w2) ->
  closed answer = Some buy_status ->
  place_order ext (sell_exchange opportunity) (opp_symbol opportunity) sell size w2
  = (Some sell_order, w3) ->
  get_order_status ext (sell_exchange opportunity) (id sell_order)
                   (sleep ext (execution_delay (arbitrage cfg)) w3) = (answer', w4) ->
  closed answer' = Some sell_status ->
  is_zero (mul (price buy_status) size) = true ->
  let r' := _execute_arbitrage cfg ext now_ms opportunity r in
  daily_stats (engine r') = count_failed (daily_stats (engine r)) /\
  total_trades (daily_stats (engine r')) = total_trades (daily_stats (engine r)) /\
  (forall o, In o (trace r') ->
     In o (trace r) \/
     match action o with
     | AddTrade _ | SendTradeNotification _ | CancelOrder _ _ => False
     | _ => True
     end).
Proof.
  cbv zeta.
  intros Hbuy Hstatus Hfilled Hsell Hstatus' Hfilled' Hvalue.
  unfold_exec.
  rewrite Hbuy. cbn [fst snd engine world trace].
  rewrite Hstatus. cbn [fst snd engine world trace]. rewrite Hfilled.
  cbn [fst snd engine world trace]. rewrite Hsell.
  cbn [fst snd engine world trace]. rewrite Hstatus'.
  cbn [fst snd engine world trace]. rewrite Hfilled'.
  cbn [fst snd engine world trace].
  destruct (ArbitrageEngine.calculate_fees ext (buy_exchange opportunity)
              (opp_symbol opportunity) _ (price buy_status) w4) as [fb w5].
  cbn [fst snd engine world trace].
  destruct (ArbitrageEngine.calculate_fees ext (sell_exchange opportunity)
              (opp_symbol opportunity) _ (price sell_status) w5) as [fs w6].
  cbn [fst snd engine world trace]. rewrite Hvalue.
  cbn [fst snd engine world trace daily_stats].
  split; [reflexivity|]. split; [reflexivity|].
  intros o Hin. rewrite <- !app_assoc in Hin. apply in_app_or in Hin.
  destruct Hin as [Hin|Hin]; [now left|]. right.
  cbn [app In] in Hin.
  repeat (destruct Hin as [<-|Hin]; [exact I|]). contradiction.
Qed.

End CoordinatorMore.

(* ================================================================== *)
(** * The decision to execute *)
(* ================================================================== *)

Section ShouldExecute.
Context {F : Type} {PF : PyFloat F}.
Variable cfg : Config F.
Variable exchanges : list string.
Variable get_ticker : string -> string -> option (Ticker F).
Variable fetch_balance : string -> option (dict (dict F)).

(** An entry of the snapshot is the entry of a venue that answered. *)
Lemma entries_get_some sym X names e :
  dict_get X (entries get_ticker sym names) = Some e ->
  exists t,
    In X names /\ get_ticker X sym = Some t /\
    e = price_entry t (mul (quot (sub (ask t) (bid t)) (bid t)) (lit 100)).
Proof.
  induction names as [|Y names IH]; simpl; intros Hget.
  - discriminate.
  - destruct (get_ticker Y sym) as [tY|] eqn:HY; simpl in Hget.
    + destruct (String.eqb_spec X Y) as [->|Hne].
      * injection Hget as <-. exists tY. split; [now left|]. now split.
      * destruct (IH Hget) as [t [Hin Ht]]. exists t. split; [now right | assumption].
    + destruct (IH Hget) as [t [Hin Ht]]. exists t. split; [now right | assumption].
Qed.

(** X22: [_should_execute_opportunity] returns [True] only if the profit
    percentage is not below the threshold, the risk gate admits the
    opportunity, both accounts report a non-zero free USD balance, both
    venues still quote the symbol, the current ask of the buy venue is at
    most [buy_price * (1 + max_slippage)] and the current bid of the sell
    venue at least [sell_price * (1 - max_slippage)].  The balances are
    only tested for being non-zero: they are not compared with the size
    of the trade. *)
Theorem should_execute_only_if_all_checks_pass
        (today : date) (o : Opportunity F) (risk : RiskManager F) :
  NoDup exchanges ->
  fst (Coordinator._should_execute_opportunity cfg exchanges get_ticker fetch_balance
         today o risk) = Ok true ->
  lt (profit_percentage o) (mul (min_profit_threshold (arbitrage cfg)) (lit 100)) = false /\
  fst (can_execute_trade cfg today o risk) = true /\
  (exists b, ExchangeAccess.get_balance fetch_balance (buy_exchange o) "USD" = Some b /\
             is_zero b = false) /\
  (exists b, ExchangeAccess.get_balance fetch_balance (sell_exchange o) "USD" = Some b /\
             is_zero b = false) /\
  exists tb ts,
    In (buy_exchange o) exchanges /\ In (sell_exchange o) exchanges /\
    get_ticker (buy_exchange o) (opp_symbol o) = Some tb /\
    get_ticker (sell_exchange o) (opp_symbol o) = Some ts /\
    lt (mul (buy_price o) (add (lit 1) (max_slippage (arbitrage cfg)))) (ask tb) = false /\
    lt (bid ts) (mul (sell_price o) (sub (lit 1) (max_slippage (arbitrage cfg)))) = false.
Proof.
  intros Hnd. unfold Coordinator._should_execute_opportunity.
  destruct (lt (profit_percentage o) _) eqn:Hthr; [discriminate|].
  destruct (can_execute_trade cfg today o risk) as [admitted risk'] eqn:Hgate.
  destruct admitted; cbn [negb fst]; [|discriminate].
  unfold Coordinator.falsy.
  destruct (ExchangeAccess.get_balance fetch_balance (buy_exchange o) "USD")
    as [bb|] eqn:Hbb; cbn [orb]; [|discriminate].
  destruct (is_zero bb) eqn:Hzb; cbn [orb]; [discriminate|].
  destruct (ExchangeAccess.get_balance fetch_balance (sell_exchange o) "USD")
    as [sb|] eqn:Hsb; [|discriminate].
  destruct (is_zero sb) eqn:Hzs; [discriminate|].
  cbn [fst]. unfold get_best_prices.
  destruct (@get_best_prices_from_cases F PF get_ticker (opp_symbol o) exchanges []
              Hnd (fun _ _ H => H)) as [Hraise|[Hok _]].
  { rewrite Hraise. discriminate. }
  rewrite Hok. cbn [app bind].
  destruct (dict_get (buy_exchange o) (entries get_ticker (opp_symbol o) exchanges))
    as [eb|] eqn:Heb; [|discriminate].
  destruct (dict_get (sell_exchange o) (entries get_ticker (opp_symbol o) exchanges))
    as [es|] eqn:Hes; [|destruct eb; discriminate].
  destruct (entries_get_some _ _ _ Heb) as [tb [Hinb [Htb ->]]].
  destruct (entries_get_some _ _ _ Hes) as [ts [Hins [Hts ->]]].
  unfold price_entry. cbn [dict_item dict_get String.eqb Ascii.eqb Bool.eqb bind].
  destruct (lt (mul (buy_price o) _) (ask tb)) eqn:Hbuy; [discriminate|].
  destruct (lt (bid ts) _) eqn:Hsell; [discriminate|].
  intros _. split; [reflexivity|]. split; [reflexivity|].
  split; [now exists bb|]. split; [now exists sb|].
  exists tb, ts. now repeat split.
Qed.

(** X23: an opportunity is never executed when the balance sheet of its
    buy venue or of its sell venue lacks a USD entry, lacks the free
    amount or reports it as zero: whatever the quotes and the risk state,
    also on quotes on which the price check would raise,
    [_should_execute_opportunity] returns [False]. *)
Theorem no_free_dollars_no_execution
        (today : date) (o : Opportunity F) (risk : RiskManager F)
        (venue : string) (sheet : dict (dict F)) :
  is_zero (lit 0.0 : F) = true ->
  venue = buy_exchange o \/ venue = sell_exchange o ->
  fetch_balance venue = Some sheet ->
  dict_get "USD" sheet = None \/
  (exists usd, dict_get "USD" sheet = Some usd /\
               (dict_get "free" usd = None \/
                exists v, dict_get "free" usd = Some v /\ is_zero v = true)) ->
  forall quotes : string -> string -> option (Ticker F),
    fst (Coordinator._should_execute_opportunity cfg exchanges quotes fetch_balance
           today o risk) = Ok false.
Proof.
  intros Hzero Hvenue Hsheet Husd quotes.
  unfold Coordinator._should_execute_opportunity.
  destruct (lt (profit_percentage o) _); [reflexivity|].
  destruct (can_execute_trade cfg today o risk) as [admitted risk'].
  destruct admitted; cbn [negb]; [|reflexivity].
  assert (Hfalsy : Coordinator.falsy
                     (ExchangeAccess.get_balance fetch_balance venue "USD") = true).
  { unfold ExchangeAccess.get_balance, Coordinator.falsy. rewrite Hsheet.
    unfold dict_get_default. unfold dict in *.
    destruct Husd as [Hnone|[usd [Hsome [Hnone|[v [Hv Hz]]]]]].
    - rewrite Hnone. exact Hzero.
    - rewrite Hsome, Hnone. exact Hzero.
    - rewrite Hsome, Hv. exact Hz. }
  destruct Hvenue as [<-|<-]; rewrite Hfalsy.
  - reflexivity.
  - now rewrite orb_true_r.
Qed.

(** X24: once the threshold, the risk gate and the balances are passed, a
    zero bid quoted for the symbol by any configured venue, also one that
    is neither the buy nor the sell venue of the opportunity, makes
    [_should_execute_opportunity] raise [ZeroDivisionError] instead of
    returning a verdict. *)
Theorem should_execute_raises_on_zero_bid
        (today : date) (o : Opportunity F) (risk : RiskManager F)
        (X : string) (t : Ticker F) :
  lt (profit_percentage o) (mul (min_profit_threshold (arbitrage cfg)) (lit 100)) = false ->
  fst (can_execute_trade cfg today o risk) = true ->
  Coordinator.falsy (ExchangeAccess.get_balance fetch_balance (buy_exchange o) "USD")
  = false ->
  Coordinator.falsy (ExchangeAccess.get_balance fetch_balance (sell_exchange o) "USD")
  = false ->
  In X exchanges ->
  get_ticker X (opp_symbol o) = Some t ->
  is_zero (bid t) = true ->
  fst (Coordinator._should_execute_opportunity cfg exchanges get_ticker fetch_balance
         today o risk) = Raise ZeroDivisionError.
Proof.
  intros Hthr Hgate Hbuy Hsell Hin Ht Hz.
  unfold Coordinator._should_execute_opportunity. rewrite Hthr.
  destruct (can_execute_trade cfg today o risk) as [admitted risk'].
  cbn [fst] in Hgate. subst admitted. cbn [negb].
  rewrite Hbuy, Hsell. cbn [orb fst]. unfold get_best_prices.
  now rewrite (@get_best_prices_from_zero_bid F PF get_ticker (opp_symbol o)
                 exchanges [] X t Hin Ht Hz).
Qed.

End ShouldExecute.

(* ================================================================== *)
(** * The coordinator in exact arithmetic *)
(* ================================================================== *)

Section CoordinatorExact.
Context {W : Type}.
Variable cfg : Config Q.
Variable ext : Collaborators Q W.

(** One execution keeps the totals non-negative. *)
Lemma execute_totals_Q now_ms opportunity (r : Run Q W) :
  0 <= total_profit (daily_stats (engine r)) ->
  0 <= total_loss (daily_stats (engine r)) ->
  0 <= total_profit (daily_stats (engine (_execute_arbitrage cfg ext now_ms opportunity r)))
  /\
  0 <= total_loss (daily_stats (engine (_execute_arbitrage cfg ext now_ms opportunity r))).
Proof.
  intros Hp Hl.
  destruct (@execute_stats_cases Q W _ cfg ext now_ms opportunity r)
    as [->|[->|[np [[Hnp ->]|[Hnp ->]]]]]; simpl.
  - now split.
  - now split.
  - apply lt_Q_true in Hnp. simpl in Hnp. split; [lra | assumption].
  - split; [assumption|]. pose proof (Qabs_nonneg np). lra.
Qed.

Lemma execute_all_totals_Q todo (r : Run Q W) :
  0 <= total_profit (daily_stats (engine r)) ->
  0 <= total_loss (daily_stats (engine r)) ->
  0 <= total_profit (daily_stats (engine (execute_all cfg ext todo r))) /\
  0 <= total_loss (daily_stats (engine (execute_all cfg ext todo r))).
Proof.
  revert r. induction todo as [|[now_ms opportunity] todo IH]; intros r Hp Hl; simpl.
  - now split.
  - destruct (execute_totals_Q now_ms opportunity r Hp Hl) as [Hp' Hl'].
    now apply IH.
Qed.

(** A ratio of counters as a percentage. *)
Lemma percentage_bounds (s t : Z) :
  (0 <= s <= t)%Z -> (0 < t)%Z ->
  0 <= inject_Z s / inject_Z t * 100 <= 100.
Proof.
  intros [Hs Hst] Ht.
  assert (Ht' : 0 < inject_Z t) by (change 0 with (inject_Z 0); now rewrite <- Zlt_Qlt).
  assert (Hs' : 0 <= inject_Z s) by (change 0 with (inject_Z 0); now rewrite <- Zle_Qle).
  assert (Hst' : inject_Z s <= inject_Z t) by now rewrite <- Zle_Qle.
  assert (H0 : 0 <= inject_Z s / inject_Z t).
  { apply Qle_shift_div_l; [assumption | lra]. }
  assert (H1 : inject_Z s / inject_Z t <= 1).
  { apply Qle_shift_div_r; [assumption | lra]. }
  split; lra.
Qed.

(** X25 (in exact arithmetic): after any sequence of executions from
    construction, [total_profit] and [total_loss] are non-negative, and a
    pass of [_update_daily_stats] sets [net_profit] to their difference,
    [win_rate], once a trade is counted, to a percentage between 0 and
    100, and [average_profit], once a success is counted, to a
    non-negative amount. *)
Theorem derived_statistics_in_range
        (todo : list (Z * Opportunity Q)) (today : date) (w0 : W)
        (earlier : Coordinator.DerivedStats Q) :
  let d := daily_stats
             (engine (execute_all cfg ext todo
                        {| engine := ArbitrageEngine.__init__ today;
                           world := w0; trace := [] |})) in
  let derived := Coordinator._update_daily_stats d earlier in
  0 <= total_profit d /\ 0 <= total_loss d /\
  Coordinator.net_profit derived = Some (total_profit d - total_loss d) /\
  ((0 < total_trades d)%Z ->
   exists w, Coordinator.win_rate derived = Some w /\ 0 <= w <= 100) /\
  ((0 < successful_trades d)%Z ->
   exists a, Coordinator.average_profit derived = Some a /\ 0 <= a).
Proof.
  cbv zeta.
  set (r0 := {| engine := ArbitrageEngine.__init__ today; world := w0; trace := [] |}).
  destruct (execute_all_totals_Q todo r0) as [Hp Hl]; [simpl; lra | simpl; lra |].
  assert (Hc : Coordinator.counters_consistent
                 (daily_stats (engine (execute_all cfg ext todo r0)))).
  { assert (Hkeep : forall todo' (r : Run Q W),
               Coordinator.counters_consistent (daily_stats (engine r)) /\
               (0 <= failed_trades (daily_stats (engine r)))%Z ->
               Coordinator.counters_consistent
                 (daily_stats (engine (execute_all cfg ext todo' r))) /\
               (0 <= failed_trades
                       (daily_stats (engine (execute_all cfg ext todo' r))))%Z).
    { induction todo' as [|[now_ms opportunity] todo' IH]; intros r Hr; simpl.
      - assumption.
      - apply IH. destruct Hr as [[H0 [H1 H2]] H3].
        unfold Coordinator.counters_consistent.
        destruct (@execute_stats_cases Q W _ cfg ext now_ms opportunity r)
          as [->|[->|[np [[_ ->]|[_ ->]]]]]; simpl; lia. }
    apply Hkeep. unfold Coordinator.counters_consistent. simpl. lia. }
  destruct Hc as [Hc0 [Hc1 _]].
  split; [assumption|]. split; [assumption|]. split; [reflexivity|]. split.
  - intros Htot. unfold Coordinator._update_daily_stats.
    cbn [Coordinator.win_rate].
    apply Z.ltb_lt in Htot. rewrite Htot. eexists. split; [reflexivity|].
    unfold Coordinator.of_int. simpl. apply percentage_bounds; [lia|].
    now apply Z.ltb_lt.
  - intros Hsucc. unfold Coordinator._update_daily_stats.
    cbn [Coordinator.average_profit].
    apply Z.ltb_lt in Hsucc. rewrite Hsucc. eexists. split; [reflexivity|].
    unfold Coordinator.of_int. simpl. apply Qle_shift_div_l.
    + change 0 with (inject_Z 0). rewrite <- Zlt_Qlt. now apply Z.ltb_lt.
    + lra.
Qed.

(** X26 (in exact arithmetic): no execution, won or lost, changes the
    verdict of the risk gate.  After any sequence of executions from
    construction the risk manager is still the one constructed, and with
    a positive loss limit and room for at least one trade
    [can_execute_trade] admits an opportunity exactly when its profit
    percentage lies between [min_profit_threshold * 100] and [5]. *)
Theorem gate_blind_to_executions
        (todo : list (Z * Opportunity Q)) (today now : date) (w0 : W)
        (o : Opportunity Q) :
  0 < max_daily_loss cfg ->
  (0 < max_concurrent_trades cfg)%Z ->
  let r := execute_all cfg ext todo
             {| engine := ArbitrageEngine.__init__ today; world := w0; trace := [] |} in
  risk_manager (engine r) = RiskManager.__init__ today /\
  (fst (can_execute_trade cfg now o (risk_manager (engine r))) = true <->
   min_profit_threshold (arbitrage cfg) * 100 <= profit_percentage o /\
   profit_percentage o <= 5).
Proof.
  intros Hloss Hroom. cbv zeta.
  rewrite (@execute_all_keeps_risk_manager Q W _ cfg ext todo).
  cbn [engine risk_manager ArbitrageEngine.__init__].
  split; [reflexivity|].
  rewrite can_execute_trade_verdict.
  cbn [RiskManager.__init__ last_reset daily_loss active_trades max_drawdown].
  unfold len. cbn [length].
  split.
  - intros [_ [_ [_ H]]]. exact H.
  - intros H. split; [destruct (today <? now)%Z; simpl; lra|].
    split; [simpl; lia|]. split; [simpl; lra | exact H].
Qed.

End CoordinatorExact.

(* ================================================================== *)
(** * Concrete runs of the further properties *)
(* ================================================================== *)

Local Open Scope Z_scope.

Lemma three_venues_distinct : NoDup ["A"; "B"; "C"].
Proof.
  constructor; [intros [H|[H|[]]]; discriminate|].
  constructor; [intros [H|[]]; discriminate|].
  constructor; [intros []|constructor].
Qed.


(** X2 applies to Scenario B: three venues with overlapping ranges. *)
Lemma detector_empty_without_crossing_witness :
  NoDup ["A"; "B"; "C"] /\
  find_arbitrage_opportunities (F:=float) config ["A"; "B"; "C"]
                               overlapping_quotes "EUR/USD" = Ok [].
Proof.
  split; [exact three_venues_distinct|].
  apply (@detector_empty_without_crossing
           float _ config ["A"; "B"; "C"] overlapping_quotes "EUR/USD"
           three_venues_distinct).
  - intros X t [<-|[<-|[<-|[]]]] Ht; vm_compute in Ht; injection Ht as <-;
      vm_compute; reflexivity.
  - intros X Y tX tY [<-|[<-|[<-|[]]]] [<-|[<-|[<-|[]]]] _ HX HY;
      vm_compute in HX; vm_compute in HY;
      injection HX as <-; injection HY as <-; vm_compute; reflexivity.
Defined.

(** X3 applies to Scenario A with a threshold of 0.05 percent. *)
Lemma emitted_opportunities_meet_the_floor_witness :
  let cfg := with_min_profit_threshold (F:=float) 0.0005 in
  let o := opportunity_for "EUR/USD" "A" "B"
                           (quote "A" "EUR/USD" 1.1998 1.2000 5)
                           (quote "B" "EUR/USD" 1.2008 1.2010 7) in
  find_arbitrage_opportunities cfg ["A"; "B"] scenario_A "EUR/USD" = Ok [o] /\
  lt (profit_percentage o) (mul (min_profit_threshold (arbitrage cfg)) (lit 100))
  = false.
Proof.
  cbv zeta.
  assert (Hfind :
            find_arbitrage_opportunities
              (with_min_profit_threshold (F:=float) 0.0005) ["A"; "B"]
              scenario_A "EUR/USD"
            = Ok [opportunity_for "EUR/USD" "A" "B"
                                  (quote "A" "EUR/USD" 1.1998 1.2000 5)
                                  (quote "B" "EUR/USD" 1.2008 1.2010 7)])
    by (vm_compute; reflexivity).
  split; [exact Hfind|].
  destruct (@emitted_opportunities_meet_the_floor
              float _ (with_min_profit_threshold 0.0005) ["A"; "B"]
              scenario_A "EUR/USD" _
              le_excludes_gt_binary64 two_venues_distinct scenario_A_usable Hfind
              _ (or_introl eq_refl)) as [H _].
  exact H.
Defined.

(** X4 applies to Scenario A in exact arithmetic, with a threshold of
    0.05 percent. *)
Lemma at_most_one_direction_per_pair_witness :
  let cfg := with_min_profit_threshold (F:=Q) 0.0005 in
  exists opps,
    find_arbitrage_opportunities cfg ["A"; "B"] scenario_A "EUR/USD" = Ok opps /\
    opps <> [] /\
    forall o1 o2, In o1 opps -> In o2 opps ->
      ~ (buy_exchange o1 = sell_exchange o2 /\ sell_exchange o1 = buy_exchange o2).
Proof.
  cbv zeta.
  assert (Hfind :
            find_arbitrage_opportunities
              (with_min_profit_threshold (F:=Q) 0.0005) ["A"; "B"]
              scenario_A "EUR/USD"
            = Ok [opportunity_for "EUR/USD" "A" "B"
                                  (quote "A" "EUR/USD" 1.1998 1.2000 5)
                                  (quote "B" "EUR/USD" 1.2008 1.2010 7)])
    by (vm_compute; reflexivity).
  eexists. split; [exact Hfind|]. split; [discriminate|].
  apply (@at_most_one_direction_per_pair
           (with_min_profit_threshold 0.0005) ["A"; "B"] scenario_A "EUR/USD" _
           two_venues_distinct).
  - intros X t [<-|[<-|[]]] Ht; vm_compute in Ht; injection Ht as <-;
      split; vm_compute; reflexivity.
  - intros X t [<-|[<-|[]]] Ht; vm_compute in Ht; injection Ht as <-;
      vm_compute; discriminate.
  - exact Hfind.
Defined.

(** X5 applies: A and B answer, C does not. *)
Lemma get_all_tickers_one_row_per_answer_witness :
  NoDup ["A"; "B"; "C"] /\
  map (@ExchangeAccess.pr_exchange float)
      (snd (ExchangeAccess.get_all_tickers
              ["A"; "B"; "C"] scenario_A (@ExchangeAccess.storing float)
              "EUR/USD" []))
  = ["A"; "B"].
Proof.
  split; [exact three_venues_distinct|].
  destruct (@get_all_tickers_one_row_per_answer
              float ["A"; "B"; "C"] scenario_A "EUR/USD" []
              three_venues_distinct) as [Hrun [_ Hrows]].
  rewrite Hrun. cbn [snd app]. rewrite Hrows. reflexivity.
Defined.

(** X6 applies: the database fails on every row. *)
Lemma get_all_tickers_propagates_database_error_witness :
  fst (ExchangeAccess.get_all_tickers
         ["A"; "B"] (scenario_A (F:=float)) (failing_store (F:=float)) "EUR/USD" O)
  = Raise (OtherException "OperationalError").
Proof.
  apply (@get_all_tickers_propagates_database_error
           float ["A"; "B"] scenario_A "EUR/USD" nat failing_store
           (OtherException "OperationalError") O "A" (quote "A" "EUR/USD" 1.1998 1.2000 5)).
  - intros row w'. reflexivity.
  - now left.
  - vm_compute. reflexivity.
Defined.

(** X7 applies in binary64: a trade registered and then recorded under
    ["arb_1"]. *)
Lemma register_then_record_releases_witness :
  OrderLaws (F := float) /\
  exists s',
    record_trade (completed (Some "arb_1") 5)
                 (add_active_trade (lit 0) (registration (Some "arb_1"))
                                   (RiskManager.__init__ (F:=float) 0)) = Ok s' /\
    active_trades s' = [].
Proof.
  split; [exact order_laws_binary64|].
  destruct (@register_then_record_releases
              float _ order_laws_binary64 (lit 0)
              (registration (Some "arb_1")) (completed (Some "arb_1") 5)
              (RiskManager.__init__ 0) eq_refl eq_refl) as [s' [Hrun [Hact _]]].
  exists s'. split; [exact Hrun | exact Hact].
Defined.

(** X8 applies in binary64: a trade registered without an id survives a
    loss, a profit recorded under an id and a daily reset. *)
Lemma unidentified_trade_never_released_witness :
  OrderLaws (F := float) /\
  exists s',
    run (F:=float) config
        [RecordTrade (completed None (-5));
         RecordTrade (completed (Some "arb_1") 5);
         ResetDailyCounters 1]
        (holding_unidentified 0) = Ok s' /\
    (0 < len (active_trades s'))%Z.
Proof.
  split; [exact order_laws_binary64|].
  destruct (@unidentified_trade_never_released
              float _ config order_laws_binary64
              [RecordTrade (completed None (-5));
               RecordTrade (completed (Some "arb_1") 5);
               ResetDailyCounters 1]
              (holding_unidentified 0)
              {| trade_id := None;
                 start_time := lit 0;
                 at_symbol := Some "EUR/USD";
                 at_buy_exchange := Some "A";
                 at_sell_exchange := Some "B";
                 position_size := Some (lit 1000);
                 expected_profit := None |}
              (or_introl eq_refl) eq_refl) as [s' [Hrun Hin]].
  exists s'. split; [exact Hrun|].
  unfold len. destruct (active_trades s'); [contradiction | simpl; lia].
Defined.

(** X9 applies in binary64: two trades recorded and one risk check on the
    day of construction. *)
Lemma daily_trades_counts_recorded_witness :
  OrderLaws (F := float) /\
  exists s',
    run (F:=float) config
        [RecordTrade (completed None (-5));
         CanExecuteTrade 0 opportunity_A_B;
         RecordTrade (completed None 5)]
        (RiskManager.__init__ 0) = Ok s' /\
    daily_trades s' = 2%Z.
Proof.
  split; [exact order_laws_binary64|].
  destruct (@daily_trades_counts_recorded
              float _ config order_laws_binary64
              [RecordTrade (completed None (-5));
               CanExecuteTrade 0 opportunity_A_B;
               RecordTrade (completed None 5)]
              (RiskManager.__init__ 0)) as [s' [Hrun Hcount]].
  - intros op [<-|[<-|[<-|[]]]]; reflexivity.
  - exists s'. split; [exact Hrun | exact Hcount].
Defined.

(** X10 applies: a loss of 150 recorded on a newly constructed risk
    manager, in binary64 and in exact arithmetic. *)
Lemma losses_before_any_peak_are_no_drawdown_witness :
  exists s,
    run (F:=float) config
        [RecordTrade (completed None (-150)); CanExecuteTrade 0 opportunity_A_B]
        (RiskManager.__init__ 0) = Ok s /\
    le (lit 0.1) (max_drawdown s) = false.
Proof.
  assert (Hf : forallb RiskAdvisory.leaves_peak
                 [RecordTrade (completed (F:=float) None (-150));
                  CanExecuteTrade 0 opportunity_A_B] = true)
    by (vm_compute; reflexivity).
  assert (Hq : forallb RiskAdvisory.leaves_peak
                 [RecordTrade (completed (F:=Q) None (-150));
                  CanExecuteTrade 0 opportunity_A_B] = true)
    by (vm_compute; reflexivity).
  destruct (@losses_before_any_peak_are_no_drawdown
              0 config _ config _ Hf Hq) as [[s [Hrun [_ [_ Hle]]]] _].
  exists s. split; [exact Hrun | exact Hle].
Defined.

(** X13 applies in exact arithmetic: a daily loss of 100, the configured
    limit, checked on the day of the last reset. *)
Lemma daily_loss_limit_holds_until_rollover_witness :
  (max_daily_loss (F:=Q) config <= daily_loss (mid_day (F:=Q) 10%Z 100 3%Z 0))%Q /\
  fst (can_execute_trade config 10 opportunity_A_B (mid_day (F:=Q) 10 100 3 0))
  = false.
Proof.
  assert (Hloss : (max_daily_loss (F:=Q) config
                   <= daily_loss (mid_day (F:=Q) 10%Z 100 3%Z 0))%Q)
    by (vm_compute; discriminate).
  assert (Hlimit : (0 < max_daily_loss (F:=Q) config)%Q) by (vm_compute; reflexivity).
  split; [exact Hloss|].
  apply (proj1 (@daily_loss_limit_holds_until_rollover
                  config 10 opportunity_A_B (mid_day 10 100 3 0) Hloss Hlimit)).
  simpl. lia.
Defined.

(** X16 applies: the venues refuse every order. *)
Lemma refused_buy_order_ends_execution_witness :
  let r' := _execute_arbitrage (F:=float) config venues_refusing 1700000000000
                               opportunity_A_B (fresh_run 0) in
  engine r' = engine (fresh_run 0) /\ world r' = 1%nat /\ len (trace r') = 3%Z.
Proof.
  cbv zeta.
  rewrite (@refused_buy_order_ends_execution
             float nat _ config venues_refusing 1700000000000
             opportunity_A_B (fresh_run 0) 1%nat eq_refl).
  repeat split.
Defined.

(** X17 applies: the venues fill the buy order and refuse the sell
    order. *)
Lemma refused_sell_order_leaves_position_open_witness :
  let r' := _execute_arbitrage (F:=float) config venues_refusing_sell 1700000000000
                               opportunity_A_B (fresh_run 0) in
  engine r' = engine (fresh_run 0) /\ world r' = 4%nat /\ len (trace r') = 6%Z.
Proof.
  cbv zeta.
  rewrite (@refused_sell_order_leaves_position_open
             float nat _ config venues_refusing_sell 1700000000000
             opportunity_A_B (fresh_run 0)
             {| id := "order-1" |} 1%nat
             (Some {| status := "closed"; price := lit 1.2 |})
             {| status := "closed"; price := lit 1.2 |} 3%nat 4%nat
             eq_refl eq_refl eq_refl eq_refl).
  repeat split.
Defined.

(** X18 applies: the venues fill the buy order and leave the sell order
    open. *)
Lemma unfilled_sell_order_leaves_position_open_witness :
  let r' := _execute_arbitrage (F:=float) config venues_filling_first_only
                               1700000000000 opportunity_A_B (fresh_run 0) in
  engine r' = engine (fresh_run 0) /\ world r' = 7%nat /\ len (trace r') = 9%Z.
Proof.
  cbv zeta.
  rewrite (@unfilled_sell_order_leaves_position_open
             float nat _ config venues_filling_first_only 1700000000000
             opportunity_A_B (fresh_run 0)
             {| id := "order-1" |} 1%nat
             (Some {| status := "closed"; price := lit 1.2 |})
             {| status := "closed"; price := lit 1.2 |} 3%nat
             {| id := "order-1" |} 4%nat
             (Some {| status := "open"; price := lit 1.2 |}) 6%nat
             eq_refl eq_refl eq_refl eq_refl eq_refl eq_refl).
  repeat split.
Defined.

(** X20 applies: bought at 1.2, sold at 1.205, a fee of 0.5 per leg; the
    trade is counted once, as a success. *)
Lemma filled_trade_is_recorded_once_witness :
  let r' := _execute_arbitrage (F:=float) config (venues_filling_at 1.2 1.205 0.5)
                               1700000000000 opportunity_A_B (fresh_run 0) in
  total_trades (daily_stats (engine r')) = 1%Z /\
  successful_trades (daily_stats (engine r')) = 1%Z /\
  risk_manager (engine r') = RiskManager.__init__ 0.
Proof.
  cbv zeta.
  assert (Hvalue :
            is_zero (mul (price {| status := "closed"; price := lit (F:=float) 1.2 |})
                         (calculate_position_size config opportunity_A_B
                            (risk_manager (engine (fresh_run 0))))) = false)
    by (vm_compute; reflexivity).
  destruct (@filled_trade_is_recorded_once
              float nat _ config (venues_filling_at 1.2 1.205 0.5) 1700000000000
              opportunity_A_B (fresh_run 0)
              {| id := "order-1" |} 1%nat
              (Some {| status := "closed"; price := lit 1.2 |})
              {| status := "closed"; price := lit 1.2 |} 3%nat
              {| id := "order-1" |} 4%nat
              (Some {| status := "closed"; price := lit 1.205 |})
              {| status := "closed"; price := lit 1.205 |} 6%nat
              (lit 0.5) 7%nat (lit 0.5) 8%nat 1%Z 9%nat
              eq_refl eq_refl eq_refl eq_refl eq_refl eq_refl eq_refl eq_refl
              Hvalue eq_refl) as [_ [Hstats [_ Hrisk]]].
  rewrite Hstats, Hrisk. repeat split; vm_compute; reflexivity.
Defined.

(** X21 applies: the buy order is reported filled at a price of 0. *)
Lemma zero_fill_value_loses_the_trade_witness :
  let r' := _execute_arbitrage (F:=float) config (venues_filling_at 0 1.2 0)
                               1700000000000 opportunity_A_B (fresh_run 0) in
  failed_trades (daily_stats (engine r')) = 1%Z /\
  total_trades (daily_stats (engine r')) = 0%Z.
Proof.
  cbv zeta.
  assert (Hvalue :
            is_zero (mul (price {| status := "closed"; price := lit (F:=float) 0 |})
                         (calculate_position_size config opportunity_A_B
                            (risk_manager (engine (fresh_run 0))))) = true)
    by (vm_compute; reflexivity).
  destruct (@zero_fill_value_loses_the_trade
              float nat _ config (venues_filling_at 0 1.2 0) 1700000000000
              opportunity_A_B (fresh_run 0)
              {| id := "order-1" |} 1%nat
              (Some {| status := "closed"; price := lit 0 |})
              {| status := "closed"; price := lit 0 |} 3%nat
              {| id := "order-1" |} 4%nat
              (Some {| status := "closed"; price := lit 1.2 |})
              {| status := "closed"; price := lit 1.2 |} 6%nat
              eq_refl eq_refl eq_refl eq_refl eq_refl eq_refl Hvalue)
    as [Hstats [Htotal _]].
  rewrite Htotal, Hstats. split; reflexivity.
Defined.

(** X22 applies in binary64: both accounts funded, the quotes unchanged
    since detection. *)
Lemma should_execute_only_if_all_checks_pass_witness :
  fst (Coordinator._should_execute_opportunity
         (F:=float) config ["A"; "B"] wide_quotes funded 0 wide_opportunity
         (RiskManager.__init__ 0)) = Ok true /\
  fst (can_execute_trade (F:=float) config 0 wide_opportunity (RiskManager.__init__ 0))
  = true.
Proof.
  assert (Hyes : fst (Coordinator._should_execute_opportunity
                        (F:=float) config ["A"; "B"] wide_quotes funded 0
                        wide_opportunity (RiskManager.__init__ 0)) = Ok true)
    by (vm_compute; reflexivity).
  split; [exact Hyes|].
  destruct (@should_execute_only_if_all_checks_pass
              float _ config ["A"; "B"] wide_quotes funded 0 wide_opportunity
              (RiskManager.__init__ 0) two_venues_distinct Hyes) as [_ [H _]].
  exact H.
Defined.

(** X23 applies in binary64: the account on the buy venue holds euros
    only. *)
Lemma no_free_dollars_no_execution_witness :
  fst (Coordinator._should_execute_opportunity
         (F:=float) config ["A"; "B"] wide_quotes euros_only_on_A 0 wide_opportunity
         (RiskManager.__init__ 0)) = Ok false.
Proof.
  assert (Hzero : is_zero (lit 0.0 : float) = true) by (vm_compute; reflexivity).
  assert (Hsheet : euros_only_on_A (F:=float) "A"
                   = Some [ ("EUR", [ ("free", lit 5000) ]) ])
    by reflexivity.
  apply (@no_free_dollars_no_execution
           float _ config ["A"; "B"] euros_only_on_A 0 wide_opportunity
           (RiskManager.__init__ 0) "A" _ Hzero (or_introl eq_refl) Hsheet
           (or_introl eq_refl) wide_quotes).
Defined.

(** X24 applies in binary64: venue C, party to neither leg, quotes a zero
    bid. *)
Lemma should_execute_raises_on_zero_bid_witness :
  fst (Coordinator._should_execute_opportunity
         (F:=float) config ["A"; "B"; "C"] zero_bid_quotes funded 0 wide_opportunity
         (RiskManager.__init__ 0)) = Raise ZeroDivisionError.
Proof.
  apply (@should_execute_raises_on_zero_bid
           float _ config ["A"; "B"; "C"] zero_bid_quotes funded 0 wide_opportunity
           (RiskManager.__init__ 0) "C" (quote "C" "EUR/USD" 0 1.2000 9)).
  - vm_compute. reflexivity.
  - vm_compute. reflexivity.
  - vm_compute. reflexivity.
  - vm_compute. reflexivity.
  - right. right. now left.
  - vm_compute. reflexivity.
  - vm_compute. reflexivity.
Defined.

(** X26 applies in exact arithmetic: after a trade bought at 1.2 and sold
    at 1.19, a loss of 10 before fees, the gate admits the next
    opportunity. *)
Lemma gate_blind_to_executions_witness :
  let r := execute_all (F:=Q) config (venues_filling_at 1.2 1.19 0.5)
                       [(1700000000000, opportunity_A_B)] (fresh_run 0) in
  (total_loss (daily_stats (engine r)) == 11)%Q /\
  fst (can_execute_trade config 0 opportunity_A_B (risk_manager (engine r))) = true.
Proof.
  cbv zeta. split; [vm_compute; reflexivity|].
  assert (Hloss : (0 < max_daily_loss (F:=Q) config)%Q) by (vm_compute; reflexivity).
  assert (Hroom : 0 < max_concurrent_trades (F:=Q) config) by (vm_compute; reflexivity).
  apply (proj2 (@gate_blind_to_executions
                  nat config (venues_filling_at 1.2 1.19 0.5)
                  [(1700000000000, opportunity_A_B)] 0 0 O
                  opportunity_A_B Hloss Hroom)).
  split; vm_compute; discriminate.
Defined.
